(** * Civic complaint assistant: retrieval, fusion and decision core

    A shallow embedding of the Python modules [core/response.py],
    [core/recommend.py], [core/hybrid.py], [core/memory.py] and
    [core/agent_v2.py], followed by the properties established for them.

    Conventions of the embedding.
    - A Python [int] is a [Z]; a Python [float] is rendered as an exact
      rational [Q] (the arithmetic of the source is read over the rationals).
    - A Python [str] is a [string]; its characters are read as code points
      below 256.
    - A [dict] that is only read by key is a [gmap string _]; a list stays a
      list; [None] is the constructor [VNone] or an [option].
    - A call that can raise returns a [result]; the exception is propagated
      exactly where the source has no handler.
    - Calls into the vector database, the embedding models, the clock and the
      BM25 scorer are inputs of the embedding (record fields or section
      variables). *)

From Stdlib Require Import ZArith QArith Qminmax Qround String Ascii List Lia Lqa.
From Stdlib Require Import DecimalString DecimalZ DecimalPos Permutation Sorted.
From stdpp Require Import gmap strings list.

Open Scope Z_scope.
Open Scope string_scope.

(* ===================================================================== *)
(** ** Python values, exceptions and strings                              *)
(* ===================================================================== *)

(** The payload values that occur in this repository: scalars and lists of
    strings ([channel_type], [required_fields]). *)
Inductive value : Type :=
  | VNone
  | VBool (b : bool)
  | VInt (n : Z)
  | VFloat (q : Q)
  | VStr (s : string)
  | VList (l : list string).

Abbreviation dict := (gmap string value).

Inductive exn : Type :=
  | KeyError (k : string)
  | IndexError
  | ValueError
  | TypeError
  | ZeroDivisionError
  | OverflowError
  | ConnectionError
  | Unsupported.

Inductive result (A : Type) : Type :=
  | Ok (a : A)
  | Raise (e : exn).
Arguments Ok {A} a.
Arguments Raise {A} e.

Definition bind {A B : Type} (r : result A) (k : A -> result B) : result B :=
  match r with
  | Ok a => k a
  | Raise e => Raise e
  end.

Notation "'let*' x ':=' r 'in' k" := (bind r (fun x => k))
  (at level 10, x name, r at level 100, k at level 200).

(** [try: r  except Exception: h] *)
Definition try_except {A : Type} (r : result A) (h : result A) : result A :=
  match r with
  | Ok a => Ok a
  | Raise _ => h
  end.

(** Truth value of an object ([if v:], [not v], [a or b]). *)
Definition truthy (v : value) : bool :=
  match v with
  | VNone => false
  | VBool b => b
  | VInt n => negb (n =? 0)%Z
  | VFloat q => negb (Qeq_bool q 0)
  | VStr s => negb (String.eqb s EmptyString)
  | VList l => match l with [] => false | _ => true end
  end.

(** [d.get(k)]: a missing key reads as [None]. *)
Definition dict_get (d : dict) (k : string) : value :=
  match d !! k with
  | Some v => v
  | None => VNone
  end.

(** [d.get(k, dflt)] *)
Definition dict_get_default (d : dict) (k : string) (dflt : value) : value :=
  match d !! k with
  | Some v => v
  | None => dflt
  end.

(** [str.isspace] on one character (code points below 256). *)
Definition is_space (c : ascii) : bool :=
  let n := nat_of_ascii c in
  ((9 <=? n) && (n <=? 13) || (28 <=? n) && (n <=? 32)
   || (n =? 133) || (n =? 160))%nat.

Fixpoint lstrip (s : string) : string :=
  match s with
  | String c r => if is_space c then lstrip r else s
  | EmptyString => EmptyString
  end.

(** Drops the trailing white space: a character is kept when it is not a
    space or when something is kept after it. *)
Fixpoint rstrip (s : string) : string :=
  match s with
  | String c r =>
      match rstrip r with
      | EmptyString => if is_space c then EmptyString else String c EmptyString
      | r' => String c r'
      end
  | EmptyString => EmptyString
  end.

(** [s.strip()] *)
Definition strip (s : string) : string := rstrip (lstrip s).

(** [s.endswith(suffix)]: the suffix is found at some position of [s] and
    reaches its end. *)
Fixpoint endswith (s suffix : string) : bool :=
  if String.eqb s suffix then true
  else match s with
       | String _ r => endswith r suffix
       | EmptyString => false
       end.

(** [str(n)] for an [int]. *)
Definition str_of_int (n : Z) : string :=
  NilZero.string_of_int (Z.to_int n).

Definition digit_of (c : ascii) : option Z :=
  let n := nat_of_ascii c in
  if ((48 <=? n) && (n <=? 57))%nat then Some (Z.of_nat n - 48) else None.

(** The digits of an integer literal as [int(str)] accepts them: decimal
    digits, with single underscores allowed between two digits. [acc] is the
    value read so far and [prev_digit] tells whether the previous character
    was a digit. *)
Fixpoint int_digits (s : string) (acc : Z) (prev_digit : bool) : option Z :=
  match s with
  | EmptyString => if prev_digit then Some acc else None
  | String c r =>
      match digit_of c with
      | Some d => int_digits r (10 * acc + d) true
      | None =>
          if Ascii.eqb c "_" && prev_digit
          then match r with
               | String c' _ =>
                   match digit_of c' with
                   | Some _ => int_digits r acc false
                   | None => None
                   end
               | EmptyString => None
               end
          else None
      end
  end.

(** The white space that [int] skips around a number: the characters of
    C's [isspace] and, below 256, the two non-ASCII spaces, which the
    interpreter turns into blanks before it reads the number. The
    separators U+001C to U+001F, white space for [str.isspace] and
    [str.strip], are not skipped. *)
Definition is_int_space (c : ascii) : bool :=
  let n := nat_of_ascii c in
  ((9 <=? n) && (n <=? 13) || (n =? 32) || (n =? 133) || (n =? 160))%nat.

Fixpoint lstrip_int (s : string) : string :=
  match s with
  | String c r => if is_int_space c then lstrip_int r else s
  | EmptyString => EmptyString
  end.

Fixpoint rstrip_int (s : string) : string :=
  match s with
  | String c r =>
      match rstrip_int r with
      | EmptyString => if is_int_space c then EmptyString else String c EmptyString
      | r' => String c r'
      end
  | EmptyString => EmptyString
  end.

(** [int(s)] for a string: surrounding white space, an optional sign, then
    the digits. [None] stands for [ValueError]. (The interpreter's
    configurable bound on the number of digits is not part of the model.) *)
Definition int_of_str (s : string) : option Z :=
  match rstrip_int (lstrip_int s) with
  | String "+" r => int_digits r 0 false
  | String "-" r => Z.opp <$> int_digits r 0 false
  | r => int_digits r 0 false
  end.

(** [int(v)] for a payload value. A float is truncated towards zero. *)
Definition py_int (v : value) : result Z :=
  match v with
  | VNone => Raise TypeError
  | VBool b => Ok (if b then 1 else 0)
  | VInt n => Ok n
  | VFloat q => Ok (Z.quot (Qnum q) (Z.pos (Qden q)))
  | VStr s => match int_of_str s with Some n => Ok n | None => Raise ValueError end
  | VList _ => Raise TypeError
  end.

(** Iterating a payload value that is expected to be a list of strings:
    a list yields its elements, a string its characters, anything else is
    not iterable. *)
Fixpoint chars_of (s : string) : list string :=
  match s with
  | String c r => String c EmptyString :: chars_of r
  | EmptyString => []
  end.

Definition iter_strs (v : value) : result (list string) :=
  match v with
  | VList l => Ok l
  | VStr s => Ok (chars_of s)
  | _ => Raise TypeError
  end.

(** [l[:n]] *)
Definition slice_to {A : Type} (l : list A) (n : Z) : list A :=
  if (0 <=? n)%Z then firstn (Z.to_nat n) l
  else firstn (length l - Z.to_nat (- n)) l.

(** [sorted(l, key=key, reverse=True)]: the stable sort in descending key
    order, written as an insertion sort; equal keys keep their order. *)
Fixpoint insert_desc {A : Type} (key : A -> Q) (x : A) (l : list A) : list A :=
  match l with
  | [] => [x]
  | y :: r =>
      if Qle_bool (key y) (key x) then x :: y :: r
      else y :: insert_desc key x r
  end.

Definition sort_desc {A : Type} (key : A -> Q) (l : list A) : list A :=
  foldr (insert_desc key) [] l.

(* ===================================================================== *)
(** ** core/response.py                                                   *)
(* ===================================================================== *)

(** [snippet(txt, n)] *)
Definition snippet (txt : string) (n : nat) : string :=
  if String.eqb txt EmptyString then EmptyString
  else String.substring 0 n txt
       +:+ (if (n <? String.length txt)%nat then "..." else EmptyString).

(** [confidence_from_score(score)] *)
Definition confidence_from_score (score : option Q) : string :=
  match score with
  | None => "low"
  | Some s =>
      if Qle_bool 0.35 s then "high"
      else if Qle_bool 0.25 s then "medium"
      else "low"
  end.

(** [escalation_steps(sla_days, waited_days=None)]: the second definition of
    the module, which rebinds the name and is the one every caller gets. *)
Definition escalation_steps (sla_days : Z) (waited_days : option Z) : list string :=
  let waited := match waited_days with Some w => w | None => sla_days end in
  [ "Day 0: Submit via recommended channel and save screenshot/ticket.";
    "Day " +:+ str_of_int (Z.min 1 waited)
      +:+ ": If no acknowledgement, re-submit with photo + landmark.";
    "Day " +:+ str_of_int (Z.min sla_days waited)
      +:+ ": If no resolution within SLA (" +:+ str_of_int sla_days
      +:+ " days), escalate to ward/zone officer.";
    "Day " +:+ str_of_int (Z.min (sla_days + 2) (waited + 2))
      +:+ ": If still unresolved, email commissioner/municipal grievance cell with prior ticket proof.";
    "Day " +:+ str_of_int (Z.min (sla_days + 5) (waited + 5))
      +:+ ": File on state grievance portal / RTI if applicable (attach evidence)." ].

(** *** [str.format] with keyword arguments

    The fragment of the format mini-language that complaint templates use:
    literal text, the escapes [{{] and [}}], and replacement fields [{name}].
    A field that has a conversion, a format specification, an attribute or
    index access or a nested field is outside the fragment and yields
    [Unsupported]. The state is [None] in literal text and [Some name] inside
    a field whose name has been read up to [name]. *)
Definition field_special (c : ascii) : bool :=
  Ascii.eqb c "{" || Ascii.eqb c "!" || Ascii.eqb c ":"
  || Ascii.eqb c "." || Ascii.eqb c "[" || Ascii.eqb c "]".

Definition all_digits (s : string) : bool :=
  forallb (fun c => match digit_of c with Some _ => true | None => false end)
          (list_ascii_of_string s).

(** The value of the field [name]: an empty or numeric name indexes the
    positional arguments, of which there are none. *)
Definition format_field (kwargs : gmap string string) (name : string) : result string :=
  if all_digits name then Raise IndexError
  else match kwargs !! name with
       | Some v => Ok v
       | None => Raise (KeyError name)
       end.

Fixpoint format_from (kwargs : gmap string string) (st : option string)
    (s : string) : result string :=
  match st with
  | None =>
      match s with
      | EmptyString => Ok EmptyString
      | String "{" (String "{" r) =>
          let* t := format_from kwargs None r in Ok (String "{" t)
      | String "}" (String "}" r) =>
          let* t := format_from kwargs None r in Ok (String "}" t)
      | String "}" _ => Raise ValueError
      | String "{" r => format_from kwargs (Some EmptyString) r
      | String c r => let* t := format_from kwargs None r in Ok (String c t)
      end
  | Some name =>
      match s with
      | EmptyString => Raise ValueError
      | String "}" r =>
          let* v := format_field kwargs name in
          let* t := format_from kwargs None r in
          Ok (v +:+ t)
      | String c r =>
          if field_special c then Raise Unsupported
          else format_from kwargs (Some (name +:+ String c EmptyString)) r
      end
  end.

(** [template.format] applied to the keyword arguments [kwargs]. *)
Definition str_format (template : string) (kwargs : gmap string string) : result string :=
  format_from kwargs None template.

Definition template_keys : list string :=
  ["location"; "landmark"; "date_time"; "attachments"; "days_missed";
   "pole_number_optional"; "sender_name_optional"; "category"].

(** [safe.setdefault(k, EMPTY)] with the empty string for [EMPTY]. *)
Definition setdefault_empty (safe : gmap string string) (k : string) : gmap string string :=
  match safe !! k with
  | Some _ => safe
  | None => <[k := EmptyString]> safe
  end.

(** [fill_template(template, fields)]; a field value is a string or [None]. *)
Definition fill_template (template : string) (fields : gmap string (option string))
    : result string :=
  let safe := (fun v : option string => match v with Some s => s | None => EmptyString end) <$> fields in
  let safe := fold_left setdefault_empty template_keys safe in
  str_format template safe.

(* ===================================================================== *)
(** ** core/recommend.py                                                  *)
(* ===================================================================== *)

(** [x in [a, b, ...]] for strings. *)
Definition str_in (x : string) (l : list string) : bool :=
  existsb (String.eqb x) l.

(** [score_channel(channel, urgency, portal_ok, user_pref)] *)
Definition score_channel (channel urgency : string) (portal_ok : bool)
    (user_pref : option string) : Q :=
  let s := 0.0%Q in
  let s :=
    if String.eqb urgency "high" then
      (s + if str_in channel ["helpline"; "email"] then 2.0 else 0.6)%Q
    else if String.eqb urgency "medium" then
      (s + if str_in channel ["app"; "portal"] then 1.2 else 0.5)%Q
    else
      (s + if str_in channel ["portal"; "app"] then 1.0 else 0.3)%Q in
  let s :=
    if String.eqb channel "portal" && negb portal_ok then (s - 2.5)%Q else s in
  let s :=
    if match user_pref with
       | Some p => negb (String.eqb p EmptyString) && String.eqb channel p
       | None => false
       end
    then (s + 1.5)%Q else s in
  s.

(** The explanation returned with a recommendation. *)
Record channel_details := {
  scored : list (string * Q);
  details_portal_ok : bool
}.

(** [recommend_channel(kb_payload, city, urgency, user_pref)]. The answer of
    [get_channel_status(city, "portal")], a payload or [None], is the input
    [portal_status]. *)
Definition recommend_channel (kb_payload : dict) (portal_status : option dict)
    (urgency : string) (user_pref : option string)
    : result (option string * option string * channel_details) :=
  let* channels := iter_strs (dict_get_default kb_payload "channel_type" (VList [])) in
  let portal_ok :=
    match portal_status with
    | None => true
    | Some st => match dict_get st "status" with
                 | VStr s => String.eqb s "up"
                 | _ => false
                 end
    end in
  let scored :=
    map (fun ch => (ch, score_channel ch urgency portal_ok user_pref)) channels in
  let scored := sort_desc snd scored in
  let best := match scored with x :: _ => Some (fst x) | [] => None end in
  let backup := match scored with _ :: y :: _ => Some (fst y) | _ => None end in
  Ok (best, backup, {| scored := scored; details_portal_ok := portal_ok |}).

(* ===================================================================== *)
(** ** core/hybrid.py                                                     *)
(* ===================================================================== *)

Definition pointid := Z.

(** A stored point of a collection. *)
Record point := {
  pt_id : pointid;
  pt_payload : dict
}.

(** A document hit: the dictionary with the keys [id], [text] and [payload]
    and the score keys that the retrieval stages add; a score key that is
    absent is [None]. *)
Record hit := {
  hit_id : pointid;
  hit_text : string;
  hit_payload : dict;
  hit_score : option Q;
  hit_bm25_score : option Q;
  hit_rrf_score : option Q;
  hit_rerank_score : option Q
}.

(** [dict(d, rrf_score=s)] and [dict(d, bm25_score=s)] *)
Definition with_rrf_score (d : hit) (s : Q) : hit :=
  {| hit_id := hit_id d; hit_text := hit_text d; hit_payload := hit_payload d;
     hit_score := hit_score d; hit_bm25_score := hit_bm25_score d;
     hit_rrf_score := Some s; hit_rerank_score := hit_rerank_score d |}.

Definition with_bm25_score (d : hit) (s : Q) : hit :=
  {| hit_id := hit_id d; hit_text := hit_text d; hit_payload := hit_payload d;
     hit_score := hit_score d; hit_bm25_score := Some s;
     hit_rrf_score := hit_rrf_score d; hit_rerank_score := hit_rerank_score d |}.

Definition is_token_char (c : ascii) : bool :=
  let n := nat_of_ascii c in
  ((65 <=? n) && (n <=? 90) || (97 <=? n) && (n <=? 122)
   || (48 <=? n) && (n <=? 57) || (n =? 95))%nat.

Definition lower_char (c : ascii) : ascii :=
  let n := nat_of_ascii c in
  if ((65 <=? n) && (n <=? 90))%nat then ascii_of_nat (n + 32) else c.

Definition flush_token (cur : string) : list string :=
  if String.eqb cur EmptyString then [] else [cur].

(** The maximal runs of [[A-Za-z0-9_]], lower-cased; [cur] is the run being
    read. *)
Fixpoint tokenize_from (s cur : string) : list string :=
  match s with
  | EmptyString => flush_token cur
  | String c r =>
      if is_token_char c
      then tokenize_from r (cur +:+ String (lower_char c) EmptyString)
      else (flush_token cur ++ tokenize_from r EmptyString)%list
  end.

(** [tokenize(text)] *)
Definition tokenize (text : string) : list string :=
  tokenize_from text EmptyString.

(** An insertion-ordered dictionary keyed by document id, as [scores] in
    [rrf_fuse]: assigning to a present key keeps its position, a new key goes
    to the end. *)
Fixpoint odict_get {V : Type} (k : pointid) (d : list (pointid * V)) : option V :=
  match d with
  | [] => None
  | (k', v) :: r => if (k' =? k)%Z then Some v else odict_get k r
  end.

Fixpoint odict_set {V : Type} (k : pointid) (v : V) (d : list (pointid * V))
    : list (pointid * V) :=
  match d with
  | [] => [(k, v)]
  | (k', v') :: r =>
      if (k' =? k)%Z then (k, v) :: r else (k', v') :: odict_set k v r
  end.

(** The two dictionaries of [rrf_fuse]. *)
Record rrf_state := {
  rrf_scores : list (pointid * Q);
  rrf_items : gmap Z hit
}.

(** The body of the inner loop for the document [d] at position [rank]. *)
Definition rrf_step (k rank : Z) (d : hit) (st : rrf_state) : result rrf_state :=
  let doc_id := hit_id d in
  let items := <[doc_id := d]> (rrf_items st) in
  if (k + rank =? 0)%Z then Raise ZeroDivisionError
  else
    let old := match odict_get doc_id (rrf_scores st) with
               | Some s => s
               | None => 0.0%Q
               end in
    Ok {| rrf_scores := odict_set doc_id (old + 1.0 / inject_Z (k + rank))%Q (rrf_scores st);
          rrf_items := items |}.

(** [for rank, d in enumerate(l, start=rank): ...] *)
Fixpoint rrf_inner (k rank : Z) (l : list hit) (st : rrf_state) : result rrf_state :=
  match l with
  | [] => Ok st
  | d :: r => let* st' := rrf_step k rank d st in rrf_inner k (rank + 1) r st'
  end.

(** [for l in lists: ...] *)
Fixpoint rrf_outer (k : Z) (lists : list (list hit)) (st : rrf_state) : result rrf_state :=
  match lists with
  | [] => Ok st
  | l :: r => let* st' := rrf_inner k 1 l st in rrf_outer k r st'
  end.

(** [[dict(items[i], rrf_score=scores[i]) for i in scores]] *)
Fixpoint rrf_collect (items : gmap Z hit) (scores : list (pointid * Q))
    : result (list hit) :=
  match scores with
  | [] => Ok []
  | (i, s) :: r =>
      match items !! i with
      | Some d => let* rest := rrf_collect items r in Ok (with_rrf_score d s :: rest)
      | None => Raise (KeyError (str_of_int i))
      end
  end.

Definition rrf_key (x : hit) : Q :=
  match hit_rrf_score x with Some s => s | None => 0%Q end.

(** [rrf_fuse(lists, k=60, topk=10)] *)
Definition rrf_fuse (lists : list (list hit)) (k : Z) (topk : Z) : result (list hit) :=
  let* st := rrf_outer k lists {| rrf_scores := []; rrf_items := ∅ |} in
  let* fused := rrf_collect (rrf_items st) (rrf_scores st) in
  Ok (slice_to (sort_desc rrf_key fused) topk).

(** *** The lexical index and the retriever

    [BM25Okapi] comes from the [rank_bm25] package: [get_scores corpus q] is
    the array of the scores of the query tokens [q] against each document of
    the tokenised corpus. *)

Record BM25Index := {
  idx_docs : list hit;
  idx_tokens : list (list string);
  idx_bm25 : option (list (list string))
}.

(** [BM25Okapi(corpus)]: the constructor of [rank_bm25] averages the
    inverse document frequencies over the distinct words of the corpus and
    so raises [ZeroDivisionError] when no document has a token. *)
Definition BM25Okapi (corpus : list (list string)) : result (list (list string)) :=
  if forallb (fun d => match d with [] => true | _ => false end) corpus
  then Raise ZeroDivisionError
  else Ok corpus.

(** [BM25Index.build(docs)], on a fresh index. *)
Definition BM25Index_build (docs : list hit) : result BM25Index :=
  let tokens := map (fun d => tokenize (hit_text d)) docs in
  let* bm25 := match tokens with
               | [] => Ok None
               | _ => let* m := BM25Okapi tokens in Ok (Some m)
               end in
  Ok {| idx_docs := docs; idx_tokens := tokens; idx_bm25 := bm25 |}.

(** A filter is identified by its JSON text; [None] is the absent filter. *)
Definition filter_json := option string.

Definition cache_key : Type := string * string.

(** [HybridRetriever._key(collection, flt)] *)
Definition _key (collection : string) (flt : filter_json) : cache_key :=
  (collection, match flt with Some j => j | None => EmptyString end).

Record cache_entry := {
  entry_idx : BM25Index;
  entry_count : Z;
  entry_built_at : Q
}.

Abbreviation cache := (gmap cache_key cache_entry).

(** The vector database as the retriever sees it. [reachable] tells whether
    [ensure_collections] and the calls after it go through; [count_api] is the
    answer of the approximate count, [None] when that call raises;
    [stored] lists the points that match a filter in scroll order;
    [dense] is the answer of the vector search for a query and a limit. *)
Record backend := {
  reachable : bool;
  count_api : string -> filter_json -> option Z;
  stored : string -> filter_json -> list point;
  dense : string -> string -> filter_json -> Z -> list hit
}.

(** [client.scroll(collection, scroll_filter, limit, offset)]: one page and
    the offset of the next page, [None] after the last one. *)
Definition client_scroll (b : backend) (collection : string) (flt : filter_json)
    (limit : Z) (offset : option nat) : list point * option nat :=
  let all := stored b collection flt in
  let start := match offset with Some o => o | None => 0%nat end in
  let n := Z.to_nat limit in
  (firstn n (skipn start all),
   if (start + n <? length all)%nat then Some (start + n)%nat else None).

Definition payload_text (p : dict) : string :=
  match dict_get_default p "text" (VStr EmptyString) with
  | VStr s => s
  | _ => EmptyString
  end.

(** The document built from a scrolled point. *)
Definition doc_of_point (p : point) : hit :=
  {| hit_id := pt_id p; hit_text := payload_text (pt_payload p);
     hit_payload := pt_payload p; hit_score := None; hit_bm25_score := None;
     hit_rrf_score := None; hit_rerank_score := None |}.

(** The [while True] loop of [build_bm25_from_qdrant]; [fuel] bounds the
    number of iterations and [None] means that it ran out. *)
Fixpoint scroll_loop (fuel : nat) (b : backend) (collection : string)
    (flt : filter_json) (limit : Z) (docs : list hit) (offset : option nat)
    (fetched : Z) : option (list hit) :=
  match fuel with
  | O => None
  | S fuel' =>
      let '(points, offset') :=
        client_scroll b collection flt
          (Z.min 256 (Z.max 1 (limit - fetched))) offset in
      let docs' := (docs ++ map doc_of_point points)%list in
      let fetched' := (fetched + Z.of_nat (length points))%Z in
      if match points with [] => true | _ => false end
         || (limit <=? fetched')%Z
         || match offset' with None => true | Some _ => false end
      then Some docs'
      else scroll_loop fuel' b collection flt limit docs' offset' fetched'
  end.

(** Operations of the retriever: the cache goes in and comes out, also when
    the operation raises. *)
Definition retr (A : Type) : Type := cache -> result A * cache.

Section Retriever.
Variable get_scores : list (list string) -> list string -> list Q.
Variable b : backend.
(** The reading of [time.time()] during the operation. *)
Variable clock : Q.

(** [BM25Index.search(query, topk)] *)
Definition BM25Index_search (idx : BM25Index) (query : string) (topk : Z)
    : result (list hit) :=
  match idx_bm25 idx with
  | None => Ok []
  | Some corpus =>
      let q := tokenize query in
      let scores := get_scores corpus q in
      let score_at (i : nat) : Q :=
        match nth_error scores i with Some s => s | None => 0%Q end in
      let idx_order :=
        slice_to (sort_desc score_at (seq 0 (length scores))) topk in
      (fix out (l : list nat) : result (list hit) :=
         match l with
         | [] => Ok []
         | i :: r =>
             match nth_error (idx_docs idx) i with
             | Some d =>
                 let* rest := out r in Ok (with_bm25_score d (score_at i) :: rest)
             | None => Raise IndexError
             end
         end) idx_order
  end.

(** [qdrant_dense_search(collection, query, flt, limit)] *)
Definition qdrant_dense_search (collection query : string) (flt : filter_json)
    (limit : Z) : result (list hit) :=
  if reachable b then Ok (dense b collection query flt limit)
  else Raise ConnectionError.

(** [HybridRetriever._count(collection, flt)] *)
Definition _count (collection : string) (flt : filter_json) : result Z :=
  if reachable b then
    match count_api b collection flt with
    | Some n => Ok n
    | None =>
        match fst (client_scroll b collection flt 1 None) with
        | [] => Ok 0
        | _ => Ok 1
        end
    end
  else Raise ConnectionError.

(** [HybridRetriever.build_bm25_from_qdrant(collection, flt, limit=5000)] *)
Definition build_bm25_from_qdrant (collection : string) (flt : filter_json)
    (limit : Z) : retr unit :=
  fun c =>
    if reachable b then
      match scroll_loop (S (Z.to_nat limit)) b collection flt limit [] None 0 with
      | Some docs =>
          match BM25Index_build docs with
          | Ok idx =>
              let k := _key collection flt in
              (Ok tt,
               <[k := {| entry_idx := idx;
                         entry_count := Z.of_nat (length docs);
                         entry_built_at := clock |}]> c)
          | Raise e => (Raise e, c)
          end
      | None => (Raise Unsupported, c) (* not reached: the fuel suffices *)
      end
    else (Raise ConnectionError, c).

(** [int(0.1 * qcount)] *)
Definition tenth (qcount : Z) : Z :=
  let x := (0.1 * inject_Z qcount)%Q in
  Z.quot (Qnum x) (Z.pos (Qden x)).

(** [HybridRetriever._get_or_build(collection, flt)] *)
Definition _get_or_build (collection : string) (flt : filter_json)
    : retr (option BM25Index) :=
  fun c =>
    let k := _key collection flt in
    match c !! k with
    | None =>
        match build_bm25_from_qdrant collection flt 5000 c with
        | (Ok _, c') => (Ok (entry_idx <$> c' !! k), c')
        | (Raise e, c') => (Raise e, c')
        end
    | Some current =>
        match _count collection flt with
        | Raise e => (Raise e, c)
        | Ok qcount =>
            if (0 <? qcount)%Z
               && (Z.max 3 (tenth qcount) <=? Z.abs (qcount - entry_count current))%Z
            then
              match build_bm25_from_qdrant collection flt 5000 c with
              | (Ok _, c') => (Ok (entry_idx <$> c' !! k), c')
              | (Raise e, c') => (Raise e, c')
              end
            else (Ok (Some (entry_idx current)), c)
        end
    end.

(** The last lines of [HybridRetriever.search]: what is returned for the
    dense hits and the index that the lookup gave. *)
Definition search_combine (dense_hits : list hit) (bm25 : option BM25Index)
    (query : string) (topk : Z) : result (list hit) :=
  match bm25 with
  | None => Ok dense_hits
  | Some idx =>
      let* sparse := BM25Index_search idx query topk in
      rrf_fuse [dense_hits; sparse] 60 topk
  end.

(** [HybridRetriever.search(collection, query, flt, topk)] *)
Definition HybridRetriever_search (collection query : string)
    (flt : filter_json) (topk : Z) : retr (list hit) :=
  fun c =>
    match qdrant_dense_search collection query flt topk with
    | Raise e => (Raise e, c)
    | Ok dense_hits =>
        match _get_or_build collection flt c with
        | (Raise e, c') => (Raise e, c')
        | (Ok bm25, c') => (search_combine dense_hits bm25 query topk, c')
        end
    end.
End Retriever.

(* ===================================================================== *)
(** ** core/memory.py                                                     *)
(* ===================================================================== *)

(** The collection [user_memory]: its points in scroll order (ascending
    id). The database is taken to be reachable in this part. *)
Abbreviation memory_store := (list point).

(** A [MatchValue] condition of a filter on a string or on [False]: a list
    payload matches when one of its elements does. *)
Definition match_str (p : dict) (key v : string) : bool :=
  match p !! key with
  | Some (VStr s) => String.eqb s v
  | Some (VList l) => str_in v l
  | _ => false
  end.

Definition match_false (p : dict) (key : string) : bool :=
  match p !! key with
  | Some (VBool b) => negb b
  | _ => false
  end.

Definition has_id (i : pointid) (store : memory_store) : bool :=
  existsb (fun q => (pt_id q =? i)%Z) store.

(** A new point takes its place in the order of the ids. *)
Fixpoint store_insert (p : point) (store : memory_store) : memory_store :=
  match store with
  | [] => [p]
  | q :: r =>
      if (pt_id p <? pt_id q)%Z then p :: q :: r
      else q :: store_insert p r
  end.

(** [client.upsert]: the point replaces the one with its id, or is added. *)
Definition store_upsert (p : point) (store : memory_store) : memory_store :=
  if has_id (pt_id p) store
  then map (fun q => if (pt_id q =? pt_id p)%Z then p else q) store
  else store_insert p store.

(** [client.delete] with a list of point ids. *)
Definition store_delete (ids : list pointid) (store : memory_store) : memory_store :=
  List.filter (fun q => negb (existsb (Z.eqb (pt_id q)) ids)) store.

(** A time is a number of microseconds since 0001-01-01T00:00:00 UTC, the
    least [datetime]; [datetime_end] is the first instant after the
    greatest one. *)
Definition us_per_day : Z := 86400000000.
Definition datetime_end : Z := 3652059 * us_per_day.

(** [timedelta(days=d)] *)
Definition timedelta_days (d : Z) : result Z :=
  if (Z.abs d <=? 999999999)%Z then Ok (d * us_per_day)%Z
  else Raise OverflowError.

(** [t - delta] for a [datetime] in UTC and a [timedelta]. *)
Definition datetime_sub (t delta : Z) : result Z :=
  let r := (t - delta)%Z in
  if (0 <=? r)%Z && (r <? datetime_end)%Z then Ok r else Raise OverflowError.

(** The two readings of the clock in [memory_upsert] and
    [reinforce_preference]: [int(now_utc().timestamp() * 1_000_000)] and
    [now_utc().isoformat()]. *)
Record clock_reading := {
  clock_id : Z;
  clock_iso : string
}.

(** [build_filter(user_id=user_id, delete_flag=False)] *)
Definition memory_filter (user_id : string) (q : point) : bool :=
  match_str (pt_payload q) "user_id" user_id
  && match_false (pt_payload q) "delete_flag".

Section Memory.
(** The order in which the vector search returns the matching points
    (by similarity to the fixed profile query). *)
Variable similarity_rank : list point -> list point.
(** [datetime.fromisoformat]: the wall-clock time of the parsed string and
    its offset to UTC when it has one, or [None] when it raises. *)
Variable fromisoformat : string -> option (Z * option Z).

(** [memory_get(user_id, limit)] *)
Definition memory_get (store : memory_store) (user_id : string) (limit : Z)
    : list point :=
  let matching := List.filter (memory_filter user_id) store in
  firstn (Z.to_nat limit) (similarity_rank matching).

(** [memory_upsert(user_id, memory_text, payload, ttl_days, version, point_id)] *)
Definition memory_upsert (ck : clock_reading) (store : memory_store)
    (user_id memory_text : string) (payload : dict) (ttl_days version : Z)
    (point_id : option pointid) : pointid * memory_store :=
  let point_id := match point_id with Some i => i | None => clock_id ck end in
  let base : dict :=
    <["user_id" := VStr user_id]>
    (<["delete_flag" := VBool false]>
    (<["ttl_days" := VStr (str_of_int ttl_days)]>
    (<["version" := VStr (str_of_int version)]>
    (<["last_updated" := VStr (clock_iso ck)]>
    (<["memory_text" := VStr memory_text]> ∅))))) in
  let full := payload ∪ base in
  (point_id, store_upsert {| pt_id := point_id; pt_payload := full |} store).

(** [memory_delete_user(user_id)] *)
Definition memory_delete_user (store : memory_store) (user_id : string)
    : memory_store :=
  List.filter (fun q => negb (match_str (pt_payload q) "user_id" user_id)) store.

Definition is_preference (h : point) : bool :=
  match dict_get (pt_payload h) "type" with
  | VStr s => String.eqb s "preference"
  | _ => false
  end.

(** [reinforce_preference(user_id, channel, ttl_days=180)] *)
Definition reinforce_preference (ck : clock_reading) (store : memory_store)
    (user_id channel : string) (ttl_days : Z) : result memory_store :=
  let hits := memory_get store user_id 20 in
  match List.find is_preference hits with
  | None =>
      Ok (snd (memory_upsert ck store user_id
                 ("Preference: user tends to use " +:+ channel)
                 (<["type" := VStr "preference"]>
                  (<["pref_channel" := VStr channel]>
                  (<["pref_weight" := VStr "1"]> ∅)))
                 ttl_days 1 None))
  | Some pref =>
      let* w0 := py_int (dict_get_default (pt_payload pref) "pref_weight" (VStr "1")) in
      let w := (w0 + 1)%Z in
      let memory_text :=
        "Preference: user tends to use " +:+ channel
        +:+ " (reinforced x" +:+ str_of_int w +:+ ")" in
      let updated :=
        <["memory_text" := VStr memory_text]>
        (<["last_updated" := VStr (clock_iso ck)]>
        (<["pref_weight" := VStr (str_of_int w)]>
        (<["pref_channel" := VStr channel]> (pt_payload pref)))) in
      Ok (store_upsert {| pt_id := pt_id pref; pt_payload := updated |} store)
  end.

(** The [ttl] of a scanned point: [int(...)] guarded by [try]/[except]. *)
Definition point_ttl (p : point) : Z :=
  match py_int (dict_get_default (pt_payload p) "ttl_days" (VStr "180")) with
  | Ok n => n
  | Raise _ => 180
  end.

(** The instant of [last_updated] of a scanned point, after the time zone
    has been set to UTC where the string has none; [None] when the loop
    goes on to the next point ([continue]). *)
Definition point_last_updated (p : point) : option Z :=
  let lu := dict_get (pt_payload p) "last_updated" in
  if negb (truthy lu) then None
  else match lu with
       | VStr s =>
           match fromisoformat s with
           | Some (wall, Some offset) => Some (wall - offset)%Z
           | Some (wall, None) => Some wall
           | None => None
           end
       | _ => None
       end.

(** The loop over the scanned points; [to_delete] collects the ids. *)
Fixpoint decay_scan (now : Z) (points : list point) (to_delete : list pointid)
    : result (list pointid) :=
  match points with
  | [] => Ok to_delete
  | p :: r =>
      let ttl := point_ttl p in
      match point_last_updated p with
      | None => decay_scan now r to_delete
      | Some ts =>
          let* delta := timedelta_days ttl in
          let* cutoff := datetime_sub now delta in
          if (ts <? cutoff)%Z
          then decay_scan now r (to_delete ++ [pt_id p])%list
          else decay_scan now r to_delete
      end
  end.

(** The filter of the scan: [build_filter(user_id=user_id) if user_id else
    None]. *)
Definition cleanup_scope (user_id : option string) (q : point) : bool :=
  match user_id with
  | Some u => if String.eqb u EmptyString then true
              else match_str (pt_payload q) "user_id" u
  | None => true
  end.

(** The page that [client.scroll(..., limit=1000)] returns. *)
Definition scanned (store : memory_store) (user_id : option string) : list point :=
  firstn 1000 (List.filter (cleanup_scope user_id) store).

(** [memory_decay_cleanup(user_id=None, now=None)]; [clock_now] is the
    reading of [now_utc()] that replaces an absent [now]. The result is
    the number of deleted points and the store afterwards. *)
Definition memory_decay_cleanup (clock_now : Z) (store : memory_store)
    (user_id : option string) (now : option Z) : result (Z * memory_store) :=
  let now := match now with Some t => t | None => clock_now end in
  let points := scanned store user_id in
  let* to_delete := decay_scan now points [] in
  Ok (Z.of_nat (length to_delete),
      match to_delete with
      | [] => store
      | _ => store_delete to_delete store
      end).
End Memory.

(* ===================================================================== *)
(** ** core/agent_v2.py                                                   *)
(* ===================================================================== *)

(** [_missing_fields(required, provided)] *)
Fixpoint _missing_fields (required : list string) (provided : dict) : list string :=
  match required with
  | [] => []
  | f :: r =>
      if endswith f "_optional" then _missing_fields r provided
      else
        match dict_get provided f with
        | VNone => f :: _missing_fields r provided
        | VStr s =>
            if String.eqb (strip s) EmptyString
            then f :: _missing_fields r provided
            else _missing_fields r provided
        | _ => _missing_fields r provided
        end
  end.

Definition qmap : gmap string string :=
  <["location" := "What is the exact location (street/area) of the issue?"]>
  (<["landmark" := "Any nearby landmark (shop/school/bus stop) to help locate it?"]>
  (<["date_time" := "When did you first notice it (date/time)?"]>
  (<["days_missed" := "How many days has the issue continued (e.g., garbage not collected for N days)?"]>
  (<["photo" := "Can you upload a clear photo of the issue?"]>
  (<["pole_number_optional" := "If visible, what is the pole number?"]> ∅))))).

(** [_questions_for(fields)] *)
Definition _questions_for (fields : list string) : list string :=
  map (fun f => match qmap !! f with
                | Some q => q
                | None => "Please provide: " +:+ f
                end) fields.

(** The request of [assist_new]; a photo or a screenshot counts by its
    presence only. *)
Record request := {
  user_id : string;
  text : string;
  city : string;
  ward_id : string;
  landmark : string;
  date_time : string;
  preferred_channel : option string;
  tone : option string;
  issue_photo : bool;
  screenshot : bool;
  transcript_text : option string;
  auto_submit : bool;
  force_llm : option bool
}.

(** What the collaborators of [assist_new] answer during one request. The
    payload fields [category], [department] and [template] hold strings
    where they are present. *)
Record retrieved := {
  r_urgency : string;             (* infer_urgency(text) *)
  r_image_hints : list string;    (* labels of infer_image_issue_hints *)
  r_image_hits : list hit;        (* qdrant_image_search, when a photo is given *)
  r_kb_docs : list hit;           (* self._rerank(cleaned, self._kb_search(...)) *)
  r_dir_hits : list hit;          (* directory search *)
  r_case_text_hits : list hit;    (* similar cases *)
  r_portal_status : option dict;  (* get_channel_status(city, "portal") *)
  r_template_docs : list hit;     (* the reranked template hits of self._template *)
  r_enable_llm : bool;            (* ENABLE_LLM *)
  r_llm_markdown : option string; (* llm.generate(...), None when it raises *)
  r_ticket_id : string            (* create_ticket(...) *)
}.

Record evidence_item := {
  ev_collection : string;
  ev_score : Q;
  ev_source : value;
  ev_last_updated : value;
  ev_snippet : string
}.

(** The result with [need_more_info] true. *)
Record info_request := {
  ir_missing_fields : list string;
  ir_questions : list string;
  ir_category : string;
  ir_department : string;
  ir_urgency : string;
  ir_image_hints : list string;
  ir_evidence : list evidence_item;
  ir_confidence : string
}.

(** The result with [need_more_info] false. *)
Record decision := {
  dec_department : string;
  dec_category : string;
  dec_best_channel : string;
  dec_backup_channel : string;
  dec_complaint_text : string;
  dec_checklist_required_fields : list string;
  dec_sla_days : Z;
  dec_escalation_steps : list string;
  dec_tips : list string;
  dec_evidence : list evidence_item;
  dec_confidence : string;
  dec_channel_scores : list (string * Q);
  dec_portal_ok : bool;
  dec_kb_top_ids : list (pointid * option Q);
  dec_llm_markdown : option string;
  dec_ticket_id : option string
}.

Inductive assist_result : Type :=
  | NeedMoreInfo (r : info_request)
  | FinalDecision (d : decision).

Definition need_more_info (r : assist_result) : bool :=
  match r with
  | NeedMoreInfo _ => true
  | FinalDecision _ => false
  end.

(** A payload field that holds text: the string when it is a non-empty
    string, otherwise nothing (the left operand of an [or]). *)
Definition text_field (d : dict) (k : string) : option string :=
  match dict_get d k with
  | VStr s => if String.eqb s EmptyString then None else Some s
  | _ => None
  end.

Definition or_else (a : option string) (b : string) : string :=
  match a with Some s => s | None => b end.

Definition default_template : string :=
  "Please register a complaint for {category} at {location} near {landmark} observed on {date_time}. Attachments: {attachments}.".

(** The last lines of [CivicFixAgent._template]. *)
Definition _template (template_docs : list hit) : string :=
  or_else (match template_docs with
           | top :: _ => text_field (hit_payload top) "template"
           | [] => None
           end) default_template.

(** [float(kb_top.get("rerank_score", kb_top.get("score") or 0.0))] *)
Definition kb_evidence_score (kb_top : hit) : Q :=
  match hit_rerank_score kb_top with
  | Some r => r
  | None => match hit_score kb_top with
            | Some s => if Qeq_bool s 0 then 0.0%Q else s
            | None => 0.0%Q
            end
  end.

(** [confidence_from_score(kb_top.get("rerank_score") if kb_top else None)] *)
Definition assist_confidence (kb_top : option hit) : string :=
  confidence_from_score
    (match kb_top with Some d => hit_rerank_score d | None => None end).

Definition hit_evidence (collection : string) (source : value) (h : hit) : evidence_item :=
  {| ev_collection := collection;
     ev_score := match hit_score h with Some s => s | None => 0.0%Q end;
     ev_source := source;
     ev_last_updated := dict_get (hit_payload h) "last_updated";
     ev_snippet := snippet (payload_text (hit_payload h)) 240 |}.

Definition kb_evidence (kb_top : hit) : evidence_item :=
  {| ev_collection := "civic_kb";
     ev_score := kb_evidence_score kb_top;
     ev_source := dict_get (hit_payload kb_top) "source";
     ev_last_updated := dict_get (hit_payload kb_top) "last_updated";
     ev_snippet := snippet (payload_text (hit_payload kb_top)) 240 |}.

(** The evidence list of a final decision: the top hit of each source. *)
Definition final_evidence (kb_top : option hit) (dir_hits image_hits : list hit)
    : list evidence_item :=
  (match kb_top with Some t => [kb_evidence t] | None => [] end
   ++ match dir_hits with
      | h :: _ => [hit_evidence "jurisdiction_directory" (VStr "directory") h]
      | [] => []
      end
   ++ match image_hits with
      | h :: _ => [hit_evidence "case_library(image)" (VStr "anonymized_case") h]
      | [] => []
      end)%list.

(** The field mapping that [assist_new] passes to [fill_template]. *)
Definition complaint_fields (rq : request) (category : string)
    : gmap string (option string) :=
  <["category" := Some category]>
  (<["location" := Some ("Ward " +:+ ward_id rq +:+ ", " +:+ city rq)]>
  (<["landmark" := Some (if String.eqb (landmark rq) EmptyString
                         then "nearby landmark" else landmark rq)]>
  (<["date_time" := Some (date_time rq)]>
  (<["attachments" := Some (if issue_photo rq then "photo attached"
                            else if screenshot rq then "screenshot attached"
                            else "none")]>
  (<["days_missed" := Some "3"]>
  (<["pole_number_optional" := Some EmptyString]>
  (<["sender_name_optional" := Some EmptyString]> ∅))))))).

(** The mapping [provided] of the slot-filling step. *)
Definition provided_fields (rq : request) : dict :=
  <["city" := VStr (city rq)]>
  (<["ward_id" := VStr (ward_id rq)]>
  (<["landmark" := VStr (landmark rq)]>
  (<["date_time" := VStr (date_time rq)]>
  (<["text" := VStr (text rq)]>
  (<["location" := VStr ("Ward " +:+ ward_id rq +:+ ", " +:+ city rq)]>
  (<["photo" := VStr (if issue_photo rq then "yes" else EmptyString)]>
  (<["days_missed" := VStr EmptyString]> ∅))))))).

(** What [assist_new] has computed when it reaches the slot-filling step. *)
Record gate_context := {
  g_mem_pref : option string;
  g_kb_top : option hit;
  g_kb_payload : dict;
  g_category : string;
  g_department : string;
  g_best : string;
  g_backup : string;
  g_details : channel_details;
  g_required_fields : list string;
  g_missing : list string
}.

Section Agent.
Variable similarity_rank : list point -> list point.
Variable ck : clock_reading.

(** [assist_new] up to the computation of [missing]. *)
Definition assist_prelude (store : memory_store) (rq : request) (rt : retrieved)
    : result gate_context :=
  let mem_hits := memory_get similarity_rank store (user_id rq) 20 in
  let mem_pref := preferred_channel rq in
  let mem_pref :=
    match List.find is_preference mem_hits with
    | Some h =>
        match mem_pref with
        | Some p => if String.eqb p EmptyString
                    then text_field (pt_payload h) "pref_channel"
                    else Some p
        | None => text_field (pt_payload h) "pref_channel"
        end
    | None => mem_pref
    end in
  let image_hints := if issue_photo rq then r_image_hints rt else [] in
  let image_hits := if issue_photo rq then r_image_hits rt else [] in
  let inferred_category :=
    match image_hits with
    | h :: _ => text_field (hit_payload h) "category"
    | [] => None
    end in
  let kb_top := match r_kb_docs rt with t :: _ => Some t | [] => None end in
  let kb_payload : dict :=
    match kb_top with Some t => hit_payload t | None => ∅ end in
  let category :=
    or_else (text_field kb_payload "category")
      (or_else inferred_category
         (match image_hints with l :: _ => l | [] => "General" end)) in
  let department := or_else (text_field kb_payload "department") "Sanitation" in
  let* rec :=
    recommend_channel kb_payload (r_portal_status rt) (r_urgency rt) mem_pref in
  let '(best, backup, details) := rec in
  let best := match best with
              | Some c => if String.eqb c EmptyString then "helpline" else c
              | None => "helpline"
              end in
  let backup := match backup with
                | Some c => if String.eqb c EmptyString then "email" else c
                | None => "email"
                end in
  let* required_fields :=
    iter_strs (dict_get_default kb_payload "required_fields" (VList [])) in
  let missing := _missing_fields required_fields (provided_fields rq) in
  Ok {| g_mem_pref := mem_pref; g_kb_top := kb_top; g_kb_payload := kb_payload;
        g_category := category; g_department := department;
        g_best := best; g_backup := backup; g_details := details;
        g_required_fields := required_fields; g_missing := missing |}.

(** The information request returned by the slot-filling step. *)
Definition ask_more (rq : request) (rt : retrieved) (g : gate_context)
    : info_request :=
  {| ir_missing_fields := g_missing g;
     ir_questions := _questions_for (g_missing g);
     ir_category := g_category g;
     ir_department := g_department g;
     ir_urgency := r_urgency rt;
     ir_image_hints := if issue_photo rq then r_image_hints rt else [];
     ir_evidence :=
       match g_kb_top g with
       | Some t => if (size (g_kb_payload g) =? 0)%nat then [] else [kb_evidence t]
       | None => []
       end;
     ir_confidence := assist_confidence (g_kb_top g) |}.

(** [assist_new] after the slot-filling step: the final decision and the
    memory store after the reinforcement of the chosen channel. *)
Definition finalize (store : memory_store) (rq : request) (rt : retrieved)
    (g : gate_context) : result (decision * memory_store) :=
  let template := _template (r_template_docs rt) in
  let* complaint_text :=
    fill_template template (complaint_fields rq (g_category g)) in
  let* sla_days :=
    let v := dict_get_default (g_kb_payload g) "sla_days" (VInt 7) in
    if truthy (dict_get (g_kb_payload g) "sla_days") then py_int v else Ok 7 in
  let evidence :=
    final_evidence (g_kb_top g) (r_dir_hits rt)
      (if issue_photo rq then r_image_hits rt else []) in
  let* store' :=
    reinforce_preference similarity_rank ck store (user_id rq) (g_best g) 180 in
  let use_llm_final :=
    match force_llm rq with Some f => f | None => r_enable_llm rt end in
  Ok ({| dec_department := g_department g;
         dec_category := g_category g;
         dec_best_channel := g_best g;
         dec_backup_channel := g_backup g;
         dec_complaint_text := complaint_text;
         dec_checklist_required_fields := g_required_fields g;
         dec_sla_days := sla_days;
         dec_escalation_steps := escalation_steps sla_days None;
         dec_tips :=
           map (fun h => snippet (payload_text (hit_payload h)) 200)
               (firstn 1 (r_case_text_hits rt));
         dec_evidence := evidence;
         dec_confidence := assist_confidence (g_kb_top g);
         dec_channel_scores := scored (g_details g);
         dec_portal_ok := details_portal_ok (g_details g);
         dec_kb_top_ids :=
           map (fun d => (hit_id d,
                          match hit_rerank_score d with
                          | Some r => Some r
                          | None => hit_score d
                          end))
               (firstn 5 (r_kb_docs rt));
         dec_llm_markdown :=
           if use_llm_final
           then Some (match r_llm_markdown rt with
                      | Some m => m
                      | None => EmptyString
                      end)
           else None;
         dec_ticket_id :=
           if auto_submit rq then Some (r_ticket_id rt) else None |},
      store').

(** [CivicFixAgent.assist_new] *)
Definition assist_new (store : memory_store) (rq : request) (rt : retrieved)
    : result (assist_result * memory_store) :=
  let* g := assist_prelude store rq rt in
  if match g_missing g with [] => false | _ => true end
     && negb (auto_submit rq)
  then Ok (NeedMoreInfo (ask_more rq rt g), store)
  else
    let* ds := finalize store rq rt g in
    Ok (FinalDecision (fst ds), snd ds).
End Agent.

(* ===================================================================== *)
(** ** A reader of ISO timestamps for the examples

    [datetime.fromisoformat] on the three shapes [YYYY-MM-DD],
    [YYYY-MM-DDTHH:MM:SS] and [YYYY-MM-DDTHH:MM:SS+HH:MM] (also with [-] for
    the sign of the offset), which it reads as below. It accepts further
    shapes, which this reader rejects; the examples use these three only. *)
(* ===================================================================== *)

Fixpoint digits_value (s : string) (acc : Z) : option Z :=
  match s with
  | EmptyString => Some acc
  | String c r =>
      match digit_of c with
      | Some d => digits_value r (10 * acc + d)
      | None => None
      end
  end.

Definition num_at (s : string) (start len : nat) : option Z :=
  let t := String.substring start len s in
  if (String.length t =? len)%nat then digits_value t 0 else None.

Definition char_at (s : string) (i : nat) (c : ascii) : bool :=
  match String.get i s with
  | Some c' => Ascii.eqb c c'
  | None => false
  end.

Definition is_leap (y : Z) : bool :=
  ((y mod 4 =? 0) && (negb (y mod 100 =? 0) || (y mod 400 =? 0)))%Z.

Definition days_in_month (y m : Z) : Z :=
  if (m =? 2)%Z then (if is_leap y then 29 else 28)
  else if ((m =? 4) || (m =? 6) || (m =? 9) || (m =? 11))%Z then 30 else 31.

Definition days_before_year (y : Z) : Z :=
  ((y - 1) * 365 + (y - 1) / 4 - (y - 1) / 100 + (y - 1) / 400)%Z.

Definition days_before_month (y m : Z) : Z :=
  fold_left (fun acc k => (acc + days_in_month y (Z.of_nat k))%Z)
            (seq 1 (Z.to_nat m - 1)) 0%Z.

(** The date part, as days since 0001-01-01. *)
Definition iso_date (s : string) : option Z :=
  match num_at s 0 4, num_at s 5 2, num_at s 8 2 with
  | Some y, Some m, Some d =>
      if (char_at s 4 "-" && char_at s 7 "-"
          && (1 <=? y)%Z && (1 <=? m)%Z && (m <=? 12)%Z
          && (1 <=? d)%Z && (d <=? days_in_month y m)%Z)
      then Some (days_before_year y + days_before_month y m + d - 1)%Z
      else None
  | _, _, _ => None
  end.

(** The time of day [HH:MM:SS] at position [i], in microseconds. *)
Definition iso_time (s : string) (i : nat) : option Z :=
  match num_at s i 2, num_at s (i + 3) 2, num_at s (i + 6) 2 with
  | Some h, Some mi, Some sec =>
      if (char_at s (i + 2) ":" && char_at s (i + 5) ":"
          && (h <? 24)%Z && (mi <? 60)%Z && (sec <? 60)%Z)
      then Some (((h * 60 + mi) * 60 + sec) * 1000000)%Z
      else None
  | _, _, _ => None
  end.

(** The offset [+HH:MM] or [-HH:MM] at position [i], in microseconds. *)
Definition iso_offset (s : string) (i : nat) : option Z :=
  match num_at s (i + 1) 2, num_at s (i + 4) 2 with
  | Some h, Some mi =>
      if (char_at s (i + 3) ":" && (h <? 24)%Z && (mi <? 60)%Z)
      then if char_at s i "+" then Some ((h * 60 + mi) * 60000000)%Z
           else if char_at s i "-" then Some (- ((h * 60 + mi) * 60000000))%Z
           else None
      else None
  | _, _ => None
  end.

Definition fromisoformat_basic (s : string) : option (Z * option Z) :=
  match String.length s with
  | 10%nat => match iso_date s with
              | Some d => Some ((d * us_per_day)%Z, None)
              | None => None
              end
  | 19%nat => match iso_date s, iso_time s 11 with
              | Some d, Some t =>
                  if char_at s 10 "T" || char_at s 10 " "
                  then Some ((d * us_per_day + t)%Z, None) else None
              | _, _ => None
              end
  | 25%nat => match iso_date s, iso_time s 11, iso_offset s 19 with
              | Some d, Some t, Some o =>
                  if char_at s 10 "T" || char_at s 10 " "
                  then Some ((d * us_per_day + t)%Z, Some o) else None
              | _, _, _ => None
              end
  | _ => None
  end.

(* ===================================================================== *)
(** ** Observations and reference descriptions used in the statements     *)
(* ===================================================================== *)

(** The text of a step up to its first colon. *)
Fixpoint until_colon (s : string) : string :=
  match s with
  | EmptyString => EmptyString
  | String c r => if Ascii.eqb c ":" then EmptyString else String c (until_colon r)
  end.

(** The trigger day that a step of the escalation ladder announces: the
    integer between the words [Day ] and the first colon. *)
Definition step_day (step : string) : option Z :=
  match step with
  | String "D" (String "a" (String "y" (String " " r))) =>
      Z.of_int <$> NilZero.int_of_string (until_colon r)
  | _ => None
  end.

(** The label that the specification derives from the score of the first
    evidence item of a result. *)
Definition confidence_of_top_evidence (evidence : list evidence_item) : string :=
  match evidence with
  | e :: _ =>
      if Qle_bool 0.35 (ev_score e) then "high"
      else if Qle_bool 0.25 (ev_score e) then "medium"
      else "low"
  | [] => "low"
  end.

Definition result_confidence (r : assist_result) : string :=
  match r with
  | NeedMoreInfo i => ir_confidence i
  | FinalDecision d => dec_confidence d
  end.

(** *** Data of the examples *)

Definition pothole_payload : dict :=
  <["category" := VStr "Pothole"]>
  (<["department" := VStr "Municipal Roads"]>
  (<["channel_type" := VList ["portal"; "helpline"]]>
  (<["sla_days" := VInt 7]>
  (<["required_fields" := VList ["location"; "photo"]]>
  (<["text" := VStr "Pothole complaint procedure."]> ∅))))).

(** A knowledge-base hit with a retrieval score and a rerank score. *)
Definition pothole_hit (score rerank : option Q) : hit :=
  {| hit_id := 1; hit_text := "Pothole complaint procedure.";
     hit_payload := pothole_payload; hit_score := score;
     hit_bm25_score := None; hit_rrf_score := None;
     hit_rerank_score := rerank |}.

Definition pothole_request (photo submit : bool) : request :=
  {| user_id := "u1"; text := "pothole on road"; city := "DemoCity";
     ward_id := "W-42"; landmark := "near school";
     date_time := "2026-01-21 10:00"; preferred_channel := None;
     tone := None; issue_photo := photo; screenshot := false;
     transcript_text := None; auto_submit := submit;
     force_llm := Some false |}.

Definition pothole_retrieved (kb_docs template_docs : list hit) : retrieved :=
  {| r_urgency := "medium"; r_image_hints := []; r_image_hits := [];
     r_kb_docs := kb_docs; r_dir_hits := []; r_case_text_hits := [];
     r_portal_status := None; r_template_docs := template_docs;
     r_enable_llm := false; r_llm_markdown := None; r_ticket_id := "T-1" |}.

Definition example_clock : clock_reading :=
  {| clock_id := 1769000000000000; clock_iso := "2026-01-21T10:00:00+00:00" |}.

(** A vector search that returns the matching points in stored order. *)
Definition stored_order (l : list point) : list point := l.

(** *** Slot filling, in the words of the specification *)

(** A blank string: empty or made of white space only. *)
Definition blank (s : string) : bool :=
  forallb is_space (list_ascii_of_string s).

(** A required field is missing when its name is not suffixed [_optional]
    and its provided value is null or a blank string. *)
Definition field_is_missing (provided : dict) (f : string) : bool :=
  negb (endswith f "_optional")
  && match provided !! f with
     | None => true
     | Some VNone => true
     | Some (VStr s) => blank s
     | Some _ => false
     end.

(** The question [q] asks for the field [f]: it is not empty and is the
    question of the table for a field that the table lists, and the
    request that names the field for any other. *)
Definition asks (f q : string) : Prop :=
  q <> EmptyString
  /\ (qmap !! f = Some q
      \/ (qmap !! f = None /\ q = "Please provide: " +:+ f)).

(** *** Templates as sequences of literal text and placeholders *)

Inductive segment : Type :=
  | Lit (s : string)
  | Field (name : string).

(** Literal text as a template writes it: braces are doubled. *)
Fixpoint escape_braces (s : string) : string :=
  match s with
  | EmptyString => EmptyString
  | String c r =>
      if Ascii.eqb c "{" || Ascii.eqb c "}"
      then String c (String c (escape_braces r))
      else String c (escape_braces r)
  end.

Definition segment_text (g : segment) : string :=
  match g with
  | Lit s => escape_braces s
  | Field n => String "{" (n +:+ "}")
  end.

Definition template_of (segs : list segment) : string :=
  foldr (fun g t => segment_text g +:+ t) EmptyString segs.

Definition name_char_ok (c : ascii) : bool :=
  negb (field_special c) && negb (Ascii.eqb c "}").

(** A placeholder name without braces, conversion, format specification,
    attribute or index, and which is not a position. *)
Definition plain_name (n : string) : bool :=
  forallb name_char_ok (list_ascii_of_string n) && negb (all_digits n).

(** The keyword arguments that [fill_template] hands to [format]. *)
Definition safe_fields (fields : gmap string (option string)) : gmap string string :=
  fold_left setdefault_empty template_keys
    ((fun v : option string => match v with Some s => s | None => EmptyString end)
       <$> fields).

(** The text that replaces a placeholder: the value of the field, or the
    empty string when the value is null or the field is absent. *)
Definition field_value (fields : gmap string (option string)) (n : string) : string :=
  match fields !! n with
  | Some (Some v) => v
  | _ => EmptyString
  end.

Definition render (fields : gmap string (option string)) (segs : list segment) : string :=
  foldr (fun g t => match g with
                    | Lit s => s +:+ t
                    | Field n => field_value fields n +:+ t
                    end) EmptyString segs.

(** The placeholders that render: the keys of the field mapping and the
    eight names that [fill_template] defaults. *)
Definition known_placeholder (fields : gmap string (option string)) (n : string) : Prop :=
  is_Some (fields !! n) \/ In n template_keys.

Definition default_segments : list segment :=
  [Lit "Please register a complaint for "; Field "category"; Lit " at ";
   Field "location"; Lit " near "; Field "landmark"; Lit " observed on ";
   Field "date_time"; Lit ". Attachments: "; Field "attachments"; Lit "."].

(** A template hit whose template has a placeholder of its own. *)
Definition ward_template_hit : hit :=
  {| hit_id := 204; hit_text := "Pothole template (ward).";
     hit_payload :=
       <["category" := VStr "Pothole"]>
       (<["template" := VStr "Pothole at {location} in ward {ward}. Photo: {attachments}"]> ∅);
     hit_score := Some 0.8%Q; hit_bm25_score := None; hit_rrf_score := None;
     hit_rerank_score := None |}.

(** *** The staleness test, in the words of the specification *)

(** [round(x)]: the nearest integer, a half goes to the even neighbour. *)
Definition py_round (x : Q) : Z :=
  let f := Qfloor x in
  match ((x - inject_Z f) ?= (1 # 2))%Q with
  | Lt => f
  | Gt => (f + 1)%Z
  | Eq => if Z.even f then f else (f + 1)%Z
  end.

(** Rebuild when the drift reaches max(3, round(0.1 * live_count)). *)
Definition drift_rebuild_spec (live cached : Z) : bool :=
  (Z.max 3 (py_round (0.1 * inject_Z live)) <=? Z.abs (live - cached))%Z.

(** The documents that a build fetches and the cache entry that it stores. *)
Definition built_docs (b : backend) (collection : string) (flt : filter_json)
    (limit : Z) : list hit :=
  map doc_of_point (firstn (Z.to_nat (Z.max 1 limit)) (stored b collection flt)).

(** No document of a non-empty list has a token: the build of an index
    over the list raises. *)
Definition tokenless (docs : list hit) : bool :=
  match docs with
  | [] => false
  | _ => forallb (fun d => match tokenize (hit_text d) with
                           | [] => true
                           | _ => false
                           end) docs
  end.

(** The index that a build over [docs] leaves when it returns. *)
Definition index_of (docs : list hit) : BM25Index :=
  let tokens := map (fun d => tokenize (hit_text d)) docs in
  {| idx_docs := docs;
     idx_tokens := tokens;
     idx_bm25 := match tokens with [] => None | _ => Some tokens end |}.

Definition built_entry (b : backend) (clock : Q) (collection : string)
    (flt : filter_json) : cache_entry :=
  let docs := built_docs b collection flt 5000 in
  {| entry_idx := index_of docs;
     entry_count := Z.of_nat (length docs);
     entry_built_at := clock |}.

(** *** Data of the retriever examples *)

Definition numbered_point (i : nat) : point :=
  {| pt_id := Z.of_nat i;
     pt_payload := <["text" := VStr "streetlight not working"]> ∅ |}.

(** A reachable database that reports [live] points for every filter and
    holds [n] of them. *)
Definition example_backend (live : Z) (n : nat) : backend :=
  {| reachable := true;
     count_api := fun _ _ => Some live;
     stored := fun _ _ => map numbered_point (seq 1 n);
     dense := fun _ _ _ _ => [] |}.

(** The same database when it cannot be reached. *)
Definition unreachable_backend (n : nat) : backend :=
  {| reachable := false;
     count_api := fun _ _ => None;
     stored := fun _ _ => map numbered_point (seq 1 n);
     dense := fun _ _ _ _ => [] |}.

(** A reachable database whose [n] points have a text without tokens. *)
Definition blank_backend (live : Z) (n : nat) : backend :=
  {| reachable := true;
     count_api := fun _ _ => Some live;
     stored := fun _ _ =>
       map (fun i => {| pt_id := Z.of_nat i;
                        pt_payload := <["text" := VStr "?!"]> ∅ |}) (seq 1 n);
     dense := fun _ _ _ _ => [] |}.

(** A cache that holds the index built when [n] points were stored. *)
Definition example_entry (n : nat) : cache_entry :=
  built_entry (example_backend (Z.of_nat n) n) 0 "civic_kb" None.

Definition example_cache (n : nat) : cache :=
  <[_key "civic_kb" None := example_entry n]> ∅.

(** A scorer that gives every document the score 1. *)
Definition unit_scores (corpus : list (list string)) (q : list string) : list Q :=
  map (fun _ => 1%Q) corpus.

(** *** Expiry of memory records *)

(** The age of the point, [now - last_updated], exceeds its [ttl_days]; a
    point without a readable [last_updated] never expires. *)
Definition expired (fromisoformat : string -> option (Z * option Z)) (now : Z)
    (p : point) : bool :=
  match point_last_updated fromisoformat p with
  | Some ts => (point_ttl p * us_per_day <? now - ts)%Z
  | None => false
  end.

(** The subtraction [now - timedelta(days=ttl)] stays within the range of
    [datetime]. *)
Definition date_in_range (now ttl : Z) : bool :=
  ((Z.abs ttl <=? 999999999) && (0 <=? now - ttl * us_per_day)
   && (now - ttl * us_per_day <? datetime_end))%Z.

(** The subtraction stays in range for every scanned point whose
    [last_updated] is read. *)
Definition scan_in_range (fromisoformat : string -> option (Z * option Z))
    (now : Z) (points : list point) : bool :=
  forallb (fun p => match point_last_updated fromisoformat p with
                    | Some _ => date_in_range now (point_ttl p)
                    | None => true
                    end) points.

(** *** Data of the memory examples *)

(** A history record of user [u1], last updated at the start of 2026. *)
Definition memory_record (ttl_days last_updated : value) (i : nat) : point :=
  {| pt_id := Z.of_nat i;
     pt_payload :=
       <["user_id" := VStr "u1"]>
       (<["delete_flag" := VBool false]>
       (<["type" := VStr "history"]>
       (<["ttl_days" := ttl_days]>
       (<["last_updated" := last_updated]> ∅)))) |}.

Definition start_of_2026 : value := VStr "2026-01-01T00:00:00+00:00".

(** 2026-07-20T00:00:00 UTC, 200 days after the start of 2026. *)
Definition july_20_2026 : Z := 63902822400000000 + 200 * us_per_day.

(** 1001 records that are all 200 days old with a [ttl_days] of 180. *)
Definition crowded_store : memory_store :=
  map (memory_record (VStr "180") start_of_2026) (seq 1 1001).

(** Twenty history records of user [u1]. *)
Definition busy_store : memory_store :=
  map (memory_record (VStr "180") start_of_2026) (seq 1 20).

(** The channel and the weight of the preference records of a user. *)
Definition preference_summary (store : memory_store) (user_id : string)
    : list (value * value) :=
  map (fun p => (dict_get (pt_payload p) "pref_channel",
                 dict_get (pt_payload p) "pref_weight"))
      (List.filter (fun p => match_str (pt_payload p) "user_id" user_id
                             && is_preference p) store).

Definition small_store : memory_store :=
  [memory_record (VStr "180") start_of_2026 1;
   memory_record (VStr "365") start_of_2026 2;
   memory_record (VStr "soon") start_of_2026 3;
   memory_record (VStr "180") (VStr "last week") 4;
   memory_record (VStr "180") VNone 5].

(** *** Preference records *)

(** The records of a user. *)
Definition user_records (store : memory_store) (user_id : string) : memory_store :=
  List.filter (fun q => match_str (pt_payload q) "user_id" user_id) store.

(** The point that [reinforce_preference] creates. *)
Definition created_preference (ck : clock_reading) (user_id channel : string)
    (ttl_days : Z) : point :=
  {| pt_id := clock_id ck;
     pt_payload :=
       (<["type" := VStr "preference"]>
        (<["pref_channel" := VStr channel]>
        (<["pref_weight" := VStr "1"]> ∅)))
       ∪ (<["user_id" := VStr user_id]>
          (<["delete_flag" := VBool false]>
          (<["ttl_days" := VStr (str_of_int ttl_days)]>
          (<["version" := VStr (str_of_int 1)]>
          (<["last_updated" := VStr (clock_iso ck)]>
          (<["memory_text" := VStr ("Preference: user tends to use " +:+ channel)]>
             ∅)))))) |}.

(** The point that [reinforce_preference] writes over the record [pref]
    when the new weight is [w]. *)
Definition reinforced_preference (ck : clock_reading) (pref : point)
    (channel : string) (w : Z) : point :=
  {| pt_id := pt_id pref;
     pt_payload :=
       <["memory_text" := VStr ("Preference: user tends to use " +:+ channel
                                +:+ " (reinforced x" +:+ str_of_int w +:+ ")")]>
       (<["last_updated" := VStr (clock_iso ck)]>
       (<["pref_weight" := VStr (str_of_int w)]>
       (<["pref_channel" := VStr channel]> (pt_payload pref)))) |}.

Definition rewritten_keys : list string :=
  ["memory_text"; "last_updated"; "pref_weight"; "pref_channel"].

Definition later_clock (n : Z) : clock_reading :=
  {| clock_id := 1769000000000000 + n;
     clock_iso := "2026-01-21T10:00:0" +:+ str_of_int n +:+ "+00:00" |}.

(** *** Fusion, described over the occurrences of the documents *)

(** [enumerate(l, start=rank)] *)
Fixpoint enumerate_from (rank : Z) (l : list hit) : list (Z * hit) :=
  match l with
  | [] => []
  | d :: r => (rank, d) :: enumerate_from (rank + 1) r
  end.

(** The documents of all lists with their 1-based ranks, in the order in
    which [rrf_fuse] visits them. *)
Definition occurrences (lists : list (list hit)) : list (Z * hit) :=
  concat (map (enumerate_from 1) lists).

Definition occurs (i : pointid) (rd : Z * hit) : bool :=
  (hit_id (snd rd) =? i)%Z.

(** The sum of [1 / (k + rank)] over the occurrences of the document [i]. *)
Definition rrf_sum (k : Z) (occ : list (Z * hit)) (i : pointid) : Q :=
  fold_left Qplus
    (map (fun rd => (1.0 / inject_Z (k + fst rd))%Q) (List.filter (occurs i) occ))
    0.0%Q.

(** The record of the last, and of the first, occurrence of [i]. *)
Definition last_seen (occ : list (Z * hit)) (i : pointid) : option hit :=
  fold_left (fun acc rd => if occurs i rd then Some (snd rd) else acc) occ None.

Definition first_seen (occ : list (Z * hit)) (i : pointid) : option hit :=
  snd <$> List.find (occurs i) occ.

(** The distinct ids in the order of their first occurrence. *)
Definition seen_ids (occ : list (Z * hit)) : list pointid :=
  fold_left (fun acc rd =>
               if existsb (Z.eqb (hit_id (snd rd))) acc then acc
               else (acc ++ [hit_id (snd rd)])%list) occ [].

(** One record per distinct id: the last-seen record with the fused score
    under [rrf_score]. *)
Definition fused_records (k : Z) (occ : list (Z * hit)) : list hit :=
  omap (fun i => (fun d => with_rrf_score d (rrf_sum k occ i)) <$> last_seen occ i)
       (seen_ids occ).

(** The two loops of [rrf_fuse] as one pass over the occurrences. *)
Fixpoint rrf_flat (k : Z) (occ : list (Z * hit)) (st : rrf_state) : result rrf_state :=
  match occ with
  | [] => Ok st
  | rd :: rest => let* st' := rrf_step k (fst rd) (snd rd) st in rrf_flat k rest st'
  end.

(** Descending order of the fused scores. *)
Definition rrf_desc (a b : hit) : Prop := (rrf_key b <= rrf_key a)%Q.

(** *** Data of the fusion example: one document found by two searches *)

Definition dense_hit : hit :=
  {| hit_id := 7; hit_text := "Pothole procedure (dense)";
     hit_payload := <["source" := VStr "dense"]> ∅; hit_score := Some 0.9%Q;
     hit_bm25_score := None; hit_rrf_score := None; hit_rerank_score := None |}.

Definition second_hit : hit :=
  {| hit_id := 7; hit_text := "Pothole procedure (second list)";
     hit_payload := <["source" := VStr "second"]> ∅; hit_score := Some 0.5%Q;
     hit_bm25_score := None; hit_rrf_score := None; hit_rerank_score := None |}.

(** What the two dictionaries of [rrf_fuse] hold after the occurrences
    [occ] have been visited. *)
Definition rrf_inv (k : Z) (occ : list (Z * hit)) (st : rrf_state) : Prop :=
  map fst (rrf_scores st) = seen_ids occ
  /\ (forall i,
        odict_get i (rrf_scores st)
        = if existsb (Z.eqb i) (seen_ids occ) then Some (rrf_sum k occ i) else None)
  /\ (forall i, rrf_items st !! i = last_seen occ i).

(* ===================================================================== *)
(** ** Further parts of the code, and observations on them               *)
(* ===================================================================== *)

(** A character of a token: a lower-case letter, a digit or an underscore. *)
Definition is_lower_token_char (c : ascii) : bool :=
  let n := nat_of_ascii c in
  ((97 <=? n) && (n <=? 122) || (48 <=? n) && (n <=? 57) || (n =? 95))%nat.

Definition token_ok (t : string) : Prop :=
  t <> EmptyString /\ forallb is_lower_token_char (list_ascii_of_string t) = true.

(** The score that [BM25Index.search] reads at position [i]. *)
Definition score_at (scores : list Q) (i : nat) : Q :=
  match nth_error scores i with Some s => s | None => 0%Q end.

(** The positions that [BM25Index.search] returns, best first. *)
Definition bm25_order (scores : list Q) (topk : Z) : list nat :=
  slice_to (sort_desc (score_at scores) (seq 0 (length scores))) topk.

Definition bm25_key (x : hit) : Q :=
  match hit_bm25_score x with Some s => s | None => 0%Q end.

(** A scorer that counts the query tokens found in each document. *)
Definition overlap_scores (corpus : list (list string)) (q : list string) : list Q :=
  map (fun doc => inject_Z (Z.of_nat (length (List.filter (fun t => str_in t doc) q))))
      corpus.

Definition text_point (i : Z) (txt : string) : point :=
  {| pt_id := i; pt_payload := <["text" := VStr txt]> ∅ |}.

Definition example_docs : list hit :=
  map doc_of_point
    [text_point 1 "Garbage pickup schedule";
     text_point 2 "Streetlight not working at night";
     text_point 3 "Report a broken streetlight"].

(** An index as [BM25Index.build] leaves it. *)
Definition built_index (idx : BM25Index) : Prop :=
  exists docs, BM25Index_build docs = Ok idx.

(** A reachable database whose count call fails. *)
Definition uncounted_backend (n : nat) : backend :=
  {| reachable := true;
     count_api := fun _ _ => None;
     stored := fun _ _ => map numbered_point (seq 1 n);
     dense := fun _ _ _ _ => [] |}.

(** *** core/rerank.py and the reranking step of the agent *)
(** [Reranker.rerank(query, docs)] *)
Definition Reranker_rerank (query : string) (docs : list hit) : list hit := docs.

(** [d["rerank_score"] = s] *)
Definition with_rerank_score (d : hit) (s : Q) : hit :=
  {| hit_id := hit_id d; hit_text := hit_text d; hit_payload := hit_payload d;
     hit_score := hit_score d; hit_bm25_score := hit_bm25_score d;
     hit_rrf_score := hit_rrf_score d; hit_rerank_score := Some s |}.

(** [for d, s in zip(docs, scores): d["rerank_score"] = float(s)]: the
    documents beyond the last score are left as they are. *)
Fixpoint assign_rerank_scores (docs : list hit) (scores : list Q) : list hit :=
  match docs, scores with
  | d :: r, s :: t => with_rerank_score d s :: assign_rerank_scores r t
  | _, _ => docs
  end.

(** [x.get("rerank_score", 0.0)] *)
Definition rerank_key (x : hit) : Q :=
  match hit_rerank_score x with Some s => s | None => 0.0%Q end.

(** [CrossEncoderReranker.rerank(query, docs)]; [predict] is the
    cross-encoder model applied to the pairs of the query and a text. *)
Definition CrossEncoderReranker_rerank
    (predict : list (string * string) -> list Q) (query : string)
    (docs : list hit) : list hit :=
  match docs with
  | [] => docs
  | _ =>
      let pairs := map (fun d => (query, hit_text d)) docs in
      let scores := predict pairs in
      sort_desc rerank_key (assign_rerank_scores docs scores)
  end.

(** The document that [CivicFixAgent._rerank] makes of a hit: the keys
    [id], [text], [payload] and [score], the last one read from [score] or,
    when the hit has none, from [rrf_score]. *)
Definition rerank_doc (h : hit) : hit :=
  {| hit_id := hit_id h; hit_text := hit_text h; hit_payload := hit_payload h;
     hit_score := match hit_score h with
                  | Some s => Some s
                  | None => hit_rrf_score h
                  end;
     hit_bm25_score := None; hit_rrf_score := None; hit_rerank_score := None |}.

(** [CivicFixAgent._rerank(query, hits)] for the reranker of the agent. *)
Definition _rerank (reranker : string -> list hit -> list hit) (query : string)
    (hits : list hit) : list hit :=
  reranker query (map rerank_doc hits).

(** Descending order of the rerank scores. *)
Definition rerank_desc (a b : hit) : Prop := (rerank_key b <= rerank_key a)%Q.

(** A model that scores a pair by the length of its text. *)
Definition length_predict (pairs : list (string * string)) : list Q :=
  map (fun p => inject_Z (Z.of_nat (String.length (snd p)))) pairs.

(** *** core/preprocess.py *)
(** [str.lower] on one character (code points below 256): the letters
    [A]-[Z] and the accented capitals, the multiplication sign apart. *)
Definition py_lower_char (c : ascii) : ascii :=
  let n := nat_of_ascii c in
  if ((65 <=? n) && (n <=? 90)
      || (192 <=? n) && (n <=? 222) && negb (n =? 215))%nat
  then ascii_of_nat (n + 32) else c.

(** [s.lower()] *)
Fixpoint lower (s : string) : string :=
  match s with
  | EmptyString => EmptyString
  | String c r => String (py_lower_char c) (lower r)
  end.

(** [s.startswith(k)] *)
Fixpoint startswith (s k : string) : bool :=
  match k, s with
  | EmptyString, _ => true
  | String a k', String c s' => Ascii.eqb a c && startswith s' k'
  | String _ _, EmptyString => false
  end.

(** [k in s] for strings: [k] starts at some position of [s]. *)
Fixpoint contains (s k : string) : bool :=
  startswith s k
  || match s with
     | EmptyString => false
     | String _ r => contains r k
     end.

Definition high_keywords : list string :=
  ["electric shock"; "exposed wire"; "sparking"; "fire"; "collapse";
   "accident"; "injury"].

Definition danger_keywords : list string :=
  ["danger"; "hazard"; "urgent"; "unsafe"; "immediate"].

Definition medium_keywords : list string :=
  ["not working"; "broken"; "leak"; "overflow"; "garbage"; "pothole"].

(** [infer_urgency(text)] *)
Definition infer_urgency (text : string) : string :=
  let t := lower text in
  if existsb (contains t) high_keywords then "high"
  else if existsb (contains t) danger_keywords then "high"
  else if existsb (contains t) medium_keywords then "medium"
  else "low".

(** No character of the string is white space for [int]. *)
Definition no_space (s : string) : bool :=
  forallb (fun c => negb (is_int_space c)) (list_ascii_of_string s).

(** The six keys that [memory_upsert] writes unless the payload of the
    caller has them. *)
Definition standard_payload (ck : clock_reading) (user_id memory_text : string)
    (ttl_days version : Z) : dict :=
  <["user_id" := VStr user_id]>
  (<["delete_flag" := VBool false]>
  (<["ttl_days" := VStr (str_of_int ttl_days)]>
  (<["version" := VStr (str_of_int version)]>
  (<["last_updated" := VStr (clock_iso ck)]>
  (<["memory_text" := VStr memory_text]> ∅))))).

(** The keys of the mapping of provided values in [assist_new]. *)
Definition provided_keys : list string :=
  ["city"; "ward_id"; "landmark"; "date_time"; "text"; "location"; "photo";
   "days_missed"].

(** The seeded knowledge-base entry for uncollected garbage. *)
Definition garbage_hit : hit :=
  {| hit_id := 3;
     hit_text := "Garbage not collected: Provide location, landmark, days missed, date/time, and photo.";
     hit_payload :=
       <["category" := VStr "Garbage"]>
       (<["department" := VStr "Sanitation"]>
       (<["channel_type" := VList ["app"; "helpline"; "portal"]]>
       (<["sla_days" := VInt 2]>
       (<["required_fields" :=
            VList ["location"; "landmark"; "photo"; "date_time"; "days_missed"]]>
          ∅))));
     hit_score := Some 0.8%Q; hit_bm25_score := None; hit_rrf_score := None;
     hit_rerank_score := None |}.

(** The visible preference records of a user. *)
Definition visible_preference (user_id : string) (q : point) : bool :=
  memory_filter user_id q && is_preference q.

(** Successive calls of [reinforce_preference] for one user, each with its
    reading of the clock and its channel. *)
Fixpoint reinforce_all (rank : list point -> list point) (store : memory_store)
    (user_id : string) (calls : list (clock_reading * string))
    : result memory_store :=
  match calls with
  | [] => Ok store
  | (ck, channel) :: rest =>
      let* store' := reinforce_preference rank ck store user_id channel 180 in
      reinforce_all rank store' user_id rest
  end.

(** What holds of the store between two reinforcements: unique ids, at
    most 20 visible records of the user, and among them one preference
    record, with the weight [w] and the channel and time of the last
    call. *)
Definition reinforced_state (user_id : string) (store : memory_store) (w : Z)
    (last : clock_reading * string) : Prop :=
  List.NoDup (map pt_id store)
  /\ (length (List.filter (memory_filter user_id) store) <= 20)%nat
  /\ exists p,
       List.filter (visible_preference user_id) store = [p]
       /\ pt_payload p !! "pref_weight" = Some (VStr (str_of_int w))
       /\ pt_payload p !! "pref_channel" = Some (VStr (snd last))
       /\ pt_payload p !! "last_updated" = Some (VStr (clock_iso (fst last))).

(* ===================================================================== *)
(** * Properties                                                          *)
(* ===================================================================== *)

(** ** Strings *)

Lemma append_cons (c : ascii) (s t : string) :
  String c s +:+ t = String c (s +:+ t).
Proof. reflexivity. Qed.

Lemma append_nil_l (t : string) : EmptyString +:+ t = t.
Proof. reflexivity. Qed.

Lemma append_assoc (s t u : string) : (s +:+ t) +:+ u = s +:+ (t +:+ u).
Proof.
  induction s as [|c r IH].
  - rewrite !append_nil_l. reflexivity.
  - rewrite !append_cons, IH. reflexivity.
Qed.

Lemma lstrip_blank (s : string) :
  lstrip s = EmptyString <-> forallb is_space (list_ascii_of_string s) = true.
Proof.
  induction s as [|c r IH]; simpl.
  - split; reflexivity.
  - destruct (is_space c); simpl.
    + exact IH.
    + split; discriminate.
Qed.

Lemma rstrip_nonblank (c : ascii) (r : string) :
  is_space c = false -> rstrip (String c r) <> EmptyString.
Proof.
  intros Hc. simpl. destruct (rstrip r); rewrite ?Hc; discriminate.
Qed.

Lemma lstrip_head (s : string) :
  match lstrip s with
  | EmptyString => True
  | String c _ => is_space c = false
  end.
Proof.
  induction s as [|c r IH]; simpl; [exact I|].
  destruct (is_space c) eqn:E; [exact IH | exact E].
Qed.

(** [not s.strip()] holds exactly for the strings made of white space. *)
Lemma strip_blank (s : string) :
  strip s = EmptyString <-> forallb is_space (list_ascii_of_string s) = true.
Proof.
  unfold strip. rewrite <- lstrip_blank.
  pose proof (lstrip_head s) as H.
  destruct (lstrip s) as [|c r] eqn:E.
  - split; reflexivity.
  - split; [|discriminate].
    intros Hr. exfalso. exact (rstrip_nonblank c r H Hr).
Qed.

(** ** Confidence (core/response.py, core/agent_v2.py) *)

Lemma confidence_from_score_thresholds (s : Q) :
  (0.35 <= s -> confidence_from_score (Some s) = "high")%Q
  /\ (0.25 <= s /\ s < 0.35 -> confidence_from_score (Some s) = "medium")%Q
  /\ (s < 0.25 -> confidence_from_score (Some s) = "low")%Q.
Proof.
  unfold confidence_from_score.
  destruct (Qle_bool 0.35 s) eqn:E1; destruct (Qle_bool 0.25 s) eqn:E2;
    try (apply Qle_bool_iff in E1); try (apply Qle_bool_iff in E2);
    repeat split; intros; try reflexivity; exfalso.
  all: try (assert (~ (0.35 <= s)%Q) as N1
              by (intros C; apply Qle_bool_iff in C; congruence)).
  all: try (assert (~ (0.25 <= s)%Q) as N2
              by (intros C; apply Qle_bool_iff in C; congruence)).
  all: lra.
Qed.

Lemma assist_prelude_kb_top rank store rq rt g :
  assist_prelude rank store rq rt = Ok g ->
  g_kb_top g = match r_kb_docs rt with t :: _ => Some t | [] => None end.
Proof.
  unfold assist_prelude. intros H.
  destruct (recommend_channel _ _ _ _) as [[[best backup] details]|e];
    simpl in H; [|discriminate].
  destruct (iter_strs _) as [req|e]; simpl in H; [|discriminate].
  injection H as <-. reflexivity.
Qed.

Lemma assist_new_confidence rank ck store rq rt res store' :
  assist_new rank ck store rq rt = Ok (res, store') ->
  result_confidence res =
  assist_confidence (match r_kb_docs rt with t :: _ => Some t | [] => None end).
Proof.
  unfold assist_new. intros H.
  destruct (assist_prelude rank store rq rt) as [g|e] eqn:Hg; simpl in H;
    [|discriminate].
  rewrite <- (assist_prelude_kb_top _ _ _ _ _ Hg).
  destruct (_ && _).
  - injection H as <- <-. reflexivity.
  - destruct (finalize rank ck store rq rt g) as [[d st]|e] eqn:Hf; simpl in H;
      [|discriminate].
    injection H as <- <-. simpl.
    unfold finalize in Hf.
    destruct (fill_template _ _); simpl in Hf; [|discriminate].
    destruct (if truthy _ then _ else _); simpl in Hf; [|discriminate].
    destruct (reinforce_preference _ _ _ _ _ _); simpl in Hf; [|discriminate].
    injection Hf as <- <-. reflexivity.
Qed.

(** C9, as stated, fails: with the pass-through reranker the top
    knowledge-base hit carries a retrieval score of 0.9 and no rerank score;
    the decision lists that hit as its first evidence item with score 0.9,
    for which the stated mapping gives "high", and is labelled "low". *)
Lemma confidence_ignores_evidence_score :
  exists d store',
    assist_new stored_order example_clock []
      (pothole_request true false)
      (pothole_retrieved [pothole_hit (Some 0.9%Q) None] [])
    = Ok (FinalDecision d, store')
    /\ (exists e, head (dec_evidence d) = Some e /\ (ev_score e == 0.9)%Q)
    /\ confidence_of_top_evidence (dec_evidence d) = "high"
    /\ dec_confidence d = "low".
Proof.
  eexists. eexists. split; [vm_compute; reflexivity|].
  split; [eexists; split; [reflexivity|reflexivity]|].
  split; reflexivity.
Qed.

(** C9, amended: the confidence label of every result of [assist_new] is
    derived from the rerank score of the top knowledge-base hit: at least
    0.35 gives "high", from 0.25 up to 0.35 gives "medium", below gives
    "low"; it is "low" as well when there is no knowledge-base hit or when
    the hit carries no rerank score, whatever the evidence list holds. *)
Theorem confidence_from_rerank_score :
  forall rank ck store rq rt res store',
    assist_new rank ck store rq rt = Ok (res, store') ->
    match r_kb_docs rt with
    | top :: _ =>
        match hit_rerank_score top with
        | Some s =>
            ((0.35 <= s)%Q -> result_confidence res = "high")
            /\ ((0.25 <= s)%Q /\ (s < 0.35)%Q -> result_confidence res = "medium")
            /\ ((s < 0.25)%Q -> result_confidence res = "low")
        | None => result_confidence res = "low"
        end
    | [] => result_confidence res = "low"
    end.
Proof.
  intros rank ck store rq rt res store' H.
  rewrite (assist_new_confidence _ _ _ _ _ _ _ H).
  destruct (r_kb_docs rt) as [|top rest]; [reflexivity|].
  unfold assist_confidence.
  destruct (hit_rerank_score top) as [s|]; [|reflexivity].
  apply confidence_from_score_thresholds.
Qed.

Lemma confidence_from_rerank_score_witness :
  exists res store',
    assist_new stored_order example_clock []
      (pothole_request true false)
      (pothole_retrieved [pothole_hit (Some 0.9%Q) (Some 0.3%Q)] [])
    = Ok (res, store')
    /\ result_confidence res = "medium".
Proof.
  eexists. eexists.
  assert (assist_new stored_order example_clock []
            (pothole_request true false)
            (pothole_retrieved [pothole_hit (Some 0.9%Q) (Some 0.3%Q)] [])
          = Ok (_, _)) as H by (vm_compute; reflexivity).
  split; [exact H|].
  pose proof (confidence_from_rerank_score _ _ _ _ _ _ _ H) as [_ [M _]].
  apply M. split; [vm_compute; discriminate | reflexivity].
Defined.

(** ** Channel scores (core/recommend.py) *)

Lemma str_in_two (x a b : string) :
  str_in x [a; b] = (if decide (x = a \/ x = b) then true else false).
Proof.
  destruct (decide (x = a \/ x = b)) as [N|N]; unfold str_in; simpl.
  - destruct N as [->| ->]; rewrite String.eqb_refl; simpl;
      [reflexivity | apply orb_true_r].
  - destruct (String.eqb_spec x a) as [->|Ha]; [exfalso; apply N; now left|].
    destruct (String.eqb_spec x b) as [->|Hb]; [exfalso; apply N; now right|].
    reflexivity.
Qed.

Lemma pref_bonus_decide (c : string) (pref : option string) :
  c <> EmptyString ->
  match pref with
  | Some p => negb (String.eqb p EmptyString) && String.eqb c p
  | None => false
  end = (if decide (pref = Some c) then true else false).
Proof.
  intros Hc. destruct (decide (pref = Some c)) as [->|N].
  - rewrite String.eqb_refl.
    destruct (String.eqb_spec c EmptyString) as [?|_]; [contradiction|reflexivity].
  - destruct pref as [p|]; [|reflexivity].
    destruct (String.eqb_spec c p) as [<-|Hp]; [now exfalso|].
    apply andb_false_r.
Qed.

Lemma portal_penalty_decide (c : string) (portal_ok : bool) :
  String.eqb c "portal" && negb portal_ok
  = (if decide (c = "portal" /\ portal_ok = false) then true else false).
Proof.
  destruct (decide (c = "portal" /\ portal_ok = false)) as [[-> ->]|N].
  - reflexivity.
  - destruct (String.eqb_spec c "portal") as [->|Hc]; [|reflexivity].
    destruct portal_ok; [reflexivity|]. exfalso. apply N. now split.
Qed.

(** C4: the score of a candidate channel [c] (a non-empty name; an empty
    preference counts as no preference) is 0.0, plus the urgency term (high:
    2.0 for helpline or email, else 0.6; medium: 1.2 for app or portal, else
    0.5; low: 1.0 for portal or app, else 0.3), minus 2.5 when [c] is the
    portal and the portal is not live, plus 1.5 when [c] is the user's
    preference. With the candidates portal and helpline, high urgency, a
    portal that is not live and no preference, helpline scores 2.0, portal
    scores 0.6 - 2.5, which is negative, and helpline is returned as best. *)
Theorem score_channel_exact :
  (forall (c : string) (portal_ok : bool) (pref : option string),
      c <> EmptyString ->
      let penalty := if decide (c = "portal" /\ portal_ok = false) then 2.5%Q else 0%Q in
      let bonus := if decide (pref = Some c) then 1.5%Q else 0%Q in
      (score_channel c "high" portal_ok pref ==
         0.0 + (if decide (c = "helpline" \/ c = "email") then 2.0 else 0.6)
         - penalty + bonus)%Q
      /\ (score_channel c "medium" portal_ok pref ==
            0.0 + (if decide (c = "app" \/ c = "portal") then 1.2 else 0.5)
            - penalty + bonus)%Q
      /\ (score_channel c "low" portal_ok pref ==
            0.0 + (if decide (c = "portal" \/ c = "app") then 1.0 else 0.3)
            - penalty + bonus)%Q)
  /\ (score_channel "helpline" "high" false None == 2.0)%Q
  /\ (score_channel "portal" "high" false None == 0.6 - 2.5)%Q
  /\ (score_channel "portal" "high" false None < 0)%Q
  /\ (score_channel "portal" "high" false None
      < score_channel "helpline" "high" false None)%Q
  /\ (forall (kb_payload status : dict),
        kb_payload !! "channel_type" = Some (VList ["portal"; "helpline"]) ->
        dict_get status "status" <> VStr "up" ->
        exists details,
          recommend_channel kb_payload (Some status) "high" None
          = Ok (Some "helpline", Some "portal", details)
          /\ details_portal_ok details = false).
Proof.
  split.
  { intros c portal_ok pref Hc penalty bonus. subst penalty bonus.
    unfold score_channel. simpl String.eqb.
    rewrite !str_in_two, portal_penalty_decide, (pref_bonus_decide c pref Hc).
    repeat split.
    all: repeat case_decide; vm_compute; reflexivity. }
  split; [vm_compute; reflexivity|].
  split; [vm_compute; reflexivity|].
  split; [vm_compute; reflexivity|].
  split; [vm_compute; reflexivity|].
  intros kb_payload status Hch Hst.
  unfold recommend_channel, dict_get_default. rewrite Hch. simpl.
  assert (match dict_get status "status" with
          | VStr s => String.eqb s "up"
          | _ => false
          end = false) as ->.
  { destruct (dict_get status "status") as [| | | |s|]; try reflexivity.
    destruct (String.eqb_spec s "up") as [->|]; [now exfalso | reflexivity]. }
  eexists. split; reflexivity.
Qed.

Lemma score_channel_exact_witness :
  ("email" <> EmptyString
   /\ (score_channel "email" "high" true (Some "email") == 0.0 + 2.0 - 0 + 1.5)%Q)
  /\ exists details,
       recommend_channel pothole_payload
         (Some (<["status" := VStr "down"]> ∅)) "high" None
       = Ok (Some "helpline", Some "portal", details).
Proof.
  destruct score_channel_exact as [F [_ [_ [_ [_ R]]]]].
  split.
  - split; [discriminate|].
    destruct (F "email" true (Some "email")) as [H _]; [discriminate|].
    exact H.
  - destruct (R pothole_payload (<["status" := VStr "down"]> ∅)) as [d [H _]].
    + reflexivity.
    + vm_compute. discriminate.
    + exists d. exact H.
Defined.

(** ** Escalation ladder (core/response.py) *)

Lemma until_colon_uint (d : Decimal.uint) (rest : string) :
  until_colon (NilEmpty.string_of_uint d +:+ String ":" rest)
  = NilEmpty.string_of_uint d.
Proof.
  induction d; simpl; rewrite ?IHd; reflexivity.
Qed.

Lemma until_colon_str_of_int (z : Z) (rest : string) :
  until_colon (str_of_int z +:+ String ":" rest) = str_of_int z.
Proof.
  unfold str_of_int, NilZero.string_of_int, NilZero.string_of_uint.
  destruct (Z.to_int z) as [d|d]; destruct d; simpl;
    rewrite ?until_colon_uint; reflexivity.
Qed.

Lemma int_of_str_of_int (z : Z) :
  Z.of_int <$> NilZero.int_of_string (str_of_int z) = Some z.
Proof.
  unfold str_of_int. rewrite NilZero.isi.
  - simpl. f_equal. apply DecimalZ.of_to.
  - destruct z; simpl; try discriminate.
    intros [= H]. exact (Unsigned.to_uint_nonnil _ H).
  - destruct z; simpl; try discriminate.
    intros [= H]. exact (Unsigned.to_uint_nonnil _ H).
Qed.

(** A step that starts with [Day n:] announces the day [n]. *)
Lemma step_day_announced (n : Z) (rest : string) :
  step_day ("Day " +:+ str_of_int n +:+ String ":" rest) = Some n.
Proof.
  change (Z.of_int <$> NilZero.int_of_string
            (until_colon (str_of_int n +:+ String ":" rest)) = Some n).
  rewrite until_colon_str_of_int. apply int_of_str_of_int.
Qed.

Lemma step_day_announced_app (n : Z) (a b : string) :
  step_day ("Day " +:+ str_of_int n +:+ String ":" a +:+ b) = Some n.
Proof.
  exact (step_day_announced n (a +:+ b)).
Qed.

(** C7, as stated, fails for the first step: it prints the constant day
    0, while min(0, waited_days + bonus) is negative as soon as
    waited_days + bonus is. With [sla_days = 7] and [waited_days = -3]
    (the service forwards any integer) the announced days are 0, -3, -3,
    -1 and 2, and min(0, -3 + 0) is -3. No fixed bonus repairs the first
    step: for every bonus some number of waited days makes the formula
    differ from the day that is printed. *)
Lemma escalation_first_step_fixed :
  map step_day (escalation_steps 7 (Some (-3)))
  = [Some 0; Some (-3); Some (-3); Some (-1); Some 2]
  /\ head (map step_day (escalation_steps 7 (Some (-3))))
     <> Some (Some (Z.min 0 (-3 + 0)))
  /\ forall bonus : Z, exists waited : Z,
       head (map step_day (escalation_steps 7 (Some waited)))
       <> Some (Some (Z.min 0 (waited + bonus))).
Proof.
  split; [reflexivity|]. split; [cbn; discriminate|].
  intros bonus. exists (- bonus - 1).
  unfold escalation_steps. cbn [map head].
  replace (- bonus - 1 + bonus) with (-1) by lia.
  change (step_day "Day 0: Submit via recommended channel and save screenshot/ticket.")
    with (Some 0).
  cbn. discriminate.
Qed.

(** C7, amended: for every [sla_days] and every number of waited days (it
    defaults to [sla_days]), [escalation_steps] returns exactly five
    steps; the first announces day 0 whatever the inputs are, and steps
    two to five announce the days min(offset_n, waited_days + bonus_n) for
    the offsets 1, sla_days, sla_days + 2, sla_days + 5 and the bonuses 0,
    0, 2, 5. The first step agrees with min(0, waited_days + 0) exactly
    when the number of waited days is not negative. The third step names
    the SLA as [sla_days days]; with [sla_days = 7] it mentions
    "7 days". *)
Theorem escalation_steps_ladder :
  forall (sla_days : Z) (waited_days : option Z),
    let waited := match waited_days with Some w => w | None => sla_days end in
    let offsets := [0; 1; sla_days; sla_days + 2; sla_days + 5] in
    let bonuses := [0; 0; 0; 2; 5] in
    let days := zip_with (fun o b => Z.min o (waited + b)) offsets bonuses in
    let steps := escalation_steps sla_days waited_days in
    length steps = 5%nat
    /\ map step_day steps = Some 0 :: map Some (tail days)
    /\ (0 <= waited <-> map step_day steps = map Some days)
    /\ (exists pre post,
          steps !! 2%nat
          = Some (pre +:+ str_of_int sla_days +:+ " days" +:+ post))
    /\ (sla_days = 7 ->
        exists pre post, steps !! 2%nat = Some (pre +:+ "7 days" +:+ post)).
Proof.
  intros sla_days waited_days waited offsets bonuses days steps.
  assert (map step_day steps = Some 0 :: map Some (tail days)) as Hall.
  { subst steps days offsets bonuses. unfold escalation_steps. fold waited.
    cbn [tail map zip_with].
    rewrite !Z.add_0_r.
    rewrite !step_day_announced, step_day_announced_app. reflexivity. }
  split; [reflexivity|].
  split; [exact Hall|].
  split.
  { rewrite Hall. subst days offsets bonuses. cbn [tail map zip_with].
    rewrite Z.add_0_r. split.
    - intros Hw. rewrite (Z.min_l 0 waited) by lia. reflexivity.
    - intros E. injection E as E. lia. }
  split.
  { exists ("Day " +:+ str_of_int (Z.min sla_days waited)
            +:+ ": If no resolution within SLA (").
    exists "), escalate to ward/zone officer.".
    subst steps. unfold escalation_steps. fold waited. cbn [lookup list_lookup].
    f_equal. rewrite !append_assoc. reflexivity. }
  intros ->.
  exists ("Day " +:+ str_of_int (Z.min 7 waited)
          +:+ ": If no resolution within SLA (").
  exists "), escalate to ward/zone officer.".
  subst steps. unfold escalation_steps. fold waited. cbn [lookup list_lookup].
  f_equal. rewrite !append_assoc. reflexivity.
Qed.

Lemma escalation_steps_ladder_witness :
  map step_day (escalation_steps 7 (Some 3))
  = [Some 0; Some 1; Some 3; Some 5; Some 8]
  /\ map step_day (escalation_steps 7 (Some (-3)))
     = [Some 0; Some (-3); Some (-3); Some (-1); Some 2]
  /\ exists pre post,
       escalation_steps 7 None !! 2%nat = Some (pre +:+ "7 days" +:+ post).
Proof.
  destruct (escalation_steps_ladder 7 (Some 3)) as [_ [H _]].
  destruct (escalation_steps_ladder 7 (Some (-3))) as [_ [N _]].
  destruct (escalation_steps_ladder 7 None) as [_ [_ [_ [_ S]]]].
  split; [rewrite H; reflexivity|].
  split; [rewrite N; reflexivity|].
  apply S. reflexivity.
Defined.

(** ** Slot filling (core/agent_v2.py) *)

(** [endswith] tells that the string ends with the suffix. *)
Lemma endswith_suffix (s suffix : string) :
  endswith s suffix = true <-> exists pre, s = pre +:+ suffix.
Proof.
  induction s as [|c r IH].
  - cbn [endswith]. destruct (String.eqb_spec EmptyString suffix) as [<-|N].
    + split; [intros _; exists EmptyString; reflexivity | reflexivity].
    + split; [discriminate|]. intros [pre H]. exfalso.
      destruct pre; [rewrite append_nil_l in H; now apply N | discriminate].
  - cbn [endswith]. destruct (String.eqb_spec (String c r) suffix) as [<-|N].
    + split; [intros _; exists EmptyString; reflexivity | reflexivity].
    + rewrite IH. split.
      * intros [pre ->]. exists (String c pre). reflexivity.
      * intros [pre H]. destruct pre as [|c' pre].
        -- rewrite append_nil_l in H. now exfalso.
        -- rewrite append_cons in H. injection H as _ ->. now exists pre.
Qed.

Lemma missing_fields_filter (required : list string) (provided : dict) :
  _missing_fields required provided
  = List.filter (field_is_missing provided) required.
Proof.
  induction required as [|f r IH]; [reflexivity|].
  cbn [_missing_fields List.filter]. unfold field_is_missing at 1.
  destruct (endswith f "_optional"); cbn [negb andb]; [exact IH|].
  unfold dict_get.
  destruct (provided !! f) as [[| | | |s|]|]; rewrite IH; try reflexivity.
  assert (String.eqb (strip s) EmptyString = blank s) as ->; [|reflexivity].
  unfold blank.
  destruct (String.eqb_spec (strip s) EmptyString) as [E|E].
  - symmetry. now apply strip_blank.
  - destruct (forallb _ _) eqn:B; [|reflexivity].
    exfalso. apply E. now apply strip_blank.
Qed.

Lemma assist_prelude_missing rank store rq rt g :
  assist_prelude rank store rq rt = Ok g ->
  g_missing g = _missing_fields (g_required_fields g) (provided_fields rq).
Proof.
  unfold assist_prelude. intros H.
  destruct (recommend_channel _ _ _ _) as [[[best backup] details]|e];
    simpl in H; [|discriminate].
  destruct (iter_strs _) as [req|e]; simpl in H; [|discriminate].
  injection H as <-. reflexivity.
Qed.

Lemma finalize_is_decision rank ck store rq rt g :
  forall res store',
    (let* ds := finalize rank ck store rq rt g in
     Ok (FinalDecision (fst ds), snd ds)) = Ok (res, store') ->
    need_more_info res = false.
Proof.
  intros res store' H.
  destruct (finalize rank ck store rq rt g) as [[d st]|e]; simpl in H;
    [|discriminate].
  injection H as <- _. reflexivity.
Qed.

Lemma qmap_nonempty (f q : string) : qmap !! f = Some q -> q <> EmptyString.
Proof.
  assert (H : map_Forall (fun _ q => q <> EmptyString) qmap).
  { unfold qmap.
    repeat (apply map_Forall_insert_2; [discriminate|]).
    apply map_Forall_empty. }
  intros E. exact (H f q E).
Qed.

Lemma questions_ask (fields : list string) :
  Forall2 asks fields (_questions_for fields).
Proof.
  induction fields as [|f r IH]; [constructor|].
  cbn [_questions_for map]. constructor; [|exact IH].
  unfold asks. destruct (qmap !! f) as [q|] eqn:E.
  - split; [exact (qmap_nonempty f q E)|left; reflexivity].
  - split; [|right; split; reflexivity].
    change ("Please provide: " +:+ f) with (String "P" ("lease provide: " +:+ f)).
    discriminate.
Qed.

(** C2: the missing fields are exactly the required names, in their order,
    that are not suffixed [_optional] and whose provided value is null
    (absent counts as null) or a blank string. Once [assist_new] has reached
    the slot-filling step, a non-empty missing list with [auto_submit] false
    makes it return the information request with these missing fields and
    one follow-up question for each of them, in their order, the memory
    store untouched and no decision made; with [auto_submit] true it goes
    on to the final decision whatever is missing. A question is never
    empty: it is the question of the table for the six fields that the
    table lists and a request that names the field for any other. *)
Theorem slot_filling_gate :
  (forall (required : list string) (provided : dict),
      _missing_fields required provided
      = List.filter (field_is_missing provided) required)
  /\ _missing_fields ["location"; "photo"]
       (<["location" := VStr EmptyString]> (<["photo" := VStr "yes"]> ∅))
     = ["location"]
  /\ (forall rank ck store rq rt g,
        assist_prelude rank store rq rt = Ok g ->
        g_missing g = List.filter (field_is_missing (provided_fields rq))
                                  (g_required_fields g)
        /\ (g_missing g <> [] -> auto_submit rq = false ->
            exists info,
              assist_new rank ck store rq rt = Ok (NeedMoreInfo info, store)
              /\ ir_missing_fields info = g_missing g
              /\ ir_questions info = _questions_for (g_missing g)
              /\ Forall2 asks (ir_missing_fields info) (ir_questions info)
              /\ length (ir_questions info) = length (g_missing g)
              /\ ir_questions info <> [])
        /\ (auto_submit rq = true ->
            assist_new rank ck store rq rt
            = (let* ds := finalize rank ck store rq rt g in
               Ok (FinalDecision (fst ds), snd ds))
            /\ forall res store',
                 assist_new rank ck store rq rt = Ok (res, store') ->
                 need_more_info res = false))
  /\ (forall fields : list string,
        Forall2 asks fields (_questions_for fields))
  /\ _questions_for
       ["location"; "landmark"; "date_time"; "days_missed"; "photo";
        "pole_number_optional"; "ward"]
     = ["What is the exact location (street/area) of the issue?";
        "Any nearby landmark (shop/school/bus stop) to help locate it?";
        "When did you first notice it (date/time)?";
        "How many days has the issue continued (e.g., garbage not collected for N days)?";
        "Can you upload a clear photo of the issue?";
        "If visible, what is the pole number?";
        "Please provide: ward"].
Proof.
  split; [exact missing_fields_filter|].
  split; [vm_compute; reflexivity|].
  split; [|split; [exact questions_ask|vm_compute; reflexivity]].
  intros rank ck store rq rt g Hg.
  split.
  { rewrite (assist_prelude_missing _ _ _ _ _ Hg). apply missing_fields_filter. }
  split.
  - intros Hm Ha. exists (ask_more rq rt g).
    split; [|split; [reflexivity|split; [reflexivity|]]].
    + unfold assist_new. rewrite Hg. cbn [bind]. rewrite Ha.
      destruct (g_missing g) eqn:E; [now exfalso|]. reflexivity.
    + cbn [ask_more ir_missing_fields ir_questions].
      split; [apply questions_ask|].
      split; [unfold _questions_for; apply length_map|].
      destruct (g_missing g); [contradiction|discriminate].
  - intros Ha.
    assert (assist_new rank ck store rq rt
            = (let* ds := finalize rank ck store rq rt g in
               Ok (FinalDecision (fst ds), snd ds))) as E.
    { unfold assist_new. rewrite Hg. cbn [bind]. rewrite Ha.
      cbn [negb]. rewrite andb_false_r. reflexivity. }
    split; [exact E|].
    intros res store'. rewrite E. apply finalize_is_decision.
Qed.

Lemma slot_filling_gate_witness :
  (exists g info,
      assist_prelude stored_order [] (pothole_request false false)
        (pothole_retrieved [pothole_hit (Some 0.9%Q) None] []) = Ok g
      /\ g_missing g = ["photo"]
      /\ assist_new stored_order example_clock [] (pothole_request false false)
           (pothole_retrieved [pothole_hit (Some 0.9%Q) None] [])
         = Ok (NeedMoreInfo info, [])
      /\ ir_missing_fields info = ["photo"]
      /\ ir_questions info = ["Can you upload a clear photo of the issue?"])
  /\ (exists res store',
        assist_new stored_order example_clock [] (pothole_request false true)
          (pothole_retrieved [pothole_hit (Some 0.9%Q) None] [])
        = Ok (res, store')
        /\ need_more_info res = false).
Proof.
  destruct slot_filling_gate as [_ [_ [G _]]].
  split.
  - assert (exists g,
              assist_prelude stored_order [] (pothole_request false false)
                (pothole_retrieved [pothole_hit (Some 0.9%Q) None] []) = Ok g
              /\ g_missing g = ["photo"]) as [g [Hg Hm]].
    { eexists. split; vm_compute; reflexivity. }
    destruct (G stored_order example_clock [] _ _ g Hg) as [_ [N _]].
    destruct N as [info [H1 [H2 [H3 _]]]].
    + rewrite Hm. discriminate.
    + reflexivity.
    + exists g, info. rewrite Hm in H2, H3. repeat split; assumption.
  - assert (exists res store',
              assist_new stored_order example_clock [] (pothole_request false true)
                (pothole_retrieved [pothole_hit (Some 0.9%Q) None] [])
              = Ok (res, store')) as [res [store' H]].
    { eexists. eexists. vm_compute. reflexivity. }
    assert (exists g,
              assist_prelude stored_order [] (pothole_request false true)
                (pothole_retrieved [pothole_hit (Some 0.9%Q) None] []) = Ok g)
      as [g Hg].
    { eexists. vm_compute. reflexivity. }
    destruct (G stored_order example_clock [] _ _ g Hg) as [_ [_ S]].
    destruct S as [_ S]; [reflexivity|].
    exists res, store'. split; [exact H | exact (S _ _ H)].
Defined.

(** ** Template rendering (core/response.py) *)

Lemma format_literal_char kw (c : ascii) (r : string) :
  c <> "{"%char -> c <> "}"%char ->
  format_from kw None (String c r)
  = (let* t := format_from kw None r in Ok (String c t)).
Proof.
  intros H1 H2.
  destruct c as [[] [] [] [] [] [] [] []];
    try reflexivity; exfalso; (now apply H1) || (now apply H2).
Qed.

Lemma format_open_brace kw (c : ascii) (r : string) :
  c <> "{"%char ->
  format_from kw None (String "{" (String c r))
  = format_from kw (Some EmptyString) (String c r).
Proof.
  intros H.
  destruct c as [[] [] [] [] [] [] [] []];
    try reflexivity; exfalso; now apply H.
Qed.

Lemma format_field_char kw (name : string) (c : ascii) (r : string) :
  c <> "}"%char ->
  format_from kw (Some name) (String c r)
  = if field_special c then Raise Unsupported
    else format_from kw (Some (name +:+ String c EmptyString)) r.
Proof.
  intros H.
  destruct c as [[] [] [] [] [] [] [] []];
    try reflexivity; exfalso; now apply H.
Qed.

(** Escaped literal text renders as the text. *)
Lemma format_escaped kw (s rest : string) :
  format_from kw None (escape_braces s +:+ rest)
  = (let* t := format_from kw None rest in Ok (s +:+ t)).
Proof.
  induction s as [|c r IH].
  - cbn [escape_braces]. rewrite !append_nil_l.
    destruct (format_from kw None rest); reflexivity.
  - cbn [escape_braces].
    destruct (Ascii.eqb_spec c "{") as [->|H1].
    + cbn [orb]. rewrite !append_cons.
      change (format_from kw None (String "{" (String "{" (escape_braces r +:+ rest))))
        with (let* t := format_from kw None (escape_braces r +:+ rest) in
              Ok (String "{" t)).
      rewrite IH. destruct (format_from kw None rest); reflexivity.
    + destruct (Ascii.eqb_spec c "}") as [->|H2].
      * cbn [orb]. rewrite !append_cons.
        change (format_from kw None (String "}" (String "}" (escape_braces r +:+ rest))))
          with (let* t := format_from kw None (escape_braces r +:+ rest) in
                Ok (String "}" t)).
        rewrite IH. destruct (format_from kw None rest); reflexivity.
      * cbn [orb]. rewrite append_cons, format_literal_char by assumption.
        rewrite IH. destruct (format_from kw None rest); reflexivity.
Qed.

(** Inside a field, the characters of a name are read up to the closing
    brace, where the field is looked up. *)
Lemma format_name kw (n acc rest : string) :
  forallb name_char_ok (list_ascii_of_string n) = true ->
  format_from kw (Some acc) (n +:+ String "}" rest)
  = (let* v := format_field kw (acc +:+ n) in
     let* t := format_from kw None rest in
     Ok (v +:+ t)).
Proof.
  revert acc. induction n as [|c r IH]; intros acc Hn.
  - rewrite append_nil_l.
    replace (acc +:+ EmptyString) with acc; [reflexivity|].
    clear. induction acc as [|a s IHs]; [reflexivity|].
    rewrite append_cons, <- IHs. reflexivity.
  - cbn [list_ascii_of_string forallb] in Hn.
    apply andb_prop in Hn as [Hc Hr].
    unfold name_char_ok in Hc. apply andb_prop in Hc as [Hs Hb].
    rewrite append_cons, format_field_char.
    + apply negb_true_iff in Hs. rewrite Hs.
      rewrite (IH _ Hr), append_assoc. reflexivity.
    + intros ->. discriminate.
Qed.

Lemma plain_name_chars (n : string) :
  plain_name n = true ->
  forallb name_char_ok (list_ascii_of_string n) = true /\ all_digits n = false.
Proof.
  unfold plain_name. intros H. apply andb_prop in H as [H1 H2].
  split; [exact H1 | now apply negb_true_iff].
Qed.

(** A placeholder in a template. *)
Lemma format_placeholder kw (n rest : string) :
  plain_name n = true ->
  format_from kw None (String "{" (n +:+ "}") +:+ rest)
  = (let* v := match kw !! n with
               | Some v => Ok v
               | None => Raise (KeyError n)
               end in
     let* t := format_from kw None rest in
     Ok (v +:+ t)).
Proof.
  intros Hp. destruct (plain_name_chars n Hp) as [Hc Hd].
  rewrite append_cons, append_assoc.
  change ("}" +:+ rest) with (String "}" rest).
  assert (format_from kw None (String "{" (n +:+ String "}" rest))
          = format_from kw (Some EmptyString) (n +:+ String "}" rest)) as ->.
  { destruct n as [|c r].
    - reflexivity.
    - rewrite append_cons. apply format_open_brace.
      cbn [list_ascii_of_string forallb] in Hc.
      apply andb_prop in Hc as [Hc _]. intros ->. discriminate. }
  rewrite (format_name kw n EmptyString rest Hc), append_nil_l.
  unfold format_field. rewrite Hd. reflexivity.
Qed.

Lemma setdefault_fold (ks : list string) (m : gmap string string) (n : string) :
  fold_left setdefault_empty ks m !! n
  = match m !! n with
    | Some v => Some v
    | None => if str_in n ks then Some EmptyString else None
    end.
Proof.
  revert m. induction ks as [|k r IH]; intros m.
  - cbn [fold_left str_in existsb]. destruct (m !! n); reflexivity.
  - cbn [fold_left]. rewrite IH. unfold setdefault_empty, str_in.
    cbn [existsb]. fold (str_in n r).
    destruct (String.eqb_spec n k) as [->|Hk].
    + destruct (m !! k) eqn:E; [rewrite E; reflexivity|].
      rewrite lookup_insert_eq. reflexivity.
    + destruct (m !! k) eqn:E; [reflexivity|].
      rewrite lookup_insert_ne by congruence. reflexivity.
Qed.

Lemma str_in_In (x : string) (l : list string) :
  str_in x l = true <-> In x l.
Proof.
  unfold str_in. rewrite existsb_exists. split.
  - intros [y [Hy E]]. apply String.eqb_eq in E. now subst.
  - intros H. exists x. split; [exact H | apply String.eqb_refl].
Qed.

Lemma safe_fields_known fields (n : string) :
  known_placeholder fields n ->
  safe_fields fields !! n = Some (field_value fields n).
Proof.
  intros Hk. unfold safe_fields, field_value.
  rewrite setdefault_fold, lookup_fmap.
  destruct (fields !! n) as [[v|]|] eqn:E;
    cbn [fmap option_fmap option_map]; try reflexivity.
  destruct Hk as [[x Hx]|Hin]; [congruence|].
  apply str_in_In in Hin. rewrite Hin. reflexivity.
Qed.

Lemma safe_fields_unknown fields (n : string) :
  fields !! n = None -> ~ In n template_keys ->
  safe_fields fields !! n = None.
Proof.
  intros E Hn. unfold safe_fields.
  rewrite setdefault_fold, lookup_fmap, E. cbn [fmap option_fmap option_map].
  destruct (str_in n template_keys) eqn:S; [|reflexivity].
  apply str_in_In in S. contradiction.
Qed.

Lemma format_segments_ok fields (segs : list segment) :
  (forall n, In (Field n) segs ->
             plain_name n = true /\ known_placeholder fields n) ->
  format_from (safe_fields fields) None (template_of segs)
  = Ok (render fields segs).
Proof.
  induction segs as [|g r IH]; intros H; [reflexivity|].
  cbn [template_of foldr render]. fold (template_of r). fold (render fields r).
  assert (format_from (safe_fields fields) None (template_of r)
          = Ok (render fields r)) as IHr.
  { apply IH. intros n Hn. apply H. now right. }
  destruct g as [s|n]; cbn [segment_text].
  - rewrite format_escaped, IHr. reflexivity.
  - destruct (H n (or_introl eq_refl)) as [Hp Hk].
    rewrite (format_placeholder _ n _ Hp), (safe_fields_known _ _ Hk), IHr.
    reflexivity.
Qed.

(** C10, as stated, fails: a template of the knowledge base whose
    placeholder is neither a key of the orchestrator's field mapping nor one
    of the eight defaulted names makes the rendering, and with it
    [assist_new], raise [KeyError]; an unbalanced brace raises
    [ValueError]. *)
Lemma fill_template_raises :
  fill_template "Pothole at {location} in ward {ward}. Photo: {attachments}"
    (complaint_fields (pothole_request true false) "Pothole")
  = Raise (KeyError "ward")
  /\ fill_template "Streetlight {location}: 50% of lamps off {"
       (complaint_fields (pothole_request true false) "Streetlight")
     = Raise ValueError
  /\ assist_new stored_order example_clock [] (pothole_request true false)
       (pothole_retrieved [pothole_hit (Some 0.9%Q) None] [ward_template_hit])
     = Raise (KeyError "ward").
Proof.
  repeat split; vm_compute; reflexivity.
Qed.

(** C10, amended: for a template made of literal text and placeholders
    [{name}] in which every placeholder is a key of the field mapping or one
    of the eight names that [fill_template] defaults, rendering does not
    raise: the output is the template text with each placeholder replaced by
    its value, the empty string when the value is null or the name is absent
    from the mapping. A placeholder outside these names raises [KeyError].
    The built-in template always renders with the orchestrator's fields. *)
Theorem fill_template_known_placeholders :
  (forall (segs : list segment) (fields : gmap string (option string)),
      (forall n, In (Field n) segs ->
                 plain_name n = true /\ known_placeholder fields n) ->
      fill_template (template_of segs) fields = Ok (render fields segs))
  /\ (forall (segs rest : list segment) (n : string)
             (fields : gmap string (option string)),
        (forall m, In (Field m) segs ->
                   plain_name m = true /\ known_placeholder fields m) ->
        plain_name n = true -> fields !! n = None -> ~ In n template_keys ->
        fill_template (template_of (segs ++ Field n :: rest)) fields
        = Raise (KeyError n))
  /\ (forall (rq : request) (category : string),
        fill_template default_template (complaint_fields rq category)
        = Ok (render (complaint_fields rq category) default_segments)).
Proof.
  split; [exact (fun segs fields H => format_segments_ok fields segs H)|].
  split.
  - intros segs rest n fields Hs Hp En Hn.
    unfold fill_template, str_format. fold (safe_fields fields).
    induction segs as [|g r IH].
    + cbn [app template_of foldr segment_text]. fold (template_of rest).
      rewrite (format_placeholder _ n _ Hp), (safe_fields_unknown _ _ En Hn).
      reflexivity.
    + cbn [app template_of foldr]. fold (template_of (r ++ Field n :: rest)%list).
      assert (format_from (safe_fields fields) None
                (template_of (r ++ Field n :: rest)%list)
              = Raise (KeyError n)) as IHr.
      { apply IH. intros m Hm. apply Hs. now right. }
      destruct g as [s|m]; cbn [segment_text].
      * rewrite format_escaped, IHr. reflexivity.
      * destruct (Hs m (or_introl eq_refl)) as [Hpm Hkm].
        rewrite (format_placeholder _ m _ Hpm), (safe_fields_known _ _ Hkm), IHr.
        reflexivity.
  - intros rq category.
    change default_template with (template_of default_segments).
    apply (format_segments_ok (complaint_fields rq category) default_segments).
    intros n Hn. split.
    + cbn in Hn. repeat (destruct Hn as [Hn|Hn]; [try discriminate Hn; injection Hn as <-; reflexivity|]).
      contradiction.
    + right. cbn in Hn.
      repeat (destruct Hn as [Hn|Hn]; [try discriminate Hn; injection Hn as <-; cbn; tauto|]).
      contradiction.
Qed.

Lemma fill_template_known_placeholders_witness :
  fill_template
    (template_of [Lit "Pole no: "; Field "pole_number_optional"; Lit " at "; Field "location"])
    (<["location" := Some "Ward 7"]> ∅)
  = Ok "Pole no:  at Ward 7"
  /\ fill_template (template_of ([Lit "In "] ++ Field "ward" :: []))
       (<["location" := Some "Ward 7"]> ∅)
     = Raise (KeyError "ward").
Proof.
  destruct fill_template_known_placeholders as [A [B _]].
  split.
  - rewrite A; [reflexivity|].
    intros n Hn. cbn in Hn.
    destruct Hn as [Hn|[Hn|[Hn|[Hn|[]]]]]; try discriminate Hn;
      injection Hn as <-; (split; [reflexivity|]).
    + right. cbn. tauto.
    + left. now exists (Some "Ward 7").
  - apply B.
    + intros m Hm. cbn in Hm. destruct Hm as [Hm|[]]. discriminate Hm.
    + reflexivity.
    + reflexivity.
    + cbn. intros H. repeat (destruct H as [H|H]; [discriminate H|]). exact H.
Defined.

(** ** The sparse index cache (core/hybrid.py) *)

Lemma firstn_same {A : Type} (l : list A) (a c : nat) :
  a = c \/ (length l <= a /\ length l <= c)%nat -> firstn a l = firstn c l.
Proof.
  intros [->|[Ha Hc]]; [reflexivity|].
  rewrite !firstn_all2 by assumption. reflexivity.
Qed.

(** The scroll loop ends and has fetched the first [max(1, limit)] points
    of the filter. [start] is the number of points fetched so far. *)
Lemma scroll_loop_result (b : backend) (collection : string) (flt : filter_json)
    (limit : Z) :
  forall (fuel start : nat) (offset : option nat),
    (offset = None /\ start = 0%nat)
    \/ (offset = Some start
        /\ (start < length (stored b collection flt))%nat
        /\ (Z.of_nat start < limit)%Z) ->
    (Z.to_nat (limit - Z.of_nat start) < fuel)%nat ->
    scroll_loop fuel b collection flt limit
      (map doc_of_point (firstn start (stored b collection flt)))
      offset (Z.of_nat start)
    = Some (built_docs b collection flt limit).
Proof.
  unfold built_docs.
  induction fuel as [|fuel IH]; intros start offset Hst Hfuel; [lia|].
  cbn [scroll_loop]. unfold client_scroll.
  set (all := stored b collection flt) in *.
  assert (match offset with Some o => o | None => 0%nat end = start) as ->.
  { destruct Hst as [[-> ->]|[-> _]]; reflexivity. }
  set (n := Z.to_nat (Z.min 256 (Z.max 1 (limit - Z.of_nat start)))).
  assert (1 <= n)%nat as Hn by (subst n; lia).
  assert (Z.of_nat (start + n) <= Z.max 1 limit)%Z as HnT.
  { subst n. destruct Hst as [[_ ->]|[_ [_ Hlt]]]; lia. }
  set (page := firstn n (skipn start all)).
  assert (length page = Nat.min n (length all - start)) as Hlen.
  { subst page. rewrite length_firstn, length_skipn. reflexivity. }
  rewrite <- map_app. subst page. rewrite take_take_drop.
  set (page := firstn n (skipn start all)) in *.
  destruct (_ || _ || _) eqn:Hcond.
  - f_equal. f_equal. apply firstn_same.
    apply orb_prop in Hcond as [Hcond|Hcond];
      [apply orb_prop in Hcond as [Hcond|Hcond]|].
    + destruct page eqn:E; [|discriminate]. cbn in Hlen.
      destruct Hst as [[_ ->]|[_ [Hlt _]]]; lia.
    + apply Z.leb_le in Hcond. lia.
    + destruct (start + n <? length all)%nat eqn:E; [discriminate|].
      apply Nat.ltb_ge in E. lia.
  - apply orb_false_elim in Hcond as [Hcond Hoff].
    apply orb_false_elim in Hcond as [Hpage Hlim].
    apply Z.leb_gt in Hlim.
    destruct (start + n <? length all)%nat eqn:E; [|discriminate].
    apply Nat.ltb_lt in E.
    assert (length page = n) as Hpn by lia.
    rewrite Hpn in *.
    replace (Z.of_nat start + Z.of_nat n)%Z with (Z.of_nat (start + n)) in * by lia.
    apply IH; [right; repeat split; lia | lia].
Qed.

Lemma forallb_map_comp {A B : Type} (f : B -> bool) (g : A -> B) (l : list A) :
  forallb f (map g l) = forallb (fun x => f (g x)) l.
Proof.
  induction l as [|x l IH]; [reflexivity|]. cbn. rewrite IH. reflexivity.
Qed.

(** A build raises exactly when the documents are token-less, and leaves
    the index over the documents otherwise. *)
Lemma build_index_cases (docs : list hit) :
  BM25Index_build docs
  = if tokenless docs then Raise ZeroDivisionError else Ok (index_of docs).
Proof.
  unfold BM25Index_build, tokenless, index_of, BM25Okapi.
  destruct docs as [|d r]; [reflexivity|].
  rewrite forallb_map_comp.
  destruct (forallb _ (d :: r)); reflexivity.
Qed.

Lemma build_result (b : backend) (clock : Q) (collection : string)
    (flt : filter_json) (c : cache) :
  reachable b = true ->
  build_bm25_from_qdrant b clock collection flt 5000 c
  = if tokenless (built_docs b collection flt 5000)
    then (Raise ZeroDivisionError, c)
    else (Ok tt, <[_key collection flt := built_entry b clock collection flt]> c).
Proof.
  intros Hr. unfold build_bm25_from_qdrant. rewrite Hr.
  rewrite (scroll_loop_result b collection flt 5000 _ 0%nat None);
    [|left; split; reflexivity|lia].
  rewrite build_index_cases.
  destruct (tokenless (built_docs b collection flt 5000)); reflexivity.
Qed.

(** A lookup that builds: the error of the build with the cache as it
    was, or the new index with the entry of the key replaced. *)
Lemma lookup_after_build (b : backend) (clock : Q) (collection : string)
    (flt : filter_json) (c : cache) :
  reachable b = true ->
  match build_bm25_from_qdrant b clock collection flt 5000 c with
  | (Ok _, c') => (Ok (entry_idx <$> c' !! _key collection flt), c')
  | (Raise e, c') => (Raise e, c')
  end
  = if tokenless (built_docs b collection flt 5000)
    then (Raise ZeroDivisionError, c)
    else (Ok (Some (entry_idx (built_entry b clock collection flt))),
          <[_key collection flt := built_entry b clock collection flt]> c).
Proof.
  intros Hr. rewrite (build_result _ _ _ _ _ Hr).
  destruct (tokenless (built_docs b collection flt 5000)); [reflexivity|].
  rewrite lookup_insert_eq. reflexivity.
Qed.

Lemma build_unreachable (b : backend) (clock : Q) (collection : string)
    (flt : filter_json) (limit : Z) (c : cache) :
  reachable b = false ->
  build_bm25_from_qdrant b clock collection flt limit c = (Raise ConnectionError, c).
Proof.
  intros Hr. unfold build_bm25_from_qdrant. rewrite Hr. reflexivity.
Qed.

Lemma tenth_div (q : Z) : 0 < q -> tenth q = q / 10.
Proof.
  intros Hq. unfold tenth. cbn [Qmult Qnum Qden inject_Z].
  rewrite Z.mul_1_l. change (Z.pos (10 * 1)) with 10.
  apply Z.quot_div_nonneg; lia.
Qed.

Lemma count_reachable (b : backend) (collection : string) (flt : filter_json)
    (qcount : Z) :
  _count b collection flt = Ok qcount -> reachable b = true.
Proof.
  unfold _count. destruct (reachable b); [reflexivity | discriminate].
Qed.

(** C3, as stated, fails in both directions. With five documents cached and
    a live count of zero the drift, 5, reaches max(3, round(0)) = 3, yet
    the cached snapshot is used and the cache is unchanged (the code asks
    for a positive live count). With 32 documents cached and a live count of
    35 the drift, 3, is below max(3, round(3.5)) = 4, yet the index is
    rebuilt (the code truncates 3.5 to 3). *)
Lemma staleness_test_differs :
  (drift_rebuild_spec 0 5 = true
   /\ _get_or_build (example_backend 0 0) 1 "civic_kb" None (example_cache 5)
      = (Ok (Some (entry_idx (example_entry 5))), example_cache 5)
   /\ length (idx_docs (entry_idx (example_entry 5))) = 5%nat)
  /\ (drift_rebuild_spec 35 32 = false
      /\ entry_count
           <$> snd (_get_or_build (example_backend 35 35) 1 "civic_kb" None
                      (example_cache 32)) !! _key "civic_kb" None
         = Some 35
      /\ entry_count <$> example_cache 32 !! _key "civic_kb" None = Some 32).
Proof.
  repeat split; vm_compute; reflexivity.
Qed.

(** C3, amended: on a lookup for a key that has a cached entry the live
    count is fetched (a failure to fetch it is raised), and the index is
    rebuilt before answering if and only if the live count is positive and
    the absolute difference between the live count and the cached count is
    at least max(3, floor(0.1 * live_count)); otherwise the cached snapshot
    is returned and the cache is unchanged. A rebuild fetches at most 5000
    documents; it replaces the entry of the key and the lookup answers
    with the new index, unless no fetched document has a token: the
    rebuild then raises ZeroDivisionError, and so does the lookup, with
    the cache as it was. *)
Theorem get_or_build_staleness :
  forall (b : backend) (clock : Q) (collection : string) (flt : filter_json)
         (c : cache) (current : cache_entry),
    c !! _key collection flt = Some current ->
    (forall qcount,
        _count b collection flt = Ok qcount ->
        (0 < qcount
         /\ Z.max 3 (qcount / 10) <= Z.abs (qcount - entry_count current) ->
         (tokenless (built_docs b collection flt 5000) = false ->
          _get_or_build b clock collection flt c
          = (Ok (Some (entry_idx (built_entry b clock collection flt))),
             <[_key collection flt := built_entry b clock collection flt]> c))
         /\ (tokenless (built_docs b collection flt 5000) = true ->
             _get_or_build b clock collection flt c
             = (Raise ZeroDivisionError, c)))
        /\ (~ (0 < qcount
               /\ Z.max 3 (qcount / 10) <= Z.abs (qcount - entry_count current)) ->
            _get_or_build b clock collection flt c
            = (Ok (Some (entry_idx current)), c)))
    /\ (forall e,
          _count b collection flt = Raise e ->
          _get_or_build b clock collection flt c = (Raise e, c))
    /\ (forall docs : list hit,
          BM25Index_build docs
          = if tokenless docs then Raise ZeroDivisionError
            else Ok (index_of docs)).
Proof.
  intros b clock collection flt c current Hc. split; [|split].
  - intros qcount Hq. pose proof (count_reachable _ _ _ _ Hq) as Hr.
    split.
    + intros [Hpos Hdrift].
      assert (E : _get_or_build b clock collection flt c
                  = if tokenless (built_docs b collection flt 5000)
                    then (Raise ZeroDivisionError, c)
                    else (Ok (Some (entry_idx (built_entry b clock collection flt))),
                          <[_key collection flt
                            := built_entry b clock collection flt]> c)).
      { unfold _get_or_build. rewrite Hc, Hq.
        rewrite (tenth_div _ Hpos).
        assert ((0 <? qcount)%Z = true) as -> by (apply Z.ltb_lt; exact Hpos).
        assert ((Z.max 3 (qcount / 10) <=? Z.abs (qcount - entry_count current))%Z
                = true) as -> by (apply Z.leb_le; exact Hdrift).
        cbn [andb]. apply (lookup_after_build _ _ _ _ _ Hr). }
      split; intros Ht; rewrite E, Ht; reflexivity.
    + intros Hno. unfold _get_or_build. rewrite Hc, Hq.
      destruct (0 <? qcount)%Z eqn:Hpos; [|reflexivity].
      apply Z.ltb_lt in Hpos. rewrite (tenth_div _ Hpos). cbn [andb].
      destruct (Z.max 3 (qcount / 10) <=? Z.abs (qcount - entry_count current))%Z eqn:Hd;
        [|reflexivity].
      apply Z.leb_le in Hd. exfalso. apply Hno. split; assumption.
  - intros e He. unfold _get_or_build. rewrite Hc, He. reflexivity.
  - exact build_index_cases.
Qed.

Lemma get_or_build_staleness_witness :
  snd (_get_or_build (example_backend 8 8) 1 "civic_kb" None (example_cache 5))
  = <[_key "civic_kb" None := built_entry (example_backend 8 8) 1 "civic_kb" None]>
      (example_cache 5)
  /\ _get_or_build (example_backend 7 7) 1 "civic_kb" None (example_cache 5)
     = (Ok (Some (entry_idx (example_entry 5))), example_cache 5)
  /\ _get_or_build (unreachable_backend 7) 1 "civic_kb" None (example_cache 5)
     = (Raise ConnectionError, example_cache 5)
  /\ _get_or_build (blank_backend 8 8) 1 "civic_kb" None (example_cache 5)
     = (Raise ZeroDivisionError, example_cache 5).
Proof.
  assert (example_cache 5 !! _key "civic_kb" None = Some (example_entry 5)) as Hc
    by (apply lookup_insert_eq).
  split; [|split; [|split]].
  - destruct (get_or_build_staleness (example_backend 8 8) 1 "civic_kb" None
                (example_cache 5) (example_entry 5) Hc) as [H _].
    destruct (H 8 eq_refl) as [R _].
    destruct R as [R _]; [split; [lia | vm_compute; discriminate]|].
    rewrite R; reflexivity.
  - destruct (get_or_build_staleness (example_backend 7 7) 1 "civic_kb" None
                (example_cache 5) (example_entry 5) Hc) as [H _].
    destruct (H 7 eq_refl) as [_ K]. apply K.
    intros [_ D]. vm_compute in D. apply D. reflexivity.
  - destruct (get_or_build_staleness (unreachable_backend 7) 1 "civic_kb" None
                (example_cache 5) (example_entry 5) Hc) as [_ [H _]].
    apply H. reflexivity.
  - destruct (get_or_build_staleness (blank_backend 8 8) 1 "civic_kb" None
                (example_cache 5) (example_entry 5) Hc) as [H _].
    destruct (H 8 eq_refl) as [R _].
    destruct R as [_ R]; [split; [lia | vm_compute; discriminate]|].
    apply R. reflexivity.
Defined.

(** ** Hybrid search (core/hybrid.py) *)

(** A lookup that returns has an index to give. *)
Lemma get_or_build_some (b : backend) (clock : Q) (collection : string)
    (flt : filter_json) (c : cache) :
  fst (_get_or_build b clock collection flt c) <> Ok None.
Proof.
  unfold _get_or_build.
  destruct (c !! _key collection flt) as [current|] eqn:Hc.
  - destruct (_count b collection flt) as [qcount|e] eqn:Hq; [|discriminate].
    destruct (_ && _); [|discriminate].
    rewrite (lookup_after_build _ _ _ _ _ (count_reachable _ _ _ _ Hq)).
    destruct (tokenless _); discriminate.
  - destruct (reachable b) eqn:Hr.
    + rewrite (lookup_after_build _ _ _ _ _ Hr).
      destruct (tokenless _); discriminate.
    + rewrite (build_unreachable _ _ _ _ _ _ Hr). discriminate.
Qed.

Lemma search_empty_index get_scores (query : string) (topk : Z) :
  BM25Index_search get_scores (index_of []) query topk = Ok [].
Proof. reflexivity. Qed.

(** C8, as stated, fails for the unreachable collection: the lookup of the
    sparse index raises the connection error, on a first lookup and with a
    cached index alike, and so does the hybrid search; nothing is turned
    into an empty sequence or into the dense list. *)
Lemma unreachable_backend_raises :
  _get_or_build (unreachable_backend 3) 1 "civic_kb" None ∅
  = (Raise ConnectionError, ∅)
  /\ _get_or_build (unreachable_backend 3) 1 "civic_kb" None (example_cache 3)
     = (Raise ConnectionError, example_cache 3)
  /\ HybridRetriever_search unit_scores (unreachable_backend 3) 1
       "civic_kb" "streetlight" None 8 (example_cache 3)
     = (Raise ConnectionError, example_cache 3).
Proof.
  repeat split; vm_compute; reflexivity.
Qed.

(** C8, amended: the hybrid search returns the dense list unmodified in the
    branch where the lookup gives no index, and a lookup that returns always
    gives one; when the backing collection is reachable and empty, the first
    lookup builds an empty index, the sparse search on it returns the empty
    sequence and the hybrid search returns the fusion of the dense list with
    the empty list; when the collection is unreachable, the lookup and the
    hybrid search raise the connection error to the caller and leave the
    cache as it was. *)
Theorem hybrid_search_degradation :
  (forall get_scores (dense_hits : list hit) (query : string) (topk : Z),
      search_combine get_scores dense_hits None query topk = Ok dense_hits)
  /\ (forall (b : backend) (clock : Q) (collection : string)
             (flt : filter_json) (c : cache),
        fst (_get_or_build b clock collection flt c) <> Ok None)
  /\ (forall get_scores (b : backend) (clock : Q) (collection query : string)
             (flt : filter_json) (topk : Z) (c : cache),
        reachable b = true ->
        stored b collection flt = [] ->
        c !! _key collection flt = None ->
        exists idx,
          fst (_get_or_build b clock collection flt c) = Ok (Some idx)
          /\ BM25Index_search get_scores idx query topk = Ok []
          /\ fst (HybridRetriever_search get_scores b clock collection query flt topk c)
             = rrf_fuse [dense b collection query flt topk; []] 60 topk)
  /\ (forall get_scores (b : backend) (clock : Q) (collection query : string)
             (flt : filter_json) (topk : Z) (c : cache),
        reachable b = false ->
        _get_or_build b clock collection flt c = (Raise ConnectionError, c)
        /\ HybridRetriever_search get_scores b clock collection query flt topk c
           = (Raise ConnectionError, c)).
Proof.
  split; [reflexivity|].
  split; [exact get_or_build_some|].
  split.
  - intros get_scores b clock collection query flt topk c Hr Hs Hc.
    exists (index_of []).
    assert (_get_or_build b clock collection flt c
            = (Ok (Some (index_of [])),
               <[_key collection flt := built_entry b clock collection flt]> c)) as E.
    { unfold _get_or_build. rewrite Hc, (lookup_after_build _ _ _ _ _ Hr).
      unfold built_entry, built_docs.
      rewrite Hs, firstn_nil. reflexivity. }
    split; [rewrite E; reflexivity|].
    split; [reflexivity|].
    unfold HybridRetriever_search, qdrant_dense_search. rewrite Hr, E.
    reflexivity.
  - intros get_scores b clock collection query flt topk c Hr. split.
    + unfold _get_or_build, _count. rewrite Hr.
      destruct (c !! _key collection flt); [reflexivity|].
      rewrite (build_unreachable _ _ _ _ _ _ Hr). reflexivity.
    + unfold HybridRetriever_search, qdrant_dense_search. rewrite Hr.
      reflexivity.
Qed.

Lemma hybrid_search_degradation_witness :
  (exists idx,
      fst (_get_or_build (example_backend 0 0) 1 "civic_kb" None ∅) = Ok (Some idx)
      /\ BM25Index_search unit_scores idx "streetlight" 8 = Ok [])
  /\ HybridRetriever_search unit_scores (unreachable_backend 3) 1
       "civic_kb" "streetlight" None 8 ∅
     = (Raise ConnectionError, ∅).
Proof.
  destruct hybrid_search_degradation as [_ [_ [E U]]].
  split.
  - destruct (E unit_scores (example_backend 0 0) 1%Q "civic_kb" "streetlight"
                None 8 ∅ eq_refl eq_refl (lookup_empty _)) as [idx [H1 [H2 _]]].
    exists idx. split; assumption.
  - destruct (U unit_scores (unreachable_backend 3) 1%Q "civic_kb" "streetlight"
                None 8 ∅ eq_refl) as [_ H].
    exact H.
Defined.

(** ** Memory decay (core/memory.py) *)

Lemma store_delete_nil (store : memory_store) : store_delete [] store = store.
Proof.
  unfold store_delete. induction store as [|q r IH]; simpl; [reflexivity|].
  f_equal. exact IH.
Qed.

Lemma decay_scan_result fromisoformat (now : Z) (points : list point) :
  forall acc,
    scan_in_range fromisoformat now points = true ->
    decay_scan fromisoformat now points acc
    = Ok (acc ++ map pt_id (List.filter (expired fromisoformat now) points))%list.
Proof.
  induction points as [|p r IH]; intros acc Hr.
  - cbn [decay_scan List.filter map]. rewrite app_nil_r. reflexivity.
  - cbn [scan_in_range forallb] in Hr. apply andb_prop in Hr as [Hp Hr].
    cbn [decay_scan List.filter]. unfold expired at 1.
    destruct (point_last_updated fromisoformat p) as [ts|]; [|apply IH; exact Hr].
    unfold date_in_range in Hp.
    apply andb_prop in Hp as [Hp H3]. apply andb_prop in Hp as [H1 H2].
    unfold timedelta_days. rewrite H1. cbn [bind].
    unfold datetime_sub. rewrite H2, H3. cbn [andb bind].
    assert ((ts <? now - point_ttl p * us_per_day)%Z
            = (point_ttl p * us_per_day <? now - ts)%Z) as ->.
    { destruct (Z.ltb_spec ts (now - point_ttl p * us_per_day));
        destruct (Z.ltb_spec (point_ttl p * us_per_day) (now - ts));
        try reflexivity; lia. }
    destruct (point_ttl p * us_per_day <? now - ts)%Z.
    + rewrite (IH _ Hr). cbn [map]. rewrite <- app_assoc. reflexivity.
    + apply IH. exact Hr.
Qed.

(** C5, as stated, fails for the stored records that the scan does not
    reach: the scan reads one page of at most 1000 records. Of 1001 records
    that are all 200 days old with a ttl of 180 days, 1000 are deleted and
    the last one, as expired as the others, is retained. *)
Lemma decay_cleanup_first_page_only :
  memory_decay_cleanup fromisoformat_basic 0 crowded_store None (Some july_20_2026)
  = Ok (1000, [memory_record (VStr "180") start_of_2026 1001])
  /\ In (memory_record (VStr "180") start_of_2026 1001) crowded_store
  /\ expired fromisoformat_basic july_20_2026
       (memory_record (VStr "180") start_of_2026 1001) = true.
Proof.
  split; [vm_compute; reflexivity|].
  split; [|vm_compute; reflexivity].
  unfold crowded_store. apply in_map. apply in_seq. lia.
Qed.

(** A [ttl_days] that parses but leaves the range of dates makes the whole
    cleanup raise. *)
Lemma decay_cleanup_overflow :
  memory_decay_cleanup fromisoformat_basic 0
    [memory_record (VStr "1000000") start_of_2026 1;
     memory_record (VStr "180") start_of_2026 2]
    None (Some july_20_2026)
  = Raise OverflowError.
Proof. vm_compute. reflexivity. Qed.

(** C5, amended: for the records of the scanned page (the first 1000 records
    in scroll order, of the given user when one is given), and as long as
    the date arithmetic stays in range for them, [decay_cleanup] deletes a
    record if and only if its age [now - last_updated] exceeds [ttl_days];
    a record whose [last_updated] is missing or unparseable is skipped and
    one whose [ttl_days] fails to parse is treated as having 180 days. A
    record aged 200 days is deleted when its [ttl_days] is 180 and retained
    when it is 365. *)
Theorem decay_cleanup_scanned_page :
  forall fromisoformat (clock_now : Z) (store : memory_store)
         (user_id : option string) (now_arg : option Z),
    let now := match now_arg with Some t => t | None => clock_now end in
    let points := scanned store user_id in
    let doomed := List.filter (expired fromisoformat now) points in
    (scan_in_range fromisoformat now points = true ->
     memory_decay_cleanup fromisoformat clock_now store user_id now_arg
     = Ok (Z.of_nat (length doomed), store_delete (map pt_id doomed) store)
     /\ forall q,
          In q (store_delete (map pt_id doomed) store)
          <-> In q store
              /\ ~ exists p, In p points /\ pt_id p = pt_id q
                             /\ expired fromisoformat now p = true)
    /\ (forall p,
          truthy (dict_get (pt_payload p) "last_updated") = false
          \/ (forall s, dict_get (pt_payload p) "last_updated" = VStr s ->
                        fromisoformat s = None) ->
          expired fromisoformat now p = false)
    /\ (forall p e,
          py_int (dict_get_default (pt_payload p) "ttl_days" (VStr "180")) = Raise e ->
          point_ttl p = 180)
    /\ (forall p ts,
          point_last_updated fromisoformat p = Some ts ->
          now - ts = 200 * us_per_day ->
          (pt_payload p !! "ttl_days" = Some (VStr "180") ->
           expired fromisoformat now p = true)
          /\ (pt_payload p !! "ttl_days" = Some (VStr "365") ->
              expired fromisoformat now p = false)).
Proof.
  intros fromisoformat clock_now store user_id now_arg now points doomed.
  split.
  { intros Hr. split.
    - unfold memory_decay_cleanup. fold now. fold points.
      rewrite (decay_scan_result _ _ _ _ Hr). cbn [bind app]. fold doomed.
      rewrite length_map. f_equal. f_equal.
      destruct (map pt_id doomed) eqn:E; [|reflexivity].
      symmetry. apply store_delete_nil.
    - intros q. unfold store_delete. rewrite filter_In, negb_true_iff.
      split; intros [Hq Hn]; (split; [exact Hq|]).
      + intros [p [Hp [Hid He]]].
        assert (existsb (Z.eqb (pt_id q)) (map pt_id doomed) = true) as C.
        { apply existsb_exists. exists (pt_id p). split.
          - apply in_map. apply filter_In. split; assumption.
          - apply Z.eqb_eq. now symmetry. }
        congruence.
      + destruct (existsb _ _) eqn:C; [|reflexivity].
        exfalso. apply Hn. apply existsb_exists in C as [i [Hi Hq']].
        apply in_map_iff in Hi as [p [<- Hp]]. apply filter_In in Hp as [Hp He].
        apply Z.eqb_eq in Hq'. exists p. repeat split; auto. }
  split.
  { intros p H. unfold expired, point_last_updated.
    destruct H as [H|H]; [rewrite H; reflexivity|].
    destruct (negb _); [reflexivity|].
    destruct (dict_get (pt_payload p) "last_updated") as [| | | |s|];
      try reflexivity.
    rewrite (H s eq_refl). reflexivity. }
  split.
  { intros p e H. unfold point_ttl. rewrite H. reflexivity. }
  intros p ts Hts Hage. unfold expired. rewrite Hts, Hage. unfold point_ttl, dict_get_default.
  split; intros ->; vm_compute; reflexivity.
Qed.

Lemma decay_cleanup_scanned_page_witness :
  memory_decay_cleanup fromisoformat_basic 0 small_store (Some "u1")
    (Some july_20_2026)
  = Ok (2, [memory_record (VStr "365") start_of_2026 2;
            memory_record (VStr "180") (VStr "last week") 4;
            memory_record (VStr "180") VNone 5])
  /\ expired fromisoformat_basic july_20_2026
       (memory_record (VStr "soon") start_of_2026 3) = true
  /\ point_ttl (memory_record (VStr "soon") start_of_2026 3) = 180.
Proof.
  destruct (decay_cleanup_scanned_page fromisoformat_basic 0 small_store
              (Some "u1") (Some july_20_2026)) as [A [_ [T P]]].
  split; [|split].
  - destruct A as [A _]; [vm_compute; reflexivity|].
    rewrite A. vm_compute. reflexivity.
  - vm_compute. reflexivity.
  - apply (T _ ValueError). vm_compute. reflexivity.
Defined.

(** ** Preference reinforcement (core/memory.py) *)

Lemma find_none_all {A : Type} (f : A -> bool) (l : list A) :
  (forall x, In x l -> f x = false) -> List.find f l = None.
Proof.
  induction l as [|a r IH]; intros H; [reflexivity|].
  cbn [List.find]. rewrite (H a (or_introl eq_refl)).
  apply IH. intros x Hx. apply H. now right.
Qed.

Lemma find_some_exists {A : Type} (f : A -> bool) (l : list A) :
  (exists x, In x l /\ f x = true) -> exists y, List.find f l = Some y.
Proof.
  induction l as [|a r IH]; intros [x [Hx Hf]]; [destruct Hx|].
  cbn [List.find]. destruct (f a) eqn:E; [now exists a|].
  apply IH. destruct Hx as [->|Hx]; [congruence|]. now exists x.
Qed.

Lemma has_id_In (i : pointid) (store : memory_store) :
  has_id i store = true <-> In i (map pt_id store).
Proof.
  unfold has_id. rewrite existsb_exists, in_map_iff. split.
  - intros [q [Hq E]]. apply Z.eqb_eq in E. now exists q.
  - intros [q [E Hq]]. exists q. split; [exact Hq | now apply Z.eqb_eq].
Qed.

Lemma replace_absent (p : point) (store : memory_store) :
  ~ In (pt_id p) (map pt_id store) ->
  map (fun q => if (pt_id q =? pt_id p)%Z then p else q) store = store.
Proof.
  induction store as [|q r IH]; intros H; [reflexivity|].
  cbn [map] in *. destruct (Z.eqb_spec (pt_id q) (pt_id p)) as [E|E].
  - exfalso. apply H. now left.
  - f_equal. apply IH. intros C. apply H. now right.
Qed.

Lemma replace_ids (p : point) (store : memory_store) :
  map pt_id (map (fun q => if (pt_id q =? pt_id p)%Z then p else q) store)
  = map pt_id store.
Proof.
  induction store as [|q r IH]; [reflexivity|].
  cbn [map]. rewrite IH. f_equal.
  destruct (Z.eqb_spec (pt_id q) (pt_id p)) as [E|E]; [now symmetry | reflexivity].
Qed.

Lemma store_insert_perm (p : point) (store : memory_store) :
  Permutation (store_insert p store) (p :: store).
Proof.
  induction store as [|q r IH]; [reflexivity|].
  cbn [store_insert]. destruct (pt_id p <? pt_id q)%Z; [reflexivity|].
  rewrite IH. apply perm_swap.
Qed.

Lemma filter_store_insert (f : point -> bool) (p : point) (store : memory_store) :
  f p = true -> (forall q, In q store -> f q = false) ->
  List.filter f (store_insert p store) = [p].
Proof.
  intros Hp. induction store as [|q r IH]; intros H.
  - cbn. rewrite Hp. reflexivity.
  - assert (f q = false) as Hq by (apply H; now left).
    assert (List.filter f r = []) as Hr.
    { clear IH. induction r as [|x r IHr]; [reflexivity|].
      cbn. rewrite (H x) by (right; now left). apply IHr.
      intros y [<-|Hy]; apply H; [now left | right; now right]. }
    cbn [store_insert]. destruct (pt_id p <? pt_id q)%Z.
    + cbn [List.filter]. rewrite Hp, Hq, Hr. reflexivity.
    + cbn [List.filter]. rewrite Hq. apply IH.
      intros x Hx. apply H. now right.
Qed.

Lemma upsert_nodup (p : point) (store : memory_store) :
  List.NoDup (map pt_id store) -> List.NoDup (map pt_id (store_upsert p store)).
Proof.
  intros H. unfold store_upsert.
  destruct (has_id (pt_id p) store) eqn:E.
  - rewrite replace_ids. exact H.
  - eapply Permutation_NoDup.
    + symmetry. apply Permutation_map. apply store_insert_perm.
    + cbn [map]. constructor; [|exact H].
      intros C. apply has_id_In in C. congruence.
Qed.

Lemma filter_all_false {A : Type} (f : A -> bool) (l : list A) :
  (forall x, In x l -> f x = false) -> List.filter f l = [].
Proof.
  induction l as [|a r IH]; intros H; [reflexivity|].
  cbn [List.filter]. rewrite (H a (or_introl eq_refl)).
  apply IH. intros x Hx. apply H. now right.
Qed.

(** The records that satisfy [f] after an upsert, when none did before. *)
Lemma filter_upsert_new (f : point -> bool) (p : point) (store : memory_store) :
  List.NoDup (map pt_id store) ->
  f p = true -> (forall q, In q store -> f q = false) ->
  List.filter f (store_upsert p store) = [p].
Proof.
  intros Hnd Hp H. unfold store_upsert.
  destruct (has_id (pt_id p) store) eqn:E;
    [|apply filter_store_insert; assumption].
  apply has_id_In in E.
  induction store as [|q r IH]; [destruct E|].
  cbn [map] in *. apply List.NoDup_cons_iff in Hnd as [Hq Hnd].
  destruct (Z.eqb_spec (pt_id q) (pt_id p)) as [Eq|Eq].
  - cbn [List.filter]. rewrite Hp. f_equal.
    rewrite replace_absent by (rewrite <- Eq; exact Hq).
    apply filter_all_false. intros x Hx. apply H. now right.
  - cbn [List.filter]. rewrite (H q (or_introl eq_refl)).
    apply IH; [exact Hnd | intros x Hx; apply H; now right |].
    destruct E as [E|E]; [contradiction | exact E].
Qed.

(** The records that satisfy [f] after an upsert over the only one that
    did. *)
Lemma filter_upsert_same (f : point -> bool) (p q0 : point) (store : memory_store) :
  List.NoDup (map pt_id store) ->
  f p = true -> List.filter f store = [q0] -> pt_id q0 = pt_id p ->
  List.filter f (store_upsert p store) = [p].
Proof.
  intros Hnd Hp Hf Hid.
  assert (In q0 store /\ f q0 = true) as [Hin Hq0].
  { apply filter_In. rewrite Hf. now left. }
  unfold store_upsert.
  assert (has_id (pt_id p) store = true) as ->.
  { apply has_id_In. rewrite <- Hid. now apply in_map. }
  clear Hin. induction store as [|x r IH]; [discriminate Hf|].
  cbn [map] in *. apply List.NoDup_cons_iff in Hnd as [Hx Hnd].
  destruct (Z.eqb_spec (pt_id x) (pt_id p)) as [Ex|Ex].
  - rewrite replace_absent by (rewrite <- Ex; exact Hx).
    cbn [List.filter] in *. rewrite Hp. f_equal.
    destruct (f x) eqn:Fx.
    + injection Hf as _ Hf. exact Hf.
    + exfalso. apply Hx. rewrite Ex, <- Hid. apply in_map.
      assert (In q0 (List.filter f r)) as C by (rewrite Hf; now left).
      apply filter_In in C. tauto.
  - cbn [List.filter] in *. destruct (f x) eqn:Fx.
    + exfalso. injection Hf as -> _. apply Ex. exact Hid.
    + apply IH; assumption.
Qed.

Lemma in_firstn {A : Type} (n : nat) (l : list A) (x : A) :
  In x (firstn n l) -> In x l.
Proof.
  revert l. induction n as [|n IH]; intros l H; [destruct H|].
  destruct l as [|a r]; [destruct H|].
  destruct H as [->|H]; [now left | right; now apply IH].
Qed.

Lemma memory_get_subset rank (store : memory_store) (user : string) (limit : Z)
    (x : point) :
  (forall l, Permutation (rank l) l) ->
  In x (memory_get rank store user limit) ->
  In x store /\ memory_filter user x = true.
Proof.
  intros Hperm H. unfold memory_get in H. apply in_firstn in H.
  apply (Permutation_in _ (Hperm _)) in H. now apply filter_In in H.
Qed.

Lemma memory_get_single rank (store : memory_store) (user : string) (p : point) :
  (forall l, Permutation (rank l) l) ->
  List.filter (memory_filter user) store = [p] ->
  memory_get rank store user 20 = [p].
Proof.
  intros Hperm H. unfold memory_get. rewrite H.
  pose proof (Hperm [p]) as Hp. apply Permutation_sym in Hp.
  apply Permutation_length_1_inv in Hp. rewrite Hp. reflexivity.
Qed.

Lemma reinforce_create rank ck (store : memory_store) (user channel : string)
    (ttl : Z) :
  List.find is_preference (memory_get rank store user 20) = None ->
  reinforce_preference rank ck store user channel ttl
  = Ok (store_upsert (created_preference ck user channel ttl) store).
Proof.
  intros H. unfold reinforce_preference. rewrite H. reflexivity.
Qed.

Lemma reinforce_update rank ck (store : memory_store) (user channel : string)
    (ttl : Z) (pref : point) (w0 : Z) :
  List.find is_preference (memory_get rank store user 20) = Some pref ->
  py_int (dict_get_default (pt_payload pref) "pref_weight" (VStr "1")) = Ok w0 ->
  reinforce_preference rank ck store user channel ttl
  = Ok (store_upsert (reinforced_preference ck pref channel (w0 + 1)) store).
Proof.
  intros H Hw. unfold reinforce_preference. rewrite H, Hw. reflexivity.
Qed.

Lemma created_lookups ck (user channel : string) (ttl : Z) :
  let p := pt_payload (created_preference ck user channel ttl) in
  p !! "type" = Some (VStr "preference")
  /\ p !! "user_id" = Some (VStr user)
  /\ p !! "delete_flag" = Some (VBool false)
  /\ p !! "pref_channel" = Some (VStr channel)
  /\ p !! "pref_weight" = Some (VStr "1")
  /\ p !! "last_updated" = Some (VStr (clock_iso ck)).
Proof.
  repeat split; vm_compute; reflexivity.
Qed.

Lemma reinforced_lookups ck (pref : point) (channel : string) (w : Z) :
  let p := pt_payload (reinforced_preference ck pref channel w) in
  p !! "pref_weight" = Some (VStr (str_of_int w))
  /\ p !! "pref_channel" = Some (VStr channel)
  /\ p !! "last_updated" = Some (VStr (clock_iso ck))
  /\ forall k, ~ In k rewritten_keys -> p !! k = pt_payload pref !! k.
Proof.
  unfold reinforced_preference. cbn [pt_payload].
  split; [|split; [|split]].
  - rewrite !lookup_insert_ne by discriminate. apply lookup_insert_eq.
  - rewrite !lookup_insert_ne by discriminate. apply lookup_insert_eq.
  - rewrite lookup_insert_ne by discriminate. apply lookup_insert_eq.
  - intros k Hk. cbn in Hk.
    rewrite !lookup_insert_ne; [reflexivity|..]; intros E; subst k; tauto.
Qed.

Lemma created_is_visible ck (user channel : string) (ttl : Z) :
  memory_filter user (created_preference ck user channel ttl) = true
  /\ match_str (pt_payload (created_preference ck user channel ttl)) "user_id" user = true
  /\ is_preference (created_preference ck user channel ttl) = true.
Proof.
  destruct (created_lookups ck user channel ttl) as [Ht [Hu [Hd _]]].
  unfold memory_filter, match_str, match_false, is_preference, dict_get.
  rewrite Ht, Hu, Hd, String.eqb_refl. repeat split.
Qed.

(** A reinforced record keeps the user, the type and the delete flag. *)
Lemma reinforced_is_visible ck (pref : point) (user channel : string) (w : Z) :
  memory_filter user pref = true ->
  match_str (pt_payload pref) "user_id" user = true ->
  is_preference pref = true ->
  memory_filter user (reinforced_preference ck pref channel w) = true
  /\ match_str (pt_payload (reinforced_preference ck pref channel w)) "user_id" user = true
  /\ is_preference (reinforced_preference ck pref channel w) = true.
Proof.
  destruct (reinforced_lookups ck pref channel w) as [_ [_ [_ K]]].
  unfold memory_filter, match_str, match_false, is_preference, dict_get.
  rewrite !K by (cbn; intros H; repeat (destruct H as [H|H]; [discriminate H|]); exact H).
  auto.
Qed.

(** C6, as stated, fails for a user with more than 20 visible records:
    [reinforce_preference] looks for the preference record among the 20
    records that the vector search returns, and creates a new one when
    none of these is a preference record. With twenty history records that
    the search returns first, the calls for "helpline", "helpline" and
    "email" leave three preference records of weight 1: the second call
    does not increment the record that the first one created, which
    keeps its weight of 1. *)
Lemma reinforce_beyond_lookup_limit :
  exists s1 s2 s3,
    reinforce_preference stored_order (later_clock 1) busy_store "u1" "helpline" 180
    = Ok s1
    /\ reinforce_preference stored_order (later_clock 2) s1 "u1" "helpline" 180 = Ok s2
    /\ reinforce_preference stored_order (later_clock 3) s2 "u1" "email" 180 = Ok s3
    /\ preference_summary busy_store "u1" = []
    /\ preference_summary s1 "u1" = [(VStr "helpline", VStr "1")]
    /\ preference_summary s2 "u1"
       = [(VStr "helpline", VStr "1"); (VStr "helpline", VStr "1")]
    /\ preference_summary s3 "u1"
       = [(VStr "helpline", VStr "1"); (VStr "helpline", VStr "1");
          (VStr "email", VStr "1")].
Proof.
  eexists. eexists. eexists.
  split; [vm_compute; reflexivity|].
  split; [vm_compute; reflexivity|].
  split; [vm_compute; reflexivity|].
  split; [vm_compute; reflexivity|].
  split; [vm_compute; reflexivity|].
  split; [vm_compute; reflexivity|].
  vm_compute; reflexivity.
Qed.

(** C6, amended: with a vector search that returns the user's visible
    records in some order: if no preference record is among the user's
    visible records, [reinforce] creates one with weight 1 bound to the
    channel; if the lookup, which reads 20 records, finds a preference
    record (it does when one exists among at most 20 visible records) with
    an integer weight, [reinforce] writes the weight plus 1, the new
    channel and a fresh [last_updated] over it and leaves its other
    fields; and the calls for "helpline", "helpline", "email", starting
    with no record of the user, leave the user a single record, a
    preference with weight 3 and channel "email". *)
Theorem reinforce_preference_record :
  forall rank, (forall l, Permutation (rank l) l) ->
    (forall ck (store : memory_store) (user channel : string) (ttl : Z),
        (forall q, In q store -> memory_filter user q = true ->
                   is_preference q = false) ->
        exists p,
          reinforce_preference rank ck store user channel ttl
          = Ok (store_upsert p store)
          /\ pt_id p = clock_id ck
          /\ pt_payload p !! "type" = Some (VStr "preference")
          /\ pt_payload p !! "user_id" = Some (VStr user)
          /\ pt_payload p !! "pref_channel" = Some (VStr channel)
          /\ pt_payload p !! "pref_weight" = Some (VStr "1")
          /\ pt_payload p !! "last_updated" = Some (VStr (clock_iso ck)))
    /\ (forall ck (store : memory_store) (user channel : string) (ttl : Z)
               (pref : point) (w : Z),
          List.find is_preference (memory_get rank store user 20) = Some pref ->
          py_int (dict_get_default (pt_payload pref) "pref_weight" (VStr "1")) = Ok w ->
          exists p,
            reinforce_preference rank ck store user channel ttl
            = Ok (store_upsert p store)
            /\ pt_id p = pt_id pref
            /\ pt_payload p !! "pref_weight" = Some (VStr (str_of_int (w + 1)))
            /\ pt_payload p !! "pref_channel" = Some (VStr channel)
            /\ pt_payload p !! "last_updated" = Some (VStr (clock_iso ck))
            /\ forall k, ~ In k rewritten_keys ->
                         pt_payload p !! k = pt_payload pref !! k)
    /\ (forall (store : memory_store) (user : string),
          (length (List.filter (memory_filter user) store) <= 20)%nat ->
          (exists q, In q store /\ memory_filter user q = true
                     /\ is_preference q = true) ->
          exists pref,
            List.find is_preference (memory_get rank store user 20) = Some pref
            /\ In pref store /\ memory_filter user pref = true
            /\ is_preference pref = true)
    /\ (forall ck1 ck2 ck3 (store : memory_store) (user : string),
          List.NoDup (map pt_id store) ->
          (forall q, In q store -> match_str (pt_payload q) "user_id" user = false) ->
          exists s1 s2 s3 p,
            reinforce_preference rank ck1 store user "helpline" 180 = Ok s1
            /\ reinforce_preference rank ck2 s1 user "helpline" 180 = Ok s2
            /\ reinforce_preference rank ck3 s2 user "email" 180 = Ok s3
            /\ user_records s3 user = [p]
            /\ is_preference p = true
            /\ pt_payload p !! "pref_weight" = Some (VStr "3")
            /\ pt_payload p !! "pref_channel" = Some (VStr "email")).
Proof.
  intros rank Hperm. split; [|split; [|split]].
  - intros ck store user channel ttl Hnone.
    exists (created_preference ck user channel ttl).
    destruct (created_lookups ck user channel ttl) as [H1 [H2 [_ [H4 [H5 H6]]]]].
    split; [|repeat split; assumption].
    apply reinforce_create. apply find_none_all. intros x Hx.
    apply (memory_get_subset _ _ _ _ _ Hperm) in Hx as [Hin Hf]. now apply Hnone.
  - intros ck store user channel ttl pref w Hfind Hw.
    exists (reinforced_preference ck pref channel (w + 1)).
    destruct (reinforced_lookups ck pref channel (w + 1)) as [H1 [H2 [H3 H4]]].
    split; [now apply reinforce_update|]. repeat split; assumption.
  - intros store user Hlen [q [Hq [Hf Hp]]].
    assert (memory_get rank store user 20
            = rank (List.filter (memory_filter user) store)) as E.
    { unfold memory_get. apply firstn_all2.
      rewrite (Permutation_length (Hperm _)). exact Hlen. }
    destruct (find_some_exists is_preference (memory_get rank store user 20))
      as [pref Hpref].
    { exists q. split; [|exact Hp]. rewrite E.
      apply (Permutation_in _ (Permutation_sym (Hperm _))).
      apply filter_In. now split. }
    exists pref. split; [exact Hpref|].
    apply find_some in Hpref as [Hin Hpp].
    apply (memory_get_subset _ _ _ _ _ Hperm) in Hin as [Hin Hfp]. auto.
  - intros ck1 ck2 ck3 store user Hnd Hnone.
    set (p1 := created_preference ck1 user "helpline" 180).
    set (p2 := reinforced_preference ck2 p1 "helpline" (1 + 1)).
    set (p3 := reinforced_preference ck3 p2 "email" (2 + 1)).
    set (s1 := store_upsert p1 store).
    set (s2 := store_upsert p2 s1).
    set (s3 := store_upsert p3 s2).
    destruct (created_is_visible ck1 user "helpline" 180) as [V1 [U1 P1]].
    fold p1 in V1, U1, P1.
    destruct (reinforced_is_visible ck2 p1 user "helpline" (1 + 1) V1 U1 P1)
      as [V2 [U2 P2]]. fold p2 in V2, U2, P2.
    destruct (reinforced_is_visible ck3 p2 user "email" (2 + 1) V2 U2 P2)
      as [V3 [U3 P3]]. fold p3 in V3, U3, P3.
    assert (forall q, In q store -> memory_filter user q = false) as Hnone'.
    { intros q Hq. unfold memory_filter. rewrite (Hnone q Hq). reflexivity. }
    pose proof (upsert_nodup p1 store Hnd) as Hnd1. fold s1 in Hnd1.
    pose proof (upsert_nodup p2 s1 Hnd1) as Hnd2. fold s2 in Hnd2.
    assert (List.filter (memory_filter user) s1 = [p1]) as F1
      by (apply filter_upsert_new; assumption).
    assert (user_records s1 user = [p1]) as R1
      by (apply filter_upsert_new; assumption).
    assert (List.filter (memory_filter user) s2 = [p2]) as F2
      by (apply (filter_upsert_same _ p2 p1); auto).
    assert (user_records s2 user = [p2]) as R2
      by (apply (filter_upsert_same _ p2 p1); auto).
    assert (user_records s3 user = [p3]) as R3
      by (apply (filter_upsert_same _ p3 p2); auto).
    exists s1, s2, s3, p3.
    split.
    { apply reinforce_create. apply find_none_all. intros x Hx.
      apply (memory_get_subset _ _ _ _ _ Hperm) in Hx as [Hin Hf].
      rewrite (Hnone' x Hin) in Hf. discriminate. }
    split.
    { apply reinforce_update.
      - rewrite (memory_get_single _ _ _ _ Hperm F1). cbn [List.find].
        rewrite P1. reflexivity.
      - destruct (created_lookups ck1 user "helpline" 180) as [_ [_ [_ [_ [W _]]]]].
        unfold dict_get_default. fold p1 in W. rewrite W. reflexivity. }
    split.
    { apply reinforce_update.
      - rewrite (memory_get_single _ _ _ _ Hperm F2). cbn [List.find].
        rewrite P2. reflexivity.
      - destruct (reinforced_lookups ck2 p1 "helpline" (1 + 1)) as [W _].
        unfold dict_get_default. fold p2 in W. rewrite W. reflexivity. }
    split; [exact R3|]. split; [exact P3|].
    destruct (reinforced_lookups ck3 p2 "email" (2 + 1)) as [W [C _]].
    fold p3 in W, C. split; [exact W | exact C].
Qed.

Lemma stored_order_perm (l : list point) : Permutation (stored_order l) l.
Proof. reflexivity. Qed.

Lemma reinforce_preference_record_witness :
  exists s1 s2 s3 p,
    reinforce_preference stored_order (later_clock 1) small_store "u2" "helpline" 180 = Ok s1
    /\ reinforce_preference stored_order (later_clock 2) s1 "u2" "helpline" 180 = Ok s2
    /\ reinforce_preference stored_order (later_clock 3) s2 "u2" "email" 180 = Ok s3
    /\ user_records s3 "u2" = [p]
    /\ pt_payload p !! "pref_weight" = Some (VStr "3")
    /\ pt_payload p !! "pref_channel" = Some (VStr "email").
Proof.
  destruct (reinforce_preference_record stored_order stored_order_perm)
    as [_ [_ [_ S]]].
  destruct (S (later_clock 1) (later_clock 2) (later_clock 3) small_store "u2")
    as [s1 [s2 [s3 [p [H1 [H2 [H3 [R [_ [W C]]]]]]]]]].
  - vm_compute.
    repeat (apply List.NoDup_cons; [cbn; intuition discriminate|]).
    apply List.NoDup_nil.
  - intros q Hq. cbn in Hq.
    repeat (destruct Hq as [<-|Hq]; [vm_compute; reflexivity|]). destruct Hq.
  - exists s1, s2, s3, p. repeat split; assumption.
Defined.

(** ** Reciprocal-rank fusion (core/hybrid.py) *)

(** *** The insertion-ordered dictionary *)

Lemma odict_get_set {V : Type} (i j : pointid) (v : V) (d : list (pointid * V)) :
  odict_get j (odict_set i v d)
  = if (i =? j)%Z then Some v else odict_get j d.
Proof.
  induction d as [|[k' v'] r IH]; cbn [odict_set odict_get].
  - destruct (i =? j)%Z; reflexivity.
  - destruct (Z.eqb_spec k' i) as [->|Hk]; cbn [odict_get].
    + destruct (i =? j)%Z; reflexivity.
    + rewrite IH. destruct (Z.eqb_spec k' j) as [->|Hj]; [|reflexivity].
      destruct (Z.eqb_spec i j) as [->|_]; [now exfalso | reflexivity].
Qed.

Lemma odict_keys_set {V : Type} (i : pointid) (v : V) (d : list (pointid * V)) :
  map fst (odict_set i v d)
  = match odict_get i d with
    | Some _ => map fst d
    | None => (map fst d ++ [i])%list
    end.
Proof.
  induction d as [|[k' v'] r IH]; cbn [odict_set odict_get map fst app];
    [reflexivity|].
  destruct (Z.eqb_spec k' i) as [->|Hk]; cbn [map fst]; [reflexivity|].
  rewrite IH. destruct (odict_get i r); reflexivity.
Qed.

Lemma odict_canonical {V : Type} (f : pointid -> V) (d : list (pointid * V)) :
  List.NoDup (map fst d) ->
  (forall i, In i (map fst d) -> odict_get i d = Some (f i)) ->
  d = map (fun i => (i, f i)) (map fst d).
Proof.
  induction d as [|[k' v'] r IH]; intros Hnd H; [reflexivity|].
  cbn [map fst] in *. apply List.NoDup_cons_iff in Hnd as [Hk Hnd].
  f_equal.
  - specialize (H k' (or_introl eq_refl)). cbn [odict_get] in H.
    rewrite Z.eqb_refl in H. injection H as ->. reflexivity.
  - apply IH; [exact Hnd|]. intros i Hi.
    specialize (H i (or_intror Hi)). cbn [odict_get] in H.
    destruct (Z.eqb_spec k' i) as [->|_]; [contradiction | exact H].
Qed.

Lemma existsb_eqb_In (i : pointid) (l : list pointid) :
  existsb (Z.eqb i) l = true <-> In i l.
Proof.
  rewrite existsb_exists. split.
  - intros [x [Hx E]]. apply Z.eqb_eq in E. now subst.
  - intros H. exists i. split; [exact H | apply Z.eqb_refl].
Qed.

Lemma existsb_eqb_snoc (j i : pointid) (l : list pointid) :
  existsb (Z.eqb j) (l ++ [i]) = existsb (Z.eqb j) l || (j =? i)%Z.
Proof.
  rewrite existsb_app. cbn [existsb]. rewrite orb_false_r. reflexivity.
Qed.

(** *** The description, one occurrence at a time *)

Lemma seen_ids_snoc (occ : list (Z * hit)) (rd : Z * hit) :
  seen_ids (occ ++ [rd])
  = if existsb (Z.eqb (hit_id (snd rd))) (seen_ids occ) then seen_ids occ
    else (seen_ids occ ++ [hit_id (snd rd)])%list.
Proof. unfold seen_ids. rewrite fold_left_app. reflexivity. Qed.

Lemma rrf_sum_snoc (k : Z) (occ : list (Z * hit)) (rd : Z * hit) (i : pointid) :
  rrf_sum k (occ ++ [rd]) i
  = if occurs i rd then (rrf_sum k occ i + 1.0 / inject_Z (k + fst rd))%Q
    else rrf_sum k occ i.
Proof.
  unfold rrf_sum. rewrite List.filter_app. cbn [List.filter].
  destruct (occurs i rd).
  - rewrite map_app, fold_left_app. reflexivity.
  - rewrite app_nil_r. reflexivity.
Qed.

Lemma last_seen_snoc (occ : list (Z * hit)) (rd : Z * hit) (i : pointid) :
  last_seen (occ ++ [rd]) i
  = if occurs i rd then Some (snd rd) else last_seen occ i.
Proof. unfold last_seen. rewrite fold_left_app. reflexivity. Qed.

Lemma seen_ids_occurs (occ : list (Z * hit)) (i : pointid) :
  In i (seen_ids occ) <-> exists rd, In rd occ /\ hit_id (snd rd) = i.
Proof.
  induction occ as [|rd occ IH] using rev_ind.
  - split; [intros [] | intros [rd [[] _]]].
  - rewrite seen_ids_snoc.
    assert (In i (seen_ids occ ++ [hit_id (snd rd)])
            <-> exists x, In x (occ ++ [rd]) /\ hit_id (snd x) = i) as Happ.
    { rewrite in_app_iff, IH. cbn [In]. split.
      - intros [[x [Hx E]]|[E|[]]].
        + exists x. split; [apply in_or_app; now left | exact E].
        + exists rd. split; [apply in_or_app; right; now left | exact E].
      - intros [x [Hx E]]. apply in_app_or in Hx as [Hx|[<-|[]]].
        + left. now exists x.
        + right. now left. }
    destruct (existsb _ _) eqn:E; [|exact Happ].
    apply existsb_eqb_In in E. rewrite <- Happ, in_app_iff. cbn [In].
    split; [now left|]. intros [H|[<-|[]]]; assumption.
Qed.

Lemma seen_ids_nodup (occ : list (Z * hit)) : List.NoDup (seen_ids occ).
Proof.
  induction occ as [|rd occ IH] using rev_ind; [constructor|].
  rewrite seen_ids_snoc. destruct (existsb _ _) eqn:E; [exact IH|].
  apply List.NoDup_app; [exact IH | repeat constructor; intros [] |].
  intros a Ha [<-|[]]. apply existsb_eqb_In in Ha. congruence.
Qed.

Lemma rrf_sum_unseen (k : Z) (occ : list (Z * hit)) (i : pointid) :
  existsb (Z.eqb i) (seen_ids occ) = false -> rrf_sum k occ i = 0.0%Q.
Proof.
  intros H. unfold rrf_sum.
  rewrite (filter_all_false (occurs i) occ); [reflexivity|].
  intros rd Hrd. unfold occurs. destruct (Z.eqb_spec (hit_id (snd rd)) i) as [E|_];
    [|reflexivity].
  exfalso. assert (In i (seen_ids occ)) as C by (apply seen_ids_occurs; now exists rd).
  apply existsb_eqb_In in C. congruence.
Qed.

Lemma last_seen_id (occ : list (Z * hit)) (i : pointid) (d : hit) :
  last_seen occ i = Some d -> hit_id d = i.
Proof.
  induction occ as [|rd occ IH] using rev_ind; [discriminate|].
  rewrite last_seen_snoc. unfold occurs.
  destruct (Z.eqb_spec (hit_id (snd rd)) i) as [E|_]; [|exact IH].
  intros [= <-]. exact E.
Qed.

Lemma last_seen_some (occ : list (Z * hit)) (i : pointid) :
  In i (seen_ids occ) -> exists d, last_seen occ i = Some d.
Proof.
  induction occ as [|rd occ IH] using rev_ind; [intros []|].
  rewrite seen_ids_snoc, last_seen_snoc. unfold occurs.
  destruct (Z.eqb_spec (hit_id (snd rd)) i) as [E|N]; [intros _; eauto|].
  destruct (existsb _ _); [exact IH|].
  intros H. apply in_app_or in H as [H|[H|[]]]; [now apply IH | contradiction].
Qed.

(** *** The loops as one pass *)

Lemma rrf_flat_app (k : Z) (a c : list (Z * hit)) (st : rrf_state) :
  rrf_flat k (a ++ c) st = (let* st' := rrf_flat k a st in rrf_flat k c st').
Proof.
  revert st. induction a as [|rd a IH]; intros st; [reflexivity|].
  cbn [app rrf_flat]. destruct (rrf_step k (fst rd) (snd rd) st); cbn [bind];
    [apply IH | reflexivity].
Qed.

Lemma rrf_inner_flat (k rank : Z) (l : list hit) (st : rrf_state) :
  rrf_inner k rank l st = rrf_flat k (enumerate_from rank l) st.
Proof.
  revert rank st. induction l as [|d r IH]; intros rank st; [reflexivity|].
  cbn [rrf_inner enumerate_from rrf_flat fst snd].
  destruct (rrf_step k rank d st); cbn [bind]; [apply IH | reflexivity].
Qed.

Lemma rrf_outer_flat (k : Z) (lists : list (list hit)) (st : rrf_state) :
  rrf_outer k lists st = rrf_flat k (occurrences lists) st.
Proof.
  revert st. induction lists as [|l r IH]; intros st; [reflexivity|].
  unfold occurrences. cbn [rrf_outer map concat].
  rewrite rrf_flat_app, rrf_inner_flat.
  destruct (rrf_flat k (enumerate_from 1 l) st); cbn [bind];
    [apply IH | reflexivity].
Qed.

Lemma enumerate_ranks (rank : Z) (l : list hit) (rd : Z * hit) :
  In rd (enumerate_from rank l) -> rank <= fst rd.
Proof.
  revert rank. induction l as [|d r IH]; intros rank H; [destruct H|].
  destruct H as [<-|H]; [cbn; lia|]. apply IH in H. lia.
Qed.

Lemma occurrences_ranks (lists : list (list hit)) (rd : Z * hit) :
  In rd (occurrences lists) -> 1 <= fst rd.
Proof.
  unfold occurrences. intros H. apply in_concat in H as [l [Hl Hrd]].
  apply in_map_iff in Hl as [x [<- _]]. now apply enumerate_ranks in Hrd.
Qed.

Lemma rrf_step_inv (k : Z) (occ : list (Z * hit)) (rd : Z * hit) (st : rrf_state) :
  k + fst rd <> 0 ->
  rrf_inv k occ st ->
  exists st', rrf_step k (fst rd) (snd rd) st = Ok st'
              /\ rrf_inv k (occ ++ [rd]) st'.
Proof.
  intros Hk [I1 [I2 I3]]. unfold rrf_step.
  destruct (Z.eqb_spec (k + fst rd) 0) as [C|_]; [contradiction|].
  eexists. split; [reflexivity|].
  set (i0 := hit_id (snd rd)).
  unfold rrf_inv. cbn [rrf_scores rrf_items].
  split; [|split].
  - rewrite odict_keys_set, I2, I1, seen_ids_snoc. fold i0.
    destruct (existsb (Z.eqb i0) (seen_ids occ)); reflexivity.
  - intros j. rewrite odict_get_set, !I2, seen_ids_snoc, rrf_sum_snoc.
    fold i0. unfold occurs. fold i0.
    destruct (Z.eqb_spec i0 j) as [<-|Hj].
    + destruct (existsb (Z.eqb i0) (seen_ids occ)) eqn:E.
      * rewrite E. reflexivity.
      * rewrite existsb_eqb_snoc, Z.eqb_refl, orb_true_r.
        rewrite (rrf_sum_unseen _ _ _ E). reflexivity.
    + destruct (existsb (Z.eqb i0) (seen_ids occ)); [reflexivity|].
      rewrite existsb_eqb_snoc.
      destruct (Z.eqb_spec j i0) as [->|_]; [now exfalso|].
      rewrite orb_false_r. reflexivity.
  - intros j. rewrite last_seen_snoc. unfold occurs. fold i0.
    destruct (Z.eqb_spec i0 j) as [<-|Hj].
    + apply lookup_insert_eq.
    + rewrite lookup_insert_ne by exact Hj. apply I3.
Qed.

Lemma rrf_flat_inv (k : Z) (occ : list (Z * hit)) :
  (forall rd, In rd occ -> k + fst rd <> 0) ->
  exists st, rrf_flat k occ {| rrf_scores := []; rrf_items := ∅ |} = Ok st
             /\ rrf_inv k occ st.
Proof.
  induction occ as [|rd occ IH] using rev_ind; intros H.
  - eexists. split; [reflexivity|].
    split; [reflexivity | split; intros i; [reflexivity | apply lookup_empty]].
  - destruct IH as [st [Hst Hinv]].
    { intros x Hx. apply H. apply in_or_app. now left. }
    destruct (rrf_step_inv k occ rd st) as [st' [Hstep Hinv']];
      [apply H; apply in_or_app; right; now left | exact Hinv |].
    exists st'. split; [|exact Hinv'].
    rewrite rrf_flat_app, Hst. cbn [bind rrf_flat]. rewrite Hstep. reflexivity.
Qed.

Lemma rrf_collect_fused (k : Z) (occ : list (Z * hit)) (items : gmap Z hit)
    (ids : list pointid) :
  (forall i, items !! i = last_seen occ i) ->
  (forall i, In i ids -> exists d, last_seen occ i = Some d) ->
  rrf_collect items (map (fun i => (i, rrf_sum k occ i)) ids)
  = Ok (omap (fun i => (fun d => with_rrf_score d (rrf_sum k occ i))
                         <$> last_seen occ i) ids).
Proof.
  intros Hitems. induction ids as [|i r IH]; intros H; [reflexivity|].
  cbn [map rrf_collect]. rewrite Hitems.
  destruct (H i (or_introl eq_refl)) as [d Hd]. rewrite Hd.
  rewrite IH by (intros j Hj; apply H; now right).
  cbn [bind omap list_omap]. rewrite Hd. reflexivity.
Qed.

(** The records before sorting and truncation. *)
Lemma rrf_fuse_records (lists : list (list hit)) (k topk : Z) :
  0 <= k ->
  rrf_fuse lists k topk
  = Ok (slice_to (sort_desc rrf_key (fused_records k (occurrences lists))) topk).
Proof.
  intros Hk. unfold rrf_fuse. rewrite rrf_outer_flat.
  destruct (rrf_flat_inv k (occurrences lists)) as [st [Hst [I1 [I2 I3]]]].
  { intros rd Hrd. apply occurrences_ranks in Hrd. lia. }
  rewrite Hst. cbn [bind].
  assert (rrf_scores st
          = map (fun i => (i, rrf_sum k (occurrences lists) i))
                (seen_ids (occurrences lists))) as Hscores.
  { rewrite <- I1. apply odict_canonical.
    - rewrite I1. apply seen_ids_nodup.
    - intros i Hi. rewrite I2. rewrite I1 in Hi.
      apply existsb_eqb_In in Hi. rewrite Hi. reflexivity. }
  rewrite Hscores.
  rewrite (rrf_collect_fused k _ _ _ I3) by (intros i; apply last_seen_some).
  reflexivity.
Qed.

(** *** Sorting *)

Lemma insert_desc_perm {A : Type} (key : A -> Q) (x : A) (l : list A) :
  Permutation (insert_desc key x l) (x :: l).
Proof.
  induction l as [|y r IH]; [reflexivity|].
  cbn [insert_desc]. destruct (Qle_bool (key y) (key x)); [reflexivity|].
  rewrite IH. apply perm_swap.
Qed.

Lemma sort_desc_perm {A : Type} (key : A -> Q) (l : list A) :
  Permutation (sort_desc key l) l.
Proof.
  induction l as [|x r IH]; [reflexivity|].
  unfold sort_desc in *. cbn [foldr]. rewrite insert_desc_perm.
  now apply perm_skip.
Qed.

Lemma insert_desc_sorted {A : Type} (key : A -> Q) (x : A) (l : list A) :
  Sorted.StronglySorted (fun a b => key b <= key a)%Q l ->
  Sorted.StronglySorted (fun a b => key b <= key a)%Q (insert_desc key x l).
Proof.
  induction 1 as [|y r Hs IH Hy].
  - repeat constructor.
  - cbn [insert_desc]. destruct (Qle_bool (key y) (key x)) eqn:E.
    + apply Qle_bool_iff in E. constructor; [now constructor|].
      constructor; [exact E|].
      eapply List.Forall_impl; [|exact Hy]. intros z Hz. cbn beta in *.
      eapply Qle_trans; eassumption.
    + constructor; [exact IH|].
      assert (key x <= key y)%Q as Hxy.
      { destruct (Qlt_le_dec (key x) (key y)) as [L|L]; [now apply Qlt_le_weak|].
        apply Qle_bool_iff in L. congruence. }
      apply (Permutation_Forall (Permutation_sym (insert_desc_perm key x r))).
      constructor; assumption.
Qed.

Lemma sort_desc_sorted {A : Type} (key : A -> Q) (l : list A) :
  Sorted.StronglySorted (fun a b => key b <= key a)%Q (sort_desc key l).
Proof.
  induction l as [|x r IH]; [constructor|].
  unfold sort_desc in *. cbn [foldr]. now apply insert_desc_sorted.
Qed.

Lemma firstn_sorted {A : Type} (R : A -> A -> Prop) (n : nat) (l : list A) :
  Sorted.StronglySorted R l -> Sorted.StronglySorted R (firstn n l).
Proof.
  intros H. revert n. induction H as [|x r Hs IH Hx]; intros n.
  - rewrite firstn_nil. constructor.
  - destruct n as [|n]; [constructor|].
    cbn [firstn]. constructor; [apply IH|].
    apply List.Forall_forall. intros y Hy. apply in_firstn in Hy.
    rewrite List.Forall_forall in Hx. now apply Hx.
Qed.

(** *** The fused records *)

Lemma fused_records_ids (k : Z) (occ : list (Z * hit)) :
  map hit_id (fused_records k occ) = seen_ids occ.
Proof.
  unfold fused_records.
  assert (forall ids, (forall i, In i ids -> In i (seen_ids occ)) ->
            map hit_id
              (omap (fun i => (fun d => with_rrf_score d (rrf_sum k occ i))
                                <$> last_seen occ i) ids) = ids) as G.
  { induction ids as [|i r IH]; intros H; [reflexivity|].
    destruct (last_seen_some occ i (H i (or_introl eq_refl))) as [d Hd].
    cbn [omap list_omap]. rewrite Hd. cbn [fmap option_fmap option_map map].
    rewrite IH by (intros j Hj; apply H; now right).
    f_equal. exact (last_seen_id _ _ _ Hd). }
  apply G. auto.
Qed.

Lemma fused_records_last_seen (k : Z) (occ : list (Z * hit)) (x : hit) :
  In x (fused_records k occ) ->
  exists d, last_seen occ (hit_id x) = Some d
            /\ x = with_rrf_score d (rrf_sum k occ (hit_id x)).
Proof.
  unfold fused_records. intros H.
  apply list_elem_of_In, list_elem_of_omap in H as [i [_ Hi]].
  destruct (last_seen occ i) as [d|] eqn:Hd; [|discriminate].
  injection Hi as <-. cbn [with_rrf_score hit_id].
  rewrite (last_seen_id _ _ _ Hd). rewrite Hd. now exists d.
Qed.

(** C1, as stated, fails on the record that represents a document found in
    two lists: the record of the last list is returned, not the first-seen
    one, and its score field keeps its own value, 0.5; the fused score,
    1/61 + 1/61, is stored under the separate key [rrf_score]. *)
Lemma rrf_fuse_keeps_last_payload :
  exists x,
    rrf_fuse [[dense_hit]; [second_hit]] 60 10 = Ok [x]
    /\ first_seen (occurrences [[dense_hit]; [second_hit]]) (hit_id x)
       = Some dense_hit
    /\ hit_text x = hit_text second_hit
    /\ hit_text x <> hit_text dense_hit
    /\ hit_payload x <> hit_payload dense_hit
    /\ hit_score x = Some 0.5%Q
    /\ exists s, hit_rrf_score x = Some s
                 /\ (s == 1 / 61 + 1 / 61)%Q
                 /\ ~ (0.5 == s)%Q.
Proof.
  eexists. split; [vm_compute; reflexivity|].
  split; [reflexivity|]. split; [reflexivity|].
  split; [discriminate|].
  split.
  { intros H. apply (f_equal (fun m : dict => m !! "source")) in H.
    vm_compute in H. discriminate. }
  split; [reflexivity|].
  eexists. split; [reflexivity|]. split; [reflexivity|]. discriminate.
Qed.

(** C1, amended: for a constant [k] and a limit [topk] that are not
    negative, [rrf_fuse] returns the first [topk] records of a list that has
    one record per document id of the input lists, sorted in descending
    order of the fused score; the fused score of an id is the sum over its
    occurrences of 1/(k + rank), with rank the 1-based position in the
    list; the record of an id is the one seen last for it, with the fused
    score stored under [rrf_score] and every other field, the score field
    included, as in that record. *)
Theorem rrf_fuse_last_seen :
  forall (lists : list (list hit)) (k topk : Z),
    0 <= k -> 0 <= topk ->
    let occ := occurrences lists in
    exists fused,
      rrf_fuse lists k topk = Ok (firstn (Z.to_nat topk) fused)
      /\ Permutation (map hit_id fused) (seen_ids occ)
      /\ List.NoDup (map hit_id fused)
      /\ (forall i, In i (map hit_id fused)
                    <-> exists rd, In rd occ /\ hit_id (snd rd) = i)
      /\ (forall x, In x fused ->
            exists d, last_seen occ (hit_id x) = Some d
                      /\ x = with_rrf_score d (rrf_sum k occ (hit_id x)))
      /\ Sorted.StronglySorted rrf_desc fused
      /\ Sorted.StronglySorted rrf_desc (firstn (Z.to_nat topk) fused)
      /\ (length (firstn (Z.to_nat topk) fused) <= Z.to_nat topk)%nat.
Proof.
  intros lists k topk Hk Htop occ.
  exists (sort_desc rrf_key (fused_records k occ)).
  assert (Permutation (map hit_id (sort_desc rrf_key (fused_records k occ)))
                      (seen_ids occ)) as Hperm.
  { rewrite <- (fused_records_ids k occ). apply Permutation_map, sort_desc_perm. }
  split.
  { rewrite (rrf_fuse_records lists k topk Hk). unfold slice_to.
    destruct (Z.leb_spec 0 topk); [reflexivity | lia]. }
  split; [exact Hperm|].
  split.
  { apply (Permutation_NoDup (Permutation_sym Hperm)), seen_ids_nodup. }
  split.
  { intros i. rewrite <- seen_ids_occurs. split; apply Permutation_in;
      [exact Hperm | exact (Permutation_sym Hperm)]. }
  split.
  { intros x Hx. apply fused_records_last_seen.
    exact (Permutation_in _ (sort_desc_perm _ _) Hx). }
  split; [apply sort_desc_sorted|].
  split; [apply firstn_sorted, sort_desc_sorted|].
  rewrite length_firstn. lia.
Qed.

Lemma rrf_fuse_last_seen_witness :
  exists fused,
    rrf_fuse [[dense_hit]; [second_hit]] 60 10 = Ok (firstn (Z.to_nat 10) fused)
    /\ forall x, In x fused ->
         exists d,
           last_seen (occurrences [[dense_hit]; [second_hit]]) (hit_id x) = Some d
           /\ x = with_rrf_score d
                    (rrf_sum 60 (occurrences [[dense_hit]; [second_hit]]) (hit_id x)).
Proof.
  destruct (rrf_fuse_last_seen [[dense_hit]; [second_hit]] 60 10)
    as [fused [H [_ [_ [_ [L _]]]]]]; [lia | lia |].
  exists fused. split; assumption.
Defined.

(* ===================================================================== *)
(** ** The ranking of the channels (core/recommend.py)                    *)
(* ===================================================================== *)

Lemma recommend_channel_eq (kb_payload : dict) (portal_status : option dict)
    (urgency : string) (user_pref : option string) (channels : list string) :
  iter_strs (dict_get_default kb_payload "channel_type" (VList [])) = Ok channels ->
  exists portal_ok,
    let sc := sort_desc snd
                (map (fun ch => (ch, score_channel ch urgency portal_ok user_pref))
                     channels) in
    recommend_channel kb_payload portal_status urgency user_pref
    = Ok (head (map fst sc), map fst sc !! 1%nat,
          {| scored := sc; details_portal_ok := portal_ok |})
    /\ (portal_ok = false <->
        exists st, portal_status = Some st /\ dict_get st "status" <> VStr "up").
Proof.
  intros H. unfold recommend_channel. rewrite H. cbn [bind].
  eexists. split.
  - cbv zeta. f_equal. f_equal. f_equal.
    + destruct (sort_desc _ _) as [|x l]; reflexivity.
    + destruct (sort_desc _ _) as [|x [|y l]]; reflexivity.
  - destruct portal_status as [st|].
    + destruct (dict_get st "status") eqn:E; try (split; [intros _; eexists; split; [reflexivity|rewrite E; discriminate] | reflexivity]).
      split.
      * intros Hf. exists st. split; [reflexivity|]. rewrite E. intros [= ->]. discriminate.
      * intros (st' & [= <-] & Hne). rewrite E in Hne.
        destruct (String.eqb_spec s "up"); [subst; congruence | reflexivity].
    + split; [discriminate|]. intros (st & [=] & _).
Qed.

Lemma score_portal_down (urgency : string) (user_pref : option string) :
  (score_channel "portal" urgency false user_pref <= 0.2)%Q.
Proof.
  unfold score_channel.
  match goal with
  | |- context [if ?b then (_ + 1.5)%Q else _] => generalize b
  end.
  intros bonus.
  destruct (String.eqb urgency "high"), (String.eqb urgency "medium"), bonus;
    apply Qle_bool_imp_le; reflexivity.
Qed.

Lemma score_other_channel (c urgency : string) (portal_ok : bool)
    (user_pref : option string) :
  c <> "portal" ->
  (0.3 <= score_channel c urgency portal_ok user_pref)%Q.
Proof.
  intros Hc. unfold score_channel.
  assert (E : String.eqb c "portal" = false) by (apply String.eqb_neq; exact Hc).
  rewrite E. cbn [andb].
  match goal with
  | |- context [if ?b then (_ + 1.5)%Q else _] => generalize b
  end.
  intros bonus.
  destruct (String.eqb urgency "high"), (String.eqb urgency "medium");
    destruct (str_in c ["helpline"; "email"]), (str_in c ["app"; "portal"]),
             (str_in c ["portal"; "app"]), bonus;
    apply Qle_bool_imp_le; reflexivity.
Qed.

Lemma sorted_head_max {A : Type} (key : A -> Q) (l : list A) (x y : A) :
  Sorted.StronglySorted (fun a b => key b <= key a)%Q l ->
  head l = Some x -> In y l -> (key y <= key x)%Q.
Proof.
  intros Hs Hh Hy. destruct l as [|z r]; [discriminate|].
  injection Hh as ->. inversion Hs as [|? ? _ Hall]; subst.
  destruct Hy as [->|Hy]; [apply Qle_refl|].
  rewrite List.Forall_forall in Hall. apply Hall, Hy.
Qed.

(** X1. [recommend_channel] ranks the channels that the knowledge-base
    entry offers: the scored list is the list of the offered channels, each
    with its [score_channel] value, rearranged in descending order of the
    scores; [best] and [backup] are its first and second channel; no
    offered channel scores higher than [best]; [best] is [None] exactly
    when no channel is offered and [backup] is [None] exactly when at most
    one is. *)
Theorem recommend_channel_ranking :
  forall (kb_payload : dict) (portal_status : option dict) (urgency : string)
         (user_pref : option string) (channels : list string),
    iter_strs (dict_get_default kb_payload "channel_type" (VList [])) = Ok channels ->
    exists best backup details,
      recommend_channel kb_payload portal_status urgency user_pref
      = Ok (best, backup, details)
      /\ Permutation (map fst (scored details)) channels
      /\ (forall ch s, In (ch, s) (scored details) ->
            s = score_channel ch urgency (details_portal_ok details) user_pref)
      /\ Sorted.StronglySorted (fun a b => snd b <= snd a)%Q (scored details)
      /\ best = head (map fst (scored details))
      /\ backup = map fst (scored details) !! 1%nat
      /\ (forall top, best = Some top ->
            forall ch, In ch channels ->
              (score_channel ch urgency (details_portal_ok details) user_pref
               <= score_channel top urgency (details_portal_ok details) user_pref)%Q)
      /\ (best = None <-> channels = [])
      /\ (backup = None <-> (length channels <= 1)%nat).
Proof.
  intros kb st urgency pref channels H.
  destruct (recommend_channel_eq kb st urgency pref channels H) as (ok & E & _).
  cbv zeta in E.
  set (raw := map (fun ch => (ch, score_channel ch urgency ok pref)) channels) in *.
  set (sc := sort_desc snd raw) in *.
  assert (Hperm : Permutation sc raw) by apply sort_desc_perm.
  assert (Hsorted : Sorted.StronglySorted (fun a b => snd b <= snd a)%Q sc)
    by apply sort_desc_sorted.
  assert (Hfst : map fst raw = channels).
  { unfold raw. rewrite map_map. cbn. apply map_id. }
  assert (Hin : forall ch s, In (ch, s) sc -> s = score_channel ch urgency ok pref).
  { intros ch s Hi. apply (Permutation_in _ Hperm) in Hi. unfold raw in Hi.
    apply in_map_iff in Hi as (c & [= <- <-] & _). reflexivity. }
  assert (Hlen : length sc = length channels).
  { rewrite (Permutation_length Hperm). unfold raw. apply length_map. }
  exists (head (map fst sc)), (map fst sc !! 1%nat),
         {| scored := sc; details_portal_ok := ok |}.
  cbn [scored details_portal_ok].
  split; [exact E|].
  split; [rewrite <- Hfst; apply Permutation_map, Hperm|].
  split; [exact Hin|].
  split; [exact Hsorted|].
  split; [reflexivity|].
  split; [reflexivity|].
  split.
  - intros top Htop ch Hch.
    destruct sc as [|[t ts] r] eqn:Esc; [discriminate|].
    cbn in Htop. injection Htop as <-.
    assert (Hi : In (ch, score_channel ch urgency ok pref) ((t, ts) :: r)).
    { apply (Permutation_in _ (Permutation_sym Hperm)). unfold raw.
      apply in_map_iff. exists ch. split; [reflexivity|exact Hch]. }
    pose proof (sorted_head_max snd _ (t, ts) _ Hsorted eq_refl Hi) as Hle.
    cbn in Hle. rewrite <- (Hin t ts (or_introl eq_refl)). exact Hle.
  - split.
    + destruct sc as [|x r], channels as [|c cs]; cbn in Hlen |- *;
        try discriminate; split; intros; try reflexivity; discriminate.
    + destruct sc as [|x [|y r]], channels as [|c [|d cs]]; cbn in Hlen |- *;
        try discriminate; split; intros; try reflexivity; try discriminate; lia.
Qed.

Lemma recommend_channel_ranking_witness :
  exists best backup details,
    recommend_channel pothole_payload None "low" (Some "helpline")
    = Ok (best, backup, details)
    /\ best = Some "helpline" /\ backup = Some "portal".
Proof.
  destruct (recommend_channel_ranking pothole_payload None "low" (Some "helpline")
              ["portal"; "helpline"] eq_refl)
    as (best & backup & details & E & _).
  exists best, backup, details. split; [exact E|].
  vm_compute in E. injection E as <- <- _. split; reflexivity.
Defined.

(** X2. When the status record of the portal says anything but [up], the
    portal is never the best channel of an entry that offers some other
    channel, whatever the urgency and even when the portal is the channel
    the user prefers: the portal then scores 0.2 at most and every other
    channel 0.3 at least. *)
Theorem portal_down_never_best :
  forall (kb_payload status : dict) (urgency : string) (user_pref : option string)
         (channels : list string) (other : string),
    iter_strs (dict_get_default kb_payload "channel_type" (VList [])) = Ok channels ->
    dict_get status "status" <> VStr "up" ->
    In other channels -> other <> "portal" ->
    exists best backup details,
      recommend_channel kb_payload (Some status) urgency user_pref
      = Ok (Some best, backup, details)
      /\ details_portal_ok details = false
      /\ In best channels
      /\ best <> "portal".
Proof.
  intros kb st urgency pref channels other H Hdown Hother Hne.
  destruct (recommend_channel_eq kb (Some st) urgency pref channels H)
    as (ok & E & Hok).
  assert (ok = false) as -> by (apply Hok; exists st; split; [reflexivity|exact Hdown]).
  clear Hok. cbv zeta in E.
  set (raw := map (fun ch => (ch, score_channel ch urgency false pref)) channels) in *.
  set (sc := sort_desc snd raw) in *.
  assert (Hperm : Permutation sc raw) by apply sort_desc_perm.
  assert (Hsorted : Sorted.StronglySorted (fun a b => snd b <= snd a)%Q sc)
    by apply sort_desc_sorted.
  assert (Hi : In (other, score_channel other urgency false pref) sc).
  { apply (Permutation_in _ (Permutation_sym Hperm)). unfold raw.
    apply in_map_iff. exists other. split; [reflexivity|exact Hother]. }
  destruct sc as [|[t ts] r] eqn:Esc; [destruct Hi|].
  assert (Ht : In (t, ts) raw).
  { apply (Permutation_in _ Hperm). left. reflexivity. }
  unfold raw in Ht. apply in_map_iff in Ht as (c & [= <- <-] & Hc).
  exists c, (map fst ((c, score_channel c urgency false pref) :: r) !! 1%nat),
         {| scored := (c, score_channel c urgency false pref) :: r;
            details_portal_ok := false |}.
  split; [exact E|]. split; [reflexivity|]. split; [exact Hc|].
  intros ->.
  pose proof (sorted_head_max snd _ _ _ Hsorted eq_refl Hi) as Hle. cbn in Hle.
  pose proof (score_portal_down urgency pref) as Hp.
  pose proof (score_other_channel other urgency false pref Hne) as Ho.
  assert (Hlt : (0.2 < 0.3)%Q) by reflexivity.
  apply (Qlt_irrefl 0.2%Q).
  eapply Qlt_le_trans; [exact Hlt|].
  eapply Qle_trans; [exact Ho|]. eapply Qle_trans; [exact Hle|exact Hp].
Qed.

Lemma portal_down_never_best_witness :
  exists best backup details,
    recommend_channel pothole_payload (Some (<["status" := VStr "down"]> ∅))
      "low" (Some "portal")
    = Ok (Some best, backup, details)
    /\ best <> "portal".
Proof.
  destruct (portal_down_never_best pothole_payload (<["status" := VStr "down"]> ∅)
              "low" (Some "portal") ["portal"; "helpline"] "helpline")
    as (best & backup & details & E & _ & _ & Hb).
  - reflexivity.
  - vm_compute. discriminate.
  - right; left; reflexivity.
  - discriminate.
  - exists best, backup, details. split; [exact E|exact Hb].
Defined.

(* ===================================================================== *)
(** ** The lexical index and the retriever (core/hybrid.py)               *)
(* ===================================================================== *)

Lemma lower_token_char (c : ascii) :
  is_token_char c = true -> is_lower_token_char (lower_char c) = true.
Proof.
  destruct c as [[] [] [] [] [] [] [] []]; vm_compute; intros H;
    first [reflexivity | discriminate H].
Qed.

Lemma list_ascii_app (s t : string) :
  list_ascii_of_string (s +:+ t)
  = (list_ascii_of_string s ++ list_ascii_of_string t)%list.
Proof.
  induction s as [|c s IH]; [reflexivity|].
  rewrite append_cons. cbn. f_equal. exact IH.
Qed.

Lemma append_nonempty (s : string) (c : ascii) :
  s +:+ String c EmptyString <> EmptyString.
Proof. destruct s; [rewrite append_nil_l|rewrite append_cons]; discriminate. Qed.

Lemma tokenize_from_tokens (s : string) :
  forall cur t,
    forallb is_lower_token_char (list_ascii_of_string cur) = true ->
    In t (tokenize_from s cur) -> token_ok t.
Proof.
  induction s as [|c r IH]; intros cur t Hcur Hin.
  - cbn in Hin. unfold flush_token in Hin.
    destruct (String.eqb_spec cur EmptyString) as [->|Hne]; [destruct Hin|].
    destruct Hin as [<-|[]]. split; assumption.
  - cbn in Hin. destruct (is_token_char c) eqn:Ec.
    + apply (IH _ _) in Hin; [exact Hin|].
      rewrite list_ascii_app, forallb_app, Hcur. cbn.
      rewrite (lower_token_char c Ec). reflexivity.
    + apply in_app_or in Hin as [Hin|Hin].
      * unfold flush_token in Hin.
        destruct (String.eqb_spec cur EmptyString) as [->|Hne]; [destruct Hin|].
        destruct Hin as [<-|[]]. split; assumption.
      * apply (IH EmptyString t); [reflexivity|exact Hin].
Qed.

Lemma tokenize_from_separator (a : string) :
  forall (cur : string) (c : ascii) (rest : string),
    is_token_char c = false ->
    tokenize_from (a +:+ String c rest) cur
    = (tokenize_from a cur ++ tokenize rest)%list.
Proof.
  induction a as [|x a IH]; intros cur c rest Hc.
  - rewrite append_nil_l. cbn. rewrite Hc. reflexivity.
  - rewrite append_cons. cbn. destruct (is_token_char x).
    + apply IH, Hc.
    + rewrite (IH EmptyString c rest Hc). rewrite app_assoc. reflexivity.
Qed.

Lemma tokenize_from_nil (s : string) :
  forall cur,
    tokenize_from s cur = [] <->
    cur = EmptyString
    /\ forallb (fun c => negb (is_token_char c)) (list_ascii_of_string s) = true.
Proof.
  induction s as [|c r IH]; intros cur.
  - cbn. unfold flush_token.
    destruct (String.eqb_spec cur EmptyString) as [->|Hne]; split.
    + intros _; split; reflexivity.
    + reflexivity.
    + discriminate.
    + intros [E _]. contradiction.
  - cbn. destruct (is_token_char c) eqn:Ec; cbn.
    + rewrite IH. split.
      * intros [E _]. exfalso. exact (append_nonempty _ _ E).
      * intros [_ E]. discriminate.
    + split.
      * intros E. apply app_eq_nil in E as [E1 E2].
        apply IH in E2 as [_ E2]. split; [|exact E2].
        unfold flush_token in E1.
        destruct (String.eqb_spec cur EmptyString); [assumption|discriminate].
      * intros [-> E]. cbn. apply IH. split; [reflexivity|exact E].
Qed.

(** X3. [tokenize] returns the maximal runs of letters, digits and
    underscores in lower case: every token is non-empty and made of
    lower-case letters, digits and underscores only; a character outside
    that class separates, so the tokens of a text cut at such a character
    are the tokens of the two parts; and the result is empty exactly when
    the text has no character of the class. *)
Theorem tokenize_tokens :
  (forall (text t : string),
      In t (tokenize text) ->
      t <> EmptyString
      /\ forallb is_lower_token_char (list_ascii_of_string t) = true)
  /\ (forall (a rest : string) (c : ascii),
        is_token_char c = false ->
        tokenize (a +:+ String c rest) = (tokenize a ++ tokenize rest)%list)
  /\ (forall text : string,
        tokenize text = [] <->
        forallb (fun c => negb (is_token_char c)) (list_ascii_of_string text) = true).
Proof.
  split; [|split].
  - intros text t Hin. exact (tokenize_from_tokens text EmptyString t eq_refl Hin).
  - intros a rest c Hc. exact (tokenize_from_separator a EmptyString c rest Hc).
  - intros text. unfold tokenize. rewrite tokenize_from_nil. tauto.
Qed.

Lemma tokenize_tokens_witness :
  tokenize "Street-Light NOT_working" = ["street"; "light"; "not_working"]
  /\ tokenize ("Street" +:+ String "-" "Light")
     = (tokenize "Street" ++ tokenize "Light")%list.
Proof.
  split; [reflexivity|].
  apply (proj1 (proj2 tokenize_tokens)). reflexivity.
Defined.

Lemma slice_to_incl {A : Type} (l : list A) (n : Z) (x : A) :
  In x (slice_to l n) -> In x l.
Proof. unfold slice_to. destruct (0 <=? n)%Z; apply in_firstn. Qed.

Lemma bm25_order_bound (scores : list Q) (topk : Z) (i : nat) :
  In i (bm25_order scores topk) -> (i < length scores)%nat.
Proof.
  intros H. apply slice_to_incl in H.
  apply (Permutation_in _ (sort_desc_perm _ _)) in H.
  apply in_seq in H. lia.
Qed.

Lemma build_ok_index (docs : list hit) (idx : BM25Index) :
  BM25Index_build docs = Ok idx -> idx = index_of docs /\ tokenless docs = false.
Proof.
  rewrite build_index_cases. destruct (tokenless docs); [discriminate|].
  intros [= <-]. split; reflexivity.
Qed.

Lemma bm25_search_eq get_scores (docs : list hit) (query : string) (topk : Z) :
  docs <> [] ->
  let scores := get_scores (map (fun d => tokenize (hit_text d)) docs)
                           (tokenize query) in
  length scores = length docs ->
  exists out,
    BM25Index_search get_scores (index_of docs) query topk = Ok out
    /\ Forall2 (fun x i => exists d, nth_error docs i = Some d
                                     /\ x = with_bm25_score d (score_at scores i))
               out (bm25_order scores topk).
Proof.
  intros Hne scores Hlen.
  assert (Hi : idx_bm25 (index_of docs)
               = Some (map (fun d => tokenize (hit_text d)) docs))
    by (destruct docs; [contradiction|reflexivity]).
  unfold BM25Index_search. rewrite Hi. clear Hi.
  change (idx_docs (index_of docs)) with docs.
  cbv zeta. fold scores.
  change (slice_to (sort_desc (fun i => match nth_error scores i with
                                        | Some s => s | None => 0%Q end)
                              (seq 0 (length scores))) topk)
    with (bm25_order scores topk).
  assert (Hb : forall i, In i (bm25_order scores topk) -> (i < length docs)%nat)
    by (intros i Hi; rewrite <- Hlen; exact (bm25_order_bound _ _ _ Hi)).
  induction (bm25_order scores topk) as [|i r IH].
  - exists []. split; [reflexivity|constructor].
  - destruct IH as (out & E & F); [intros j Hj; apply Hb; right; exact Hj|].
    assert (Hi : (i < length docs)%nat) by (apply Hb; left; reflexivity).
    destruct (nth_error docs i) as [d|] eqn:En;
      [|apply nth_error_None in En; lia].
    exists (with_bm25_score d (score_at scores i) :: out). split.
    + rewrite E. reflexivity.
    + constructor; [exists d; split; [exact En|reflexivity]|exact F].
Qed.

Lemma firstn_nodup {A : Type} (n : nat) (l : list A) :
  List.NoDup l -> List.NoDup (firstn n l).
Proof.
  revert n. induction l as [|x l IH]; intros [|n] H; cbn; try constructor.
  - inversion H; subst. intros Hin. apply in_firstn in Hin. contradiction.
  - inversion H; subst. apply IH. assumption.
Qed.

Lemma slice_to_nodup {A : Type} (l : list A) (n : Z) :
  List.NoDup l -> List.NoDup (slice_to l n).
Proof. unfold slice_to. destruct (0 <=? n)%Z; apply firstn_nodup. Qed.

Lemma slice_to_sorted {A : Type} (R : A -> A -> Prop) (l : list A) (n : Z) :
  Sorted.StronglySorted R l -> Sorted.StronglySorted R (slice_to l n).
Proof. unfold slice_to. destruct (0 <=? n)%Z; apply firstn_sorted. Qed.

Lemma slice_to_length {A : Type} (l : list A) (n : Z) :
  0 <= n -> length (slice_to l n) = Nat.min (Z.to_nat n) (length l).
Proof.
  intros H. unfold slice_to.
  destruct (Z.leb_spec 0 n); [apply length_firstn|lia].
Qed.

(** In a list in descending order, what follows the first [n] elements is
    no greater than any of them. *)
Lemma firstn_sorted_top {A : Type} (key : A -> Q) (l : list A) (n : nat) (x y : A) :
  Sorted.StronglySorted (fun a b => key b <= key a)%Q l ->
  In x (firstn n l) -> In y (skipn n l) -> (key y <= key x)%Q.
Proof.
  revert n. induction l as [|z l IH]; intros [|n] Hs Hx Hy; cbn in *;
    try contradiction.
  inversion Hs as [|? ? Hs' Hall]; subst.
  destruct Hx as [->|Hx].
  - rewrite List.Forall_forall in Hall. apply Hall.
    rewrite <- (firstn_skipn n l). apply in_or_app. right. exact Hy.
  - exact (IH n Hs' Hx Hy).
Qed.

Lemma forall2_in_l {A B : Type} (P : B -> A -> Prop) (out : list B) (l : list A)
    (y : B) :
  Forall2 P out l -> In y out -> exists j, In j l /\ P y j.
Proof.
  intros F. induction F as [|x i out l Hxi F IH]; intros Hy; [destruct Hy|].
  destruct Hy as [->|Hy].
  - exists i. split; [left; reflexivity|exact Hxi].
  - destruct (IH Hy) as (j & Hj & Pj). exists j. split; [right; exact Hj|exact Pj].
Qed.

Lemma sorted_forall2_map {A B : Type} (R : A -> A -> Prop) (S : B -> B -> Prop)
    (P : B -> A -> Prop) (out : list B) (l : list A) :
  (forall x i y j, P x i -> P y j -> R i j -> S x y) ->
  Forall2 P out l -> Sorted.StronglySorted R l -> Sorted.StronglySorted S out.
Proof.
  intros HP F. induction F as [|x i out l Hxi F IH]; intros Hs; [constructor|].
  inversion Hs as [|? ? Hs' Hall]; subst. constructor; [apply IH, Hs'|].
  rewrite List.Forall_forall in *. intros y Hy.
  destruct (forall2_in_l _ _ _ _ F Hy) as (j & Hj & Pyj). apply (HP x i y j Hxi Pyj). apply Hall, Hj.
Qed.

(** X4. [BM25Index.search] on the index that a build over [docs] has
    left (the build raises when no document has a token), when the scorer
    gives one score per document and [topk] is not negative: the call
    returns min(topk, number of documents) records; each is a copy of an
    indexed document, taken at most once, with its score under
    [bm25_score] and nothing else changed; the records come in descending
    order of that score; and no document left out scores higher than one
    that is returned. *)
Theorem bm25_search_top_scores :
  forall get_scores (docs : list hit) (idx : BM25Index) (query : string)
         (topk : Z),
    let scores := get_scores (map (fun d => tokenize (hit_text d)) docs)
                             (tokenize query) in
    BM25Index_build docs = Ok idx ->
    length scores = length docs ->
    0 <= topk ->
    exists out order,
      BM25Index_search get_scores idx query topk = Ok out
      /\ Forall2 (fun x i => exists d, nth_error docs i = Some d
                                       /\ x = with_bm25_score d (score_at scores i))
                 out order
      /\ List.NoDup order
      /\ length out = Nat.min (Z.to_nat topk) (length docs)
      /\ Sorted.StronglySorted (fun a b => bm25_key b <= bm25_key a)%Q out
      /\ (forall i j, In i order -> (j < length docs)%nat -> ~ In j order ->
                      (score_at scores j <= score_at scores i)%Q).
Proof.
  intros get_scores docs idx query topk scores Hbuild Hlen Htopk.
  destruct (build_ok_index docs idx Hbuild) as [-> _].
  assert (Hd : docs = [] \/ docs <> [])
    by (destruct docs; [left; reflexivity|right; discriminate]).
  destruct Hd as [->|Hne].
  { exists [], []. cbn. repeat split; try constructor.
    - rewrite Nat.min_0_r. reflexivity.
    - intros i j []. }
  destruct (bm25_search_eq get_scores docs query topk Hne Hlen) as (out & E & F).
  fold scores in F.
  set (sorted := sort_desc (score_at scores) (seq 0 (length scores))).
  assert (Hs : Sorted.StronglySorted
                 (fun a b => score_at scores b <= score_at scores a)%Q sorted)
    by apply sort_desc_sorted.
  assert (Hp : Permutation sorted (seq 0 (length scores))) by apply sort_desc_perm.
  assert (Ho : bm25_order scores topk = firstn (Z.to_nat topk) sorted).
  { unfold bm25_order, slice_to. fold sorted.
    destruct (Z.leb_spec 0 topk); [reflexivity|lia]. }
  exists out, (bm25_order scores topk).
  split; [exact E|]. split; [exact F|]. split; [|split; [|split]].
  - apply slice_to_nodup.
    apply (Permutation_NoDup (Permutation_sym Hp)), seq_NoDup.
  - pose proof F as HL. apply Forall2_length in HL.
    rewrite HL, Ho, length_firstn.
    rewrite (Permutation_length Hp), length_seq, Hlen. reflexivity.
  - refine (sorted_forall2_map _ _ _ _ _ _ F (slice_to_sorted _ _ _ Hs)).
    intros x i y j (d & _ & ->) (d' & _ & ->) Hij. exact Hij.
  - intros i j Hi Hj Hnj. rewrite Ho in Hi, Hnj.
    apply (firstn_sorted_top _ sorted (Z.to_nat topk)); [exact Hs|exact Hi|].
    assert (Hin : In j sorted).
    { apply (Permutation_in _ (Permutation_sym Hp)). apply in_seq. lia. }
    rewrite <- (firstn_skipn (Z.to_nat topk) sorted) in Hin.
    apply in_app_or in Hin as [Hin|Hin]; [contradiction|exact Hin].
Qed.

Lemma bm25_search_top_scores_witness :
  exists out,
    BM25Index_search overlap_scores (index_of example_docs)
      "streetlight not working" 2 = Ok out
    /\ map hit_id out = [2; 3]
    /\ map hit_bm25_score out = [Some 3%Q; Some 1%Q].
Proof.
  destruct (bm25_search_top_scores overlap_scores example_docs
              (index_of example_docs) "streetlight not working" 2)
    as (out & order & E & _); [reflexivity|reflexivity|lia|].
  exists out. split; [exact E|].
  vm_compute in E. injection E as <-. split; reflexivity.
Defined.

Lemma build_cases (b : backend) (clock : Q) (collection : string)
    (flt : filter_json) (limit : Z) (c : cache) :
  (exists e, build_bm25_from_qdrant b clock collection flt limit c
             = (Ok tt, <[_key collection flt := e]> c)
             /\ built_index (entry_idx e) /\ entry_built_at e = clock)
  \/ (exists x, build_bm25_from_qdrant b clock collection flt limit c = (Raise x, c)).
Proof.
  unfold build_bm25_from_qdrant. destruct (reachable b).
  - destruct (scroll_loop _ _ _ _ _ _ _ _) as [docs|].
    + destruct (BM25Index_build docs) as [idx|x] eqn:E.
      * left. eexists. split; [reflexivity|].
        split; [exists docs; exact E|reflexivity].
      * right. eexists. reflexivity.
    + right. eexists. reflexivity.
  - right. eexists. reflexivity.
Qed.

Lemma get_or_build_cases (b : backend) (clock : Q) (collection : string)
    (flt : filter_json) (c : cache) :
  (exists e, _get_or_build b clock collection flt c
             = (Ok (Some (entry_idx e)), <[_key collection flt := e]> c)
             /\ built_index (entry_idx e) /\ entry_built_at e = clock)
  \/ (exists current, c !! _key collection flt = Some current
                      /\ _get_or_build b clock collection flt c
                         = (Ok (Some (entry_idx current)), c))
  \/ (exists x, _get_or_build b clock collection flt c = (Raise x, c)).
Proof.
  unfold _get_or_build.
  destruct (c !! _key collection flt) as [current|] eqn:Ec.
  - destruct (_count b collection flt) as [qcount|x].
    + destruct (_ && _)%bool.
      * destruct (build_cases b clock collection flt 5000 c)
          as [(e & -> & He)|(x & ->)].
        -- left. exists e. rewrite lookup_insert_eq. split; [reflexivity|exact He].
        -- right. right. exists x. reflexivity.
      * right. left. exists current. split; reflexivity.
    + right. right. exists x. reflexivity.
  - destruct (build_cases b clock collection flt 5000 c)
      as [(e & -> & He)|(x & ->)].
    + left. exists e. rewrite lookup_insert_eq. split; [reflexivity|exact He].
    + right. right. exists x. reflexivity.
Qed.

(** X5. The retriever touches one cache entry only: after
    [build_bm25_from_qdrant], [_get_or_build] or [search] for a collection
    and a filter, whether the call returns or raises, the entry of every
    other key of the cache is what it was before; and a call that raises
    leaves the whole cache as it was. *)
Theorem retriever_cache_frame :
  forall get_scores (b : backend) (clock : Q) (collection query : string)
         (flt : filter_json) (limit topk : Z) (c : cache) (other : cache_key),
    other <> _key collection flt ->
    snd (build_bm25_from_qdrant b clock collection flt limit c) !! other = c !! other
    /\ snd (_get_or_build b clock collection flt c) !! other = c !! other
    /\ snd (HybridRetriever_search get_scores b clock collection query flt topk c)
         !! other = c !! other
    /\ (forall x, fst (build_bm25_from_qdrant b clock collection flt limit c) = Raise x ->
                  snd (build_bm25_from_qdrant b clock collection flt limit c) = c)
    /\ (forall x, fst (_get_or_build b clock collection flt c) = Raise x ->
                  snd (_get_or_build b clock collection flt c) = c).
Proof.
  intros gs b clock collection query flt limit topk c other Hne.
  assert (Hg : snd (_get_or_build b clock collection flt c) !! other = c !! other).
  { destruct (get_or_build_cases b clock collection flt c)
      as [(e & -> & _)|[(cur & _ & ->)|(x & ->)]]; cbn [snd];
      [apply lookup_insert_ne; congruence|reflexivity|reflexivity]. }
  split; [|split; [exact Hg|split; [|split]]].
  - destruct (build_cases b clock collection flt limit c)
      as [(e & -> & _)|(x & ->)]; cbn [snd];
      [apply lookup_insert_ne; congruence|reflexivity].
  - unfold HybridRetriever_search.
    destruct (qdrant_dense_search _ _ _ _ _); [|reflexivity].
    destruct (_get_or_build b clock collection flt c) as [[bm|x] c']; exact Hg.
  - intros x. destruct (build_cases b clock collection flt limit c)
      as [(e & -> & _)|(y & ->)]; cbn [fst snd]; [discriminate|reflexivity].
  - intros x. destruct (get_or_build_cases b clock collection flt c)
      as [(e & -> & _)|[(cur & _ & ->)|(y & ->)]]; cbn [fst snd];
      [discriminate|reflexivity|reflexivity].
Qed.

Lemma retriever_cache_frame_witness :
  snd (HybridRetriever_search unit_scores (example_backend 9 9) 1
         "case_library" "streetlight" None 8 (example_cache 5))
    !! _key "civic_kb" None
  = Some (example_entry 5).
Proof.
  destruct (retriever_cache_frame unit_scores (example_backend 9 9) 1
              "case_library" "streetlight" None 5000 8 (example_cache 5)
              (_key "civic_kb" None)) as (_ & _ & H & _).
  - discriminate.
  - rewrite H. unfold example_cache. apply lookup_insert_eq.
Defined.

Lemma count_ok (b : backend) (collection : string) (flt : filter_json) :
  reachable b = true ->
  _count b collection flt
  = Ok (match count_api b collection flt with
        | Some n => n
        | None => match stored b collection flt with [] => 0 | _ => 1 end
        end).
Proof.
  intros H. unfold _count. rewrite H.
  destruct (count_api b collection flt); [reflexivity|].
  unfold client_scroll. cbn [fst].
  destruct (stored b collection flt); reflexivity.
Qed.

Lemma built_entry_index (b : backend) (clock : Q) (collection : string)
    (flt : filter_json) :
  tokenless (built_docs b collection flt 5000) = false ->
  built_index (entry_idx (built_entry b clock collection flt)).
Proof.
  intros Ht. exists (built_docs b collection flt 5000).
  rewrite build_index_cases, Ht. reflexivity.
Qed.

Lemma get_or_build_reachable (b : backend) (clock : Q) (collection : string)
    (flt : filter_json) (c : cache) :
  reachable b = true ->
  tokenless (built_docs b collection flt 5000) = false ->
  (forall e, c !! _key collection flt = Some e -> built_index (entry_idx e)) ->
  exists e c',
    _get_or_build b clock collection flt c = (Ok (Some (entry_idx e)), c')
    /\ c' !! _key collection flt = Some e
    /\ built_index (entry_idx e)
    /\ (c' = c \/ c' = <[_key collection flt := e]> c).
Proof.
  intros Hr Ht Hc. unfold _get_or_build.
  rewrite (lookup_after_build b clock collection flt c Hr), Ht.
  pose proof (built_entry_index b clock collection flt Ht) as Hb.
  destruct (c !! _key collection flt) as [current|] eqn:Ec.
  - rewrite (count_ok b collection flt Hr).
    destruct (_ && _)%bool.
    + exists (built_entry b clock collection flt). eexists.
      split; [reflexivity|]. split; [apply lookup_insert_eq|].
      split; [exact Hb|right; reflexivity].
    + exists current, c. split; [reflexivity|]. split; [exact Ec|].
      split; [apply Hc; reflexivity|left; reflexivity].
  - exists (built_entry b clock collection flt). eexists.
    split; [reflexivity|]. split; [apply lookup_insert_eq|].
    split; [exact Hb|right; reflexivity].
Qed.

Lemma tenth_one : tenth 1 = 0.
Proof. reflexivity. Qed.

(** X6. When the database is reachable and its count call raises,
    [_count] falls back to one scrolled point and answers 1 when a point
    matches the filter and 0 when none does. [_get_or_build] then rebuilds
    a cached index exactly when the collection is not empty and the entry
    was built from four documents or more (the rebuild raises when no
    fetched document has a token); otherwise the cached index is returned
    and the cache is left as it is. *)
Theorem count_fallback_is_presence :
  forall (b : backend) (clock : Q) (collection : string) (flt : filter_json),
    reachable b = true ->
    count_api b collection flt = None ->
    _count b collection flt
    = Ok (match stored b collection flt with [] => 0 | _ => 1 end)
    /\ forall (c : cache) (current : cache_entry),
         c !! _key collection flt = Some current ->
         0 <= entry_count current ->
         _get_or_build b clock collection flt c
         = if match stored b collection flt with [] => false | _ => true end
              && (4 <=? entry_count current)%Z
           then
             if tokenless (built_docs b collection flt 5000)
             then (Raise ZeroDivisionError, c)
             else (Ok (Some (entry_idx (built_entry b clock collection flt))),
                   <[_key collection flt := built_entry b clock collection flt]> c)
           else (Ok (Some (entry_idx current)), c).
Proof.
  intros b clock collection flt Hr Hn.
  pose proof (count_ok b collection flt Hr) as Hc. rewrite Hn in Hc.
  split; [exact Hc|].
  intros c current Ec Hpos. unfold _get_or_build. rewrite Ec, Hc.
  rewrite (lookup_after_build b clock collection flt c Hr).
  destruct (stored b collection flt) as [|p ps].
  - reflexivity.
  - cbn [andb]. rewrite tenth_one.
    replace (Z.max 3 0 <=? Z.abs (1 - entry_count current))%Z
      with (4 <=? entry_count current)%Z; [reflexivity|].
    destruct (Z.leb_spec 4 (entry_count current)),
             (Z.leb_spec (Z.max 3 0) (Z.abs (1 - entry_count current)));
      try reflexivity; lia.
Qed.

Lemma count_fallback_is_presence_witness :
  _count (uncounted_backend 9) "civic_kb" None = Ok 1
  /\ _get_or_build (uncounted_backend 9) 1 "civic_kb" None (example_cache 3)
     = (Ok (Some (entry_idx (example_entry 3))), example_cache 3).
Proof.
  destruct (count_fallback_is_presence (uncounted_backend 9) 1 "civic_kb" None
              eq_refl eq_refl) as [H1 H2].
  split; [exact H1|].
  rewrite (H2 (example_cache 3) (example_entry 3)).
  - reflexivity.
  - apply lookup_insert_eq.
  - vm_compute. discriminate.
Defined.

Lemma built_docs_all (b : backend) (collection : string) (flt : filter_json) :
  Z.of_nat (length (stored b collection flt)) <= 5000 ->
  built_docs b collection flt 5000 = map doc_of_point (stored b collection flt).
Proof.
  intros H. unfold built_docs. f_equal. apply firstn_all2. lia.
Qed.

(** X7. A first lookup builds and a second one reuses: when the database
    is reachable, holds at most 5000 matching points, not all of them
    without a token, and counts them exactly, [_get_or_build] on a cache
    without the key returns an index over all the matching points and
    records their number; a later lookup on the resulting cache returns
    that same index and leaves the cache unchanged. *)
Theorem get_or_build_reuse :
  forall (b : backend) (clock clock' : Q) (collection : string)
         (flt : filter_json) (c : cache),
    reachable b = true ->
    count_api b collection flt
    = Some (Z.of_nat (length (stored b collection flt))) ->
    Z.of_nat (length (stored b collection flt)) <= 5000 ->
    tokenless (map doc_of_point (stored b collection flt)) = false ->
    c !! _key collection flt = None ->
    exists idx c1,
      _get_or_build b clock collection flt c = (Ok (Some idx), c1)
      /\ idx_docs idx = map doc_of_point (stored b collection flt)
      /\ (entry_count <$> c1 !! _key collection flt)
         = Some (Z.of_nat (length (stored b collection flt)))
      /\ _get_or_build b clock' collection flt c1 = (Ok (Some idx), c1).
Proof.
  intros b clock clock' collection flt c Hr Hcount Hlen Htok Hmiss.
  exists (entry_idx (built_entry b clock collection flt)),
         (<[_key collection flt := built_entry b clock collection flt]> c).
  assert (Ht : tokenless (built_docs b collection flt 5000) = false)
    by (rewrite (built_docs_all b collection flt Hlen); exact Htok).
  assert (Hn : entry_count (built_entry b clock collection flt)
               = Z.of_nat (length (stored b collection flt))).
  { unfold built_entry. cbn [entry_count].
    rewrite (built_docs_all b collection flt Hlen), length_map. reflexivity. }
  split; [|split; [|split]].
  - unfold _get_or_build. rewrite Hmiss.
    rewrite (lookup_after_build b clock collection flt c Hr), Ht. reflexivity.
  - unfold built_entry. cbn [entry_idx]. unfold index_of. cbn [idx_docs].
    apply built_docs_all, Hlen.
  - rewrite lookup_insert_eq. cbn. f_equal. exact Hn.
  - unfold _get_or_build. rewrite lookup_insert_eq.
    rewrite (count_ok b collection flt Hr), Hcount, Hn.
    rewrite Z.sub_diag. change (Z.abs 0) with 0.
    replace (Z.max 3 (tenth (Z.of_nat (length (stored b collection flt)))) <=? 0)%Z
      with false; [rewrite andb_false_r; reflexivity|].
    symmetry. apply Z.leb_gt. lia.
Qed.

Lemma get_or_build_reuse_witness :
  exists idx c1,
    _get_or_build (example_backend 9 9) 1 "civic_kb" None ∅ = (Ok (Some idx), c1)
    /\ _get_or_build (example_backend 9 9) 2 "civic_kb" None c1 = (Ok (Some idx), c1).
Proof.
  destruct (get_or_build_reuse (example_backend 9 9) 1 2 "civic_kb" None ∅)
    as (idx & c1 & E1 & _ & _ & E2).
  - reflexivity.
  - reflexivity.
  - vm_compute. discriminate.
  - reflexivity.
  - reflexivity.
  - exists idx, c1. split; assumption.
Defined.

(** X8. A build stops at 5000 documents, so the recorded count of a
    larger collection is 5000. When the database counts 5555 matching
    points or more, the drift between the live count and that recorded
    count always reaches the threshold: every [_get_or_build] on a cache
    that holds the entry of an earlier build builds again and, when the
    build returns, stores a fresh entry stamped with the current time. *)
Theorem get_or_build_rebuilds_beyond_cap :
  forall (b : backend) (clock clock' : Q) (collection : string)
         (flt : filter_json) (c : cache),
    reachable b = true ->
    count_api b collection flt
    = Some (Z.of_nat (length (stored b collection flt))) ->
    5555 <= Z.of_nat (length (stored b collection flt)) ->
    tokenless (built_docs b collection flt 5000) = false ->
    c !! _key collection flt = Some (built_entry b clock collection flt) ->
    entry_count (built_entry b clock collection flt) = 5000
    /\ _get_or_build b clock' collection flt c
       = (Ok (Some (entry_idx (built_entry b clock' collection flt))),
          <[_key collection flt := built_entry b clock' collection flt]> c)
    /\ entry_built_at (built_entry b clock' collection flt) = clock'.
Proof.
  intros b clock clock' collection flt c Hr Hcount Hlen Ht Hc.
  assert (Hn : entry_count (built_entry b clock collection flt) = 5000).
  { unfold built_entry. cbn [entry_count]. unfold built_docs.
    rewrite length_map, length_firstn. lia. }
  split; [exact Hn|]. split; [|reflexivity].
  unfold _get_or_build. rewrite Hc, (count_ok b collection flt Hr), Hcount, Hn.
  rewrite (lookup_after_build b clock' collection flt c Hr), Ht.
  set (n := Z.of_nat (length (stored b collection flt))).
  assert (Hn5 : 5555 <= n) by exact Hlen.
  rewrite (tenth_div n) by lia.
  replace (0 <? n)%Z with true by (symmetry; apply Z.ltb_lt; lia).
  replace (Z.max 3 (n / 10) <=? Z.abs (n - 5000))%Z with true; [reflexivity|].
  symmetry. apply Z.leb_le.
  assert (n / 10 < n - 4999) by (apply Z.div_lt_upper_bound; lia).
  lia.
Qed.

Lemma get_or_build_rebuilds_beyond_cap_witness :
  entry_built_at
    <$> snd (_get_or_build (example_backend 6000 (Z.to_nat 6000)) 2 "civic_kb" None
               (<[_key "civic_kb" None
                  := built_entry (example_backend 6000 (Z.to_nat 6000)) 1
                       "civic_kb" None]> ∅))
        !! _key "civic_kb" None
  = Some 2%Q.
Proof.
  set (b := example_backend 6000 (Z.to_nat 6000)).
  destruct (get_or_build_rebuilds_beyond_cap b 1 2 "civic_kb" None
              (<[_key "civic_kb" None := built_entry b 1 "civic_kb" None]> ∅))
    as (_ & E & _).
  - reflexivity.
  - unfold b. cbn [example_backend count_api stored].
    rewrite length_map, length_seq, Z2Nat.id by lia. reflexivity.
  - unfold b. cbn [example_backend stored].
    rewrite length_map, length_seq, Z2Nat.id by lia. lia.
  - unfold b, built_docs. cbn [example_backend stored].
    replace (Z.to_nat 6000) with (S (Z.to_nat 5999)) by lia.
    replace (Z.to_nat (Z.max 1 5000)) with (S (Z.to_nat 4999)) by lia.
    reflexivity.
  - apply lookup_insert_eq.
  - rewrite E. cbn [snd]. rewrite lookup_insert_eq. reflexivity.
Defined.

Lemma bm25_search_built get_scores (idx : BM25Index) (query : string) (topk : Z) :
  (forall corpus q, length (get_scores corpus q) = length corpus) ->
  built_index idx ->
  exists out,
    BM25Index_search get_scores idx query topk = Ok out
    /\ forall x, In x out ->
         exists d s, In d (idx_docs idx) /\ x = with_bm25_score d s.
Proof.
  intros Hgs (docs & Hb). destruct (build_ok_index docs idx Hb) as [-> _].
  assert (Hd : docs = [] \/ docs <> [])
    by (destruct docs; [left; reflexivity|right; discriminate]).
  destruct Hd as [->|Hne].
  - exists []. split; [apply search_empty_index|intros x []].
  - destruct (bm25_search_eq get_scores docs query topk Hne) as (out & E & F).
    { rewrite Hgs. apply length_map. }
    exists out. split; [exact E|]. intros x Hx.
    destruct (forall2_in_l _ _ _ _ F Hx) as (i & _ & d & Hd & ->).
    exists d. eexists. split; [exact (nth_error_In _ _ Hd)|reflexivity].
Qed.

Lemma enumerate_from_In (rank : Z) (l : list hit) (rd : Z * hit) :
  In rd (enumerate_from rank l) -> In (snd rd) l.
Proof.
  revert rank. induction l as [|d l IH]; intros rank H; [destruct H|].
  destruct H as [<-|H]; [left; reflexivity|right; exact (IH _ H)].
Qed.

Lemma fused_top_properties (lists : list (list hit)) (topk : Z) :
  0 <= topk ->
  exists hits,
    rrf_fuse lists 60 topk = Ok hits
    /\ (length hits <= Z.to_nat topk)%nat
    /\ List.NoDup (map hit_id hits)
    /\ (forall h, In h hits -> exists s, hit_rrf_score h = Some s)
    /\ Sorted.StronglySorted rrf_desc hits
    /\ (forall h, In h hits ->
          exists l d, In l lists /\ In d l /\ hit_id d = hit_id h).
Proof.
  intros Htopk.
  rewrite (rrf_fuse_records lists 60 topk) by lia.
  set (occ := occurrences lists).
  set (sorted := sort_desc rrf_key (fused_records 60 occ)).
  assert (Hp : Permutation sorted (fused_records 60 occ)) by apply sort_desc_perm.
  assert (Hs : Sorted.StronglySorted rrf_desc sorted) by apply sort_desc_sorted.
  exists (slice_to sorted topk). split; [reflexivity|].
  split; [rewrite slice_to_length by exact Htopk; lia|].
  assert (Hin : forall h, In h (slice_to sorted topk) -> In h (fused_records 60 occ)).
  { intros h Hh. apply (Permutation_in _ Hp). exact (slice_to_incl _ _ _ Hh). }
  split; [|split; [|split]].
  - unfold slice_to. destruct (0 <=? topk)%Z;
      rewrite <- firstn_map; apply firstn_nodup;
      apply (Permutation_NoDup (Permutation_sym (Permutation_map hit_id Hp)));
      rewrite fused_records_ids; apply seen_ids_nodup.
  - intros h Hh. apply Hin in Hh.
    destruct (fused_records_last_seen 60 occ h Hh) as (d & _ & ->).
    eexists. reflexivity.
  - apply slice_to_sorted, Hs.
  - intros h Hh. apply Hin in Hh.
    assert (Hid : In (hit_id h) (seen_ids occ)).
    { rewrite <- (fused_records_ids 60 occ). apply in_map, Hh. }
    apply seen_ids_occurs in Hid as (rd & Hrd & Eid).
    unfold occ, occurrences in Hrd. apply in_concat in Hrd as (e & He & Hrd).
    apply in_map_iff in He as (l & <- & Hl).
    exists l, (snd rd). split; [exact Hl|].
    split; [exact (enumerate_from_In _ _ _ Hrd)|exact Eid].
Qed.

(** X9. [HybridRetriever.search] on a reachable database returns, and
    does not raise, when the scorer gives one score per document, [topk]
    is not negative, the documents that a build fetches are none or have
    a token among them, and the cached index, if any, was left by a
    build. The result has at most [topk] records with pairwise distinct
    ids, each with an [rrf_score], in descending order of that score; the
    id of each is the id of a dense hit or of a document of the index that
    the cache holds afterwards. When instead the key is not cached and no
    fetched document has a token, the search raises ZeroDivisionError and
    leaves the cache as it was. *)
Theorem hybrid_search_total :
  forall get_scores (b : backend) (clock : Q) (collection query : string)
         (flt : filter_json) (topk : Z) (c : cache),
    reachable b = true ->
    (tokenless (built_docs b collection flt 5000) = false ->
     (forall corpus q, length (get_scores corpus q) = length corpus) ->
     0 <= topk ->
     (forall e, c !! _key collection flt = Some e -> built_index (entry_idx e)) ->
     exists hits c' e,
       HybridRetriever_search get_scores b clock collection query flt topk c
       = (Ok hits, c')
       /\ c' !! _key collection flt = Some e
       /\ built_index (entry_idx e)
       /\ (length hits <= Z.to_nat topk)%nat
       /\ List.NoDup (map hit_id hits)
       /\ (forall h, In h hits -> exists s, hit_rrf_score h = Some s)
       /\ Sorted.StronglySorted rrf_desc hits
       /\ (forall h, In h hits ->
             In (hit_id h) (map hit_id (dense b collection query flt topk))
             \/ In (hit_id h) (map hit_id (idx_docs (entry_idx e)))))
    /\ (tokenless (built_docs b collection flt 5000) = true ->
        c !! _key collection flt = None ->
        HybridRetriever_search get_scores b clock collection query flt topk c
        = (Raise ZeroDivisionError, c)).
Proof.
  intros gs b clock collection query flt topk c Hr. split.
  - intros Ht Hgs Htopk Hc.
    destruct (get_or_build_reachable b clock collection flt c Hr Ht Hc)
      as (e & c' & Eg & Ec' & Hbi & _).
    destruct (bm25_search_built gs (entry_idx e) query topk Hgs Hbi)
      as (sparse & Es & Hsp).
    destruct (fused_top_properties [dense b collection query flt topk; sparse]
                topk Htopk)
      as (hits & Ef & Hlen & Hnd & Hsc & Hso & Hfrom).
    exists hits, c', e.
    split.
    { unfold HybridRetriever_search, qdrant_dense_search. rewrite Hr, Eg.
      unfold search_combine. rewrite Es. cbn [bind]. rewrite Ef. reflexivity. }
    split; [exact Ec'|]. split; [exact Hbi|].
    split; [exact Hlen|]. split; [exact Hnd|]. split; [exact Hsc|].
    split; [exact Hso|].
    intros h Hh. destruct (Hfrom h Hh) as (l & d & Hl & Hd & Eid).
    destruct Hl as [<-|[<-|[]]].
    + left. rewrite <- Eid. apply in_map, Hd.
    + right. destruct (Hsp d Hd) as (d' & s & Hd' & ->).
      rewrite <- Eid. cbn. apply in_map, Hd'.
  - intros Ht Hc.
    unfold HybridRetriever_search, qdrant_dense_search. rewrite Hr.
    unfold _get_or_build. rewrite Hc.
    rewrite (lookup_after_build b clock collection flt c Hr), Ht. reflexivity.
Qed.

Lemma hybrid_search_total_witness :
  (exists hits c',
      HybridRetriever_search overlap_scores (example_backend 3 3) 1
        "civic_kb" "streetlight" None 2 ∅ = (Ok hits, c')
      /\ map hit_id hits = [1; 2])
  /\ HybridRetriever_search overlap_scores (blank_backend 3 3) 1
       "civic_kb" "streetlight" None 2 ∅ = (Raise ZeroDivisionError, ∅).
Proof.
  destruct (hybrid_search_total overlap_scores (example_backend 3 3) 1
              "civic_kb" "streetlight" None 2 ∅ eq_refl) as [H _].
  destruct (hybrid_search_total overlap_scores (blank_backend 3 3) 1
              "civic_kb" "streetlight" None 2 ∅ eq_refl) as [_ K].
  split.
  - destruct H as (hits & c' & e & E & _).
    + reflexivity.
    + intros corpus q. apply length_map.
    + lia.
    + intros e He. rewrite lookup_empty in He. discriminate.
    + exists hits, c'. split; [exact E|].
      assert (F : fst (HybridRetriever_search overlap_scores (example_backend 3 3) 1
                         "civic_kb" "streetlight" None 2 ∅) = Ok hits)
        by (rewrite E; reflexivity).
      vm_compute in F. injection F as <-. reflexivity.
  - apply K; reflexivity.
Defined.

(* ===================================================================== *)
(** ** Snippets (core/response.py)                                        *)
(* ===================================================================== *)

Lemma length_app_str (s t : string) :
  String.length (s +:+ t) = (String.length s + String.length t)%nat.
Proof.
  induction s as [|c s IH]; [rewrite append_nil_l; reflexivity|].
  rewrite append_cons. cbn. rewrite IH. reflexivity.
Qed.

Lemma substring_all (s : string) (n : nat) :
  (String.length s <= n)%nat -> String.substring 0 n s = s.
Proof.
  revert n. induction s as [|c s IH]; intros [|n] H; cbn in *;
    try reflexivity; try lia.
  f_equal. apply IH. lia.
Qed.

Lemma length_substring_0 (s : string) (n : nat) :
  String.length (String.substring 0 n s) = Nat.min n (String.length s).
Proof.
  revert n. induction s as [|c s IH]; intros [|n]; cbn; try reflexivity.
  rewrite IH. reflexivity.
Qed.

Lemma substring_app_prefix (s t : string) (n : nat) :
  (n <= String.length s)%nat ->
  String.substring 0 n (s +:+ t) = String.substring 0 n s.
Proof.
  revert s. induction n as [|n IH]; intros s H.
  - destruct s; [rewrite append_nil_l|rewrite append_cons]; cbn;
      [destruct t|]; reflexivity.
  - destruct s as [|c s]; [cbn in H; lia|].
    rewrite append_cons. cbn. f_equal. apply IH. cbn in H. lia.
Qed.

(** X10. [snippet(txt, n)] returns a text of at most [n] characters
    unchanged; a longer text gives [n + 3] characters that end in three
    dots; the result never has more than [n + 3] characters and its first
    [n] characters are the first [n] characters of the text. *)
Theorem snippet_bounds :
  forall (txt : string) (n : nat),
    ((String.length txt <= n)%nat -> snippet txt n = txt)
    /\ ((n < String.length txt)%nat ->
        String.length (snippet txt n) = (n + 3)%nat
        /\ endswith (snippet txt n) "..." = true)
    /\ (String.length (snippet txt n) <= n + 3)%nat
    /\ String.substring 0 n (snippet txt n) = String.substring 0 n txt.
Proof.
  intros txt n. unfold snippet.
  destruct (String.eqb_spec txt EmptyString) as [->|Hne].
  { split; [reflexivity|]. split; [cbn; lia|]. split; [cbn; lia|].
    destruct n; reflexivity. }
  destruct (Nat.ltb_spec n (String.length txt)) as [Hlt|Hge].
  - split; [lia|]. rewrite length_app_str, length_substring_0.
    split; [intros _; split; [cbn; lia|]|split; [cbn; lia|]].
    + apply endswith_suffix. eexists. reflexivity.
    + rewrite substring_app_prefix.
      * rewrite substring_all; [reflexivity|]. rewrite length_substring_0. lia.
      * rewrite length_substring_0. lia.
  - rewrite (substring_all txt n Hge).
    assert (E : txt +:+ EmptyString = txt).
    { clear. induction txt as [|c s IH]; [reflexivity|].
      rewrite append_cons, IH. reflexivity. }
    rewrite E. split; [reflexivity|]. split; [lia|]. split; [lia|].
    apply substring_all, Hge.
Qed.

Lemma snippet_bounds_witness :
  snippet "Pothole" 240 = "Pothole"
  /\ String.length (snippet "Pothole near the school gate" 7) = 10%nat.
Proof.
  split.
  - apply (proj1 (snippet_bounds "Pothole" 240)). cbn. lia.
  - apply (proj1 (proj2 (snippet_bounds "Pothole near the school gate" 7))).
    cbn. lia.
Defined.

(* ===================================================================== *)
(** ** core/rerank.py and the reranking step of the agent                 *)
(* ===================================================================== *)

Lemma assign_rerank_ids (docs : list hit) (scores : list Q) :
  map hit_id (assign_rerank_scores docs scores) = map hit_id docs.
Proof.
  revert scores. induction docs as [|d r IH]; intros [|s t]; cbn; try reflexivity.
  f_equal. apply IH.
Qed.

Lemma assign_rerank_combine (docs : list hit) (scores : list Q) :
  length scores = length docs ->
  assign_rerank_scores docs scores
  = map (fun ds => with_rerank_score (fst ds) (snd ds)) (combine docs scores).
Proof.
  revert scores. induction docs as [|d r IH]; intros [|s t] H; cbn in *;
    try discriminate; try reflexivity.
  f_equal. apply IH. lia.
Qed.

Lemma combine_nth_error {A B : Type} (l : list A) (k : list B) (i : nat)
    (a : A) (b : B) :
  nth_error l i = Some a -> nth_error k i = Some b -> In (a, b) (combine l k).
Proof.
  revert i k. induction l as [|x l IH]; intros [|i] [|y k] Ha Hb; cbn in *;
    try discriminate.
  - injection Ha as ->. injection Hb as ->. left. reflexivity.
  - right. exact (IH i k Ha Hb).
Qed.

(** X11. [CrossEncoderReranker.rerank] keeps the documents and orders
    them: the ids of the result are the ids of the input rearranged, and
    the result is in descending order of [rerank_score] (0.0 where a
    document has none). When the model returns one score per document,
    the result is the input with each document's score attached,
    rearranged; every document carries a [rerank_score]; and the first
    one carries a score that no score of the model exceeds. *)
Theorem cross_encoder_rerank_order :
  forall (predict : list (string * string) -> list Q) (query : string)
         (docs : list hit),
    let scores := predict (map (fun d => (query, hit_text d)) docs) in
    let out := CrossEncoderReranker_rerank predict query docs in
    Permutation (map hit_id out) (map hit_id docs)
    /\ Sorted.StronglySorted rerank_desc out
    /\ (length scores = length docs ->
        Permutation out
          (map (fun ds => with_rerank_score (fst ds) (snd ds)) (combine docs scores))
        /\ (forall x, In x out -> exists s, hit_rerank_score x = Some s)
        /\ (forall top, head out = Some top ->
              forall s, In s scores -> (s <= rerank_key top)%Q)).
Proof.
  intros predict query docs scores out.
  assert (Hout : out = sort_desc rerank_key (assign_rerank_scores docs scores)).
  { unfold out, CrossEncoderReranker_rerank. destruct docs; reflexivity. }
  assert (Hp : Permutation out (assign_rerank_scores docs scores))
    by (rewrite Hout; apply sort_desc_perm).
  assert (Hs : Sorted.StronglySorted rerank_desc out)
    by (rewrite Hout; apply sort_desc_sorted).
  split; [rewrite <- (assign_rerank_ids docs scores); apply Permutation_map, Hp|].
  split; [exact Hs|].
  intros Hlen.
  assert (Ha : assign_rerank_scores docs scores
               = map (fun ds => with_rerank_score (fst ds) (snd ds))
                     (combine docs scores)).
    by (apply assign_rerank_combine, Hlen).
  split; [rewrite <- Ha; exact Hp|]. split.
  - intros x Hx. apply (Permutation_in _ Hp) in Hx. rewrite Ha in Hx.
    apply in_map_iff in Hx as (ds & <- & _). eexists. reflexivity.
  - intros top Htop s Hsin.
    apply (In_nth_error) in Hsin as (i & Hi).
    assert (Hlt : (i < length docs)%nat).
    { rewrite <- Hlen. apply nth_error_Some. rewrite Hi. discriminate. }
    destruct (nth_error docs i) as [d|] eqn:Ed;
      [|apply nth_error_None in Ed; lia].
    assert (Hin : In (with_rerank_score d s) out).
    { apply (Permutation_in _ (Permutation_sym Hp)). rewrite Ha.
      apply in_map_iff. exists (d, s). split; [reflexivity|].
      exact (combine_nth_error docs scores i d s Ed Hi). }
    exact (sorted_head_max rerank_key out top _ Hs Htop Hin).
Qed.

Lemma cross_encoder_rerank_order_witness :
  map hit_id (CrossEncoderReranker_rerank length_predict "streetlight" example_docs)
  = [2; 3; 1]
  /\ forall x,
       In x (CrossEncoderReranker_rerank length_predict "streetlight" example_docs) ->
       exists s, hit_rerank_score x = Some s.
Proof.
  split; [reflexivity|].
  apply (proj2 (proj2 (cross_encoder_rerank_order length_predict "streetlight"
                         example_docs))).
  reflexivity.
Defined.

Lemma assist_new_cases rank ck store rq rt res store' :
  assist_new rank ck store rq rt = Ok (res, store') ->
  exists g,
    assist_prelude rank store rq rt = Ok g
    /\ ((g_missing g <> [] /\ auto_submit rq = false
         /\ res = NeedMoreInfo (ask_more rq rt g) /\ store' = store)
        \/ ((g_missing g = [] \/ auto_submit rq = true)
            /\ exists d, res = FinalDecision d
                         /\ finalize rank ck store rq rt g = Ok (d, store'))).
Proof.
  unfold assist_new. intros H.
  destruct (assist_prelude rank store rq rt) as [g|e] eqn:Hg; simpl in H;
    [|discriminate].
  exists g. split; [reflexivity|].
  destruct (g_missing g) as [|m ms] eqn:Em; cbn [andb] in H.
  - right. split; [left; reflexivity|].
    destruct (finalize rank ck store rq rt g) as [[d st]|e]; simpl in H;
      [|discriminate].
    injection H as <- <-. exists d. split; reflexivity.
  - destruct (auto_submit rq) eqn:Ea; cbn [negb] in H.
    + right. split; [right; reflexivity|].
      destruct (finalize rank ck store rq rt g) as [[d st]|e]; simpl in H;
        [|discriminate].
      injection H as <- <-. exists d. split; reflexivity.
    + left. injection H as <- <-. repeat split. discriminate.
Qed.

Lemma finalize_fields rank ck store rq rt g d store' :
  finalize rank ck store rq rt g = Ok (d, store') ->
  dec_evidence d
  = final_evidence (g_kb_top g) (r_dir_hits rt)
      (if issue_photo rq then r_image_hits rt else [])
  /\ dec_confidence d = assist_confidence (g_kb_top g)
  /\ dec_best_channel d = g_best g
  /\ dec_backup_channel d = g_backup g
  /\ dec_escalation_steps d = escalation_steps (dec_sla_days d) None
  /\ reinforce_preference rank ck store (user_id rq) (g_best g) 180 = Ok store'.
Proof.
  unfold finalize. intros Hf.
  destruct (fill_template _ _); simpl in Hf; [|discriminate].
  destruct (if truthy _ then _ else _); simpl in Hf; [|discriminate].
  destruct (reinforce_preference _ _ _ _ _ _); simpl in Hf; [|discriminate].
  injection Hf as <- <-. repeat split.
Qed.

(** X12. With the pass-through [Reranker], which the agent uses when
    reranking is disabled or the cross-encoder cannot be loaded, no
    reranked document has a [rerank_score], and every result of
    [assist_new], an information request or a final decision, has the
    confidence [low], whatever the retrieval scores of the hits are. *)
Theorem plain_reranker_confidence_low :
  forall rank ck (store : memory_store) (rq : request) (rt : retrieved)
         (query : string) (hits : list hit) res store',
    r_kb_docs rt = _rerank Reranker_rerank query hits ->
    assist_new rank ck store rq rt = Ok (res, store') ->
    (forall d, In d (r_kb_docs rt) -> hit_rerank_score d = None)
    /\ result_confidence res = "low".
Proof.
  intros rank ck store rq rt query hits res store' Hdocs H.
  assert (Hnone : forall d, In d (r_kb_docs rt) -> hit_rerank_score d = None).
  { intros d Hd. rewrite Hdocs in Hd. unfold _rerank, Reranker_rerank in Hd.
    apply in_map_iff in Hd as (h & <- & _). reflexivity. }
  split; [exact Hnone|].
  rewrite (assist_new_confidence _ _ _ _ _ _ _ H).
  destruct (r_kb_docs rt) as [|t r]; [reflexivity|].
  unfold assist_confidence. rewrite (Hnone t (or_introl eq_refl)). reflexivity.
Qed.

Lemma plain_reranker_confidence_low_witness :
  exists res store',
    assist_new stored_order example_clock [] (pothole_request true false)
      (pothole_retrieved
         (_rerank Reranker_rerank "pothole on road" [pothole_hit (Some 0.9%Q) None])
         [])
    = Ok (res, store')
    /\ result_confidence res = "low".
Proof.
  destruct (assist_new stored_order example_clock [] (pothole_request true false)
              (pothole_retrieved
                 (_rerank Reranker_rerank "pothole on road"
                    [pothole_hit (Some 0.9%Q) None]) []))
    as [[res store']|e] eqn:E; [|vm_compute in E; discriminate E].
  exists res, store'. split; [reflexivity|].
  exact (proj2 (plain_reranker_confidence_low stored_order example_clock []
                  (pothole_request true false)
                  (pothole_retrieved
                     (_rerank Reranker_rerank "pothole on road"
                        [pothole_hit (Some 0.9%Q) None]) [])
                  "pothole on road" [pothole_hit (Some 0.9%Q) None] res store'
                  eq_refl E)).
Defined.

Lemma cross_encoder_out (predict : list (string * string) -> list Q)
    (query : string) (docs : list hit) :
  CrossEncoderReranker_rerank predict query docs
  = sort_desc rerank_key
      (assign_rerank_scores docs (predict (map (fun d => (query, hit_text d)) docs))).
Proof. destruct docs; reflexivity. Qed.

(** X13. With the cross-encoder reranker, a model that returns one score
    per document and at least one knowledge-base hit, the top document of
    [assist_new] carries the greatest score of the model, the confidence
    of the result is the label of that score, and in a final decision the
    confidence is the label that the score of the first evidence item
    gives. *)
Theorem cross_encoder_confidence :
  forall rank ck (store : memory_store) (rq : request) (rt : retrieved)
         (predict : list (string * string) -> list Q) (query : string)
         (hits : list hit) res store',
    let scores :=
      predict (map (fun d => (query, hit_text d)) (map rerank_doc hits)) in
    r_kb_docs rt = _rerank (CrossEncoderReranker_rerank predict) query hits ->
    length scores = length hits ->
    hits <> [] ->
    assist_new rank ck store rq rt = Ok (res, store') ->
    exists top s,
      head (r_kb_docs rt) = Some top
      /\ hit_rerank_score top = Some s
      /\ In s scores
      /\ (forall x, In x scores -> (x <= s)%Q)
      /\ result_confidence res = confidence_from_score (Some s)
      /\ (forall d, res = FinalDecision d ->
            dec_confidence d = confidence_of_top_evidence (dec_evidence d)).
Proof.
  intros rank ck store rq rt predict query hits res store' scores Hdocs Hlen Hne H.
  set (docs := map rerank_doc hits) in *.
  assert (Hlen' : length scores = length docs)
    by (unfold docs; rewrite length_map; exact Hlen).
  assert (Hout : r_kb_docs rt = sort_desc rerank_key (assign_rerank_scores docs scores)).
  { rewrite Hdocs. unfold _rerank. apply cross_encoder_out. }
  assert (Ha := assign_rerank_combine docs scores Hlen').
  assert (Hp : Permutation (r_kb_docs rt) (assign_rerank_scores docs scores))
    by (rewrite Hout; apply sort_desc_perm).
  assert (Hs : Sorted.StronglySorted rerank_desc (r_kb_docs rt))
    by (rewrite Hout; apply sort_desc_sorted).
  assert (Hl : length (r_kb_docs rt) = length hits).
  { rewrite (Permutation_length Hp), Ha, length_map, length_combine, Hlen'.
    rewrite Nat.min_id. unfold docs. apply length_map. }
  destruct (r_kb_docs rt) as [|top rest] eqn:Ek.
  { destruct hits; [contradiction|discriminate Hl]. }
  assert (Htop : In top (assign_rerank_scores docs scores))
    by (apply (Permutation_in _ Hp); left; reflexivity).
  rewrite Ha in Htop. apply in_map_iff in Htop as ([d s] & Etop & Hds).
  cbn [fst snd] in Etop.
  exists top, s.
  assert (Hrs : hit_rerank_score top = Some s) by (rewrite <- Etop; reflexivity).
  split; [reflexivity|]. split; [exact Hrs|].
  split; [exact (in_combine_r _ _ _ _ Hds)|].
  split; [|split].
  - intros x Hx. apply In_nth_error in Hx as (i & Hi).
    assert (Hlt : (i < length docs)%nat).
    { rewrite <- Hlen'. apply nth_error_Some. rewrite Hi. discriminate. }
    destruct (nth_error docs i) as [d'|] eqn:Ed;
      [|apply nth_error_None in Ed; lia].
    assert (Hin : In (with_rerank_score d' x) (top :: rest)).
    { apply (Permutation_in _ (Permutation_sym Hp)). rewrite Ha.
      apply in_map_iff. exists (d', x). split; [reflexivity|].
      exact (combine_nth_error docs scores i d' x Ed Hi). }
    pose proof (sorted_head_max rerank_key (top :: rest) top _ Hs eq_refl Hin) as Hle.
    unfold rerank_key in Hle at 2. rewrite Hrs in Hle. exact Hle.
  - rewrite (assist_new_confidence _ _ _ _ _ _ _ H), Ek.
    unfold assist_confidence. rewrite Hrs. reflexivity.
  - intros dcs ->.
    destruct (assist_new_cases _ _ _ _ _ _ _ H)
      as (g & Hg & [(_ & _ & Hres & _)|(_ & d' & Hres & Hf)]);
      [discriminate Hres|].
    injection Hres as <-.
    destruct (finalize_fields _ _ _ _ _ _ _ _ Hf) as (Hev & Hconf & _).
    rewrite Hev, Hconf, (assist_prelude_kb_top _ _ _ _ _ Hg), Ek.
    unfold final_evidence, assist_confidence, confidence_of_top_evidence.
    cbn [app kb_evidence ev_score]. unfold kb_evidence_score. rewrite Hrs.
    reflexivity.
Qed.

Lemma cross_encoder_confidence_witness :
  exists res store' top,
    assist_new stored_order example_clock [] (pothole_request true false)
      (pothole_retrieved
         (_rerank (CrossEncoderReranker_rerank (fun pairs => map (fun _ => 0.3%Q) pairs))
            "pothole on road" [pothole_hit (Some 0.9%Q) None])
         [])
    = Ok (res, store')
    /\ head (_rerank (CrossEncoderReranker_rerank (fun pairs => map (fun _ => 0.3%Q) pairs))
               "pothole on road" [pothole_hit (Some 0.9%Q) None]) = Some top
    /\ hit_rerank_score top = Some 0.3%Q
    /\ result_confidence res = "medium".
Proof.
  destruct (assist_new stored_order example_clock [] (pothole_request true false)
              (pothole_retrieved
                 (_rerank (CrossEncoderReranker_rerank
                             (fun pairs => map (fun _ => 0.3%Q) pairs))
                    "pothole on road" [pothole_hit (Some 0.9%Q) None]) []))
    as [[res store']|e] eqn:E; [|vm_compute in E; discriminate E].
  destruct (cross_encoder_confidence stored_order example_clock []
              (pothole_request true false)
              (pothole_retrieved
                 (_rerank (CrossEncoderReranker_rerank
                             (fun pairs => map (fun _ => 0.3%Q) pairs))
                    "pothole on road" [pothole_hit (Some 0.9%Q) None]) [])
              (fun pairs => map (fun _ => 0.3%Q) pairs)
              "pothole on road" [pothole_hit (Some 0.9%Q) None] res store'
              eq_refl eq_refl)
    as (top & s & Htop & Hs & Hin & _ & Hc & _).
  - discriminate.
  - exact E.
  - exists res, store', top. split; [reflexivity|]. split; [exact Htop|].
    destruct Hin as [<-|[]]. split; [exact Hs|]. rewrite Hc. reflexivity.
Defined.

(* ===================================================================== *)
(** ** The urgency of a complaint (core/preprocess.py)                    *)
(* ===================================================================== *)

Lemma lower_app (a b : string) : lower (a +:+ b) = lower a +:+ lower b.
Proof.
  induction a as [|c a IH]; [rewrite !append_nil_l; reflexivity|].
  rewrite append_cons. cbn. rewrite append_cons, IH. reflexivity.
Qed.

Lemma py_lower_char_idem (c : ascii) :
  py_lower_char (py_lower_char c) = py_lower_char c.
Proof. destruct c as [[] [] [] [] [] [] [] []]; reflexivity. Qed.

Lemma lower_idem (s : string) : lower (lower s) = lower s.
Proof.
  induction s as [|c s IH]; [reflexivity|].
  cbn. rewrite py_lower_char_idem, IH. reflexivity.
Qed.

Lemma startswith_app (k b : string) : startswith (k +:+ b) k = true.
Proof.
  induction k as [|c k IH]; [destruct b; reflexivity|].
  rewrite append_cons. cbn. rewrite Ascii.eqb_refl. exact IH.
Qed.

Lemma startswith_contains (s k : string) :
  startswith s k = true -> contains s k = true.
Proof. destruct s; cbn; intros ->; reflexivity. Qed.

Lemma contains_app (a k b : string) : contains (a +:+ k +:+ b) k = true.
Proof.
  induction a as [|c a IH].
  - rewrite append_nil_l. apply startswith_contains, startswith_app.
  - rewrite append_cons. cbn. rewrite IH. apply orb_true_r.
Qed.

Lemma startswith_prefix (s k : string) :
  startswith s k = true -> exists b, s = k +:+ b.
Proof.
  revert s. induction k as [|c k IH]; intros s H.
  - exists s. rewrite append_nil_l. reflexivity.
  - destruct s as [|x s]; [discriminate|]. cbn in H.
    apply andb_true_iff in H as [Hc H]. apply Ascii.eqb_eq in Hc as ->.
    destruct (IH s H) as (b & ->). exists b. rewrite append_cons. reflexivity.
Qed.

Lemma contains_split (s k : string) :
  contains s k = true <-> exists a b, s = a +:+ k +:+ b.
Proof.
  split.
  - induction s as [|c s IH]; cbn [contains]; intros H.
    + rewrite orb_false_r in H. destruct (startswith_prefix _ _ H) as (b & ->).
      exists EmptyString, b. rewrite append_nil_l. reflexivity.
    + apply orb_true_iff in H as [H|H].
      * destruct (startswith_prefix _ _ H) as (b & ->).
        exists EmptyString, b. rewrite append_nil_l. reflexivity.
      * destruct (IH H) as (a & b & ->). exists (String c a), b.
        rewrite append_cons. reflexivity.
  - intros (a & b & ->). apply contains_app.
Qed.

Lemma existsb_contains (t : string) (keys : list string) (k : string) :
  In k keys -> contains t k = true -> existsb (contains t) keys = true.
Proof. intros Hk Hc. apply existsb_exists. exists k. split; assumption. Qed.

(** X14. [infer_urgency] answers [high], [medium] or [low] and ignores
    the case of the text. A text that contains, in any case, one of the
    twelve danger keywords is [high] whatever else it says; a text is
    [medium] exactly when it contains one of the six fault keywords and
    no danger keyword, and [low] exactly when it contains none of the
    eighteen keywords. A keyword counts wherever it occurs, inside
    another word too. *)
Theorem infer_urgency_keywords :
  forall text : string,
    In (infer_urgency text) ["high"; "medium"; "low"]
    /\ infer_urgency (lower text) = infer_urgency text
    /\ (forall a k b,
          text = a +:+ k +:+ b ->
          In (lower k) (high_keywords ++ danger_keywords)%list ->
          infer_urgency text = "high")
    /\ (infer_urgency text = "medium" <->
        (exists k, In k medium_keywords /\ contains (lower text) k = true)
        /\ forall k, In k (high_keywords ++ danger_keywords)%list ->
                     contains (lower text) k = false)
    /\ (infer_urgency text = "low" <->
        forall k, In k (high_keywords ++ danger_keywords ++ medium_keywords)%list ->
                  contains (lower text) k = false).
Proof.
  intros text. unfold infer_urgency. rewrite lower_idem.
  set (t := lower text).
  split; [|split; [reflexivity|split; [|split]]].
  - destruct (existsb (contains t) high_keywords),
             (existsb (contains t) danger_keywords),
             (existsb (contains t) medium_keywords); cbn; tauto.
  - intros a k b -> Hk.
    assert (Hc : contains t (lower k) = true).
    { unfold t. rewrite !lower_app. apply contains_app. }
    apply in_app_or in Hk as [Hk|Hk].
    + rewrite (existsb_contains t _ _ Hk Hc). reflexivity.
    + rewrite (existsb_contains t _ _ Hk Hc).
      destruct (existsb (contains t) high_keywords); reflexivity.
  - destruct (existsb (contains t) high_keywords) eqn:Eh;
      [|destruct (existsb (contains t) danger_keywords) eqn:Ed;
        [|destruct (existsb (contains t) medium_keywords) eqn:Em]].
    + split; [discriminate|]. intros [_ Hn].
      apply existsb_exists in Eh as (k & Hk & Hc).
      rewrite (Hn k) in Hc; [discriminate|apply in_or_app; left; exact Hk].
    + split; [discriminate|]. intros [_ Hn].
      apply existsb_exists in Ed as (k & Hk & Hc).
      rewrite (Hn k) in Hc; [discriminate|apply in_or_app; right; exact Hk].
    + split; [intros _|reflexivity]. split.
      * apply existsb_exists in Em as (k & Hk & Hc). exists k. split; assumption.
      * intros k Hk. destruct (contains t k) eqn:Hc; [|reflexivity].
        apply in_app_or in Hk as [Hk|Hk];
          [rewrite (existsb_contains t _ _ Hk Hc) in Eh
          |rewrite (existsb_contains t _ _ Hk Hc) in Ed]; discriminate.
    + split; [discriminate|]. intros [(k & Hk & Hc) _].
      rewrite (existsb_contains t _ _ Hk Hc) in Em. discriminate.
  - destruct (existsb (contains t) high_keywords) eqn:Eh;
      [|destruct (existsb (contains t) danger_keywords) eqn:Ed;
        [|destruct (existsb (contains t) medium_keywords) eqn:Em]].
    + split; [discriminate|]. intros Hn.
      apply existsb_exists in Eh as (k & Hk & Hc).
      rewrite (Hn k) in Hc; [discriminate|apply in_or_app; left; exact Hk].
    + split; [discriminate|]. intros Hn.
      apply existsb_exists in Ed as (k & Hk & Hc).
      rewrite (Hn k) in Hc; [discriminate|].
      apply in_or_app; right; apply in_or_app; left; exact Hk.
    + split; [discriminate|]. intros Hn.
      apply existsb_exists in Em as (k & Hk & Hc).
      rewrite (Hn k) in Hc; [discriminate|].
      apply in_or_app; right; apply in_or_app; right; exact Hk.
    + split; [intros _|reflexivity].
      intros k Hk. destruct (contains t k) eqn:Hc; [|reflexivity].
      apply in_app_or in Hk as [Hk|Hk];
        [|apply in_app_or in Hk as [Hk|Hk]];
        [rewrite (existsb_contains t _ _ Hk Hc) in Eh
        |rewrite (existsb_contains t _ _ Hk Hc) in Ed
        |rewrite (existsb_contains t _ _ Hk Hc) in Em]; discriminate.
Qed.

Lemma infer_urgency_keywords_witness :
  infer_urgency "Pothole near the FIRE station" = "high"
  /\ infer_urgency "Streetlight not working" = "medium".
Proof.
  split; [|reflexivity].
  apply (proj1 (proj2 (proj2 (infer_urgency_keywords "Pothole near the FIRE station")))
           "Pothole near the " "FIRE" " station").
  - reflexivity.
  - cbn. tauto.
Defined.

(* ===================================================================== *)
(** ** Integers written and read back ([str] and [int])                   *)
(* ===================================================================== *)

Lemma lstrip_no_space (s : string) : no_space s = true -> lstrip_int s = s.
Proof.
  destruct s as [|c s]; [reflexivity|]. unfold no_space. cbn.
  intros H. apply andb_true_iff in H as [Hc _].
  destruct (is_int_space c); [discriminate|reflexivity].
Qed.

Lemma rstrip_no_space (s : string) : no_space s = true -> rstrip_int s = s.
Proof.
  unfold no_space. induction s as [|c s IH]; [reflexivity|]. cbn.
  intros H. apply andb_true_iff in H as [Hc Hs]. rewrite (IH Hs).
  destruct s; [destruct (is_int_space c); [discriminate|reflexivity]|reflexivity].
Qed.

Lemma strip_no_space (s : string) :
  no_space s = true -> rstrip_int (lstrip_int s) = s.
Proof.
  intros H. rewrite (lstrip_no_space s H). apply rstrip_no_space, H.
Qed.

Lemma uint_no_space (d : Decimal.uint) :
  no_space (NilEmpty.string_of_uint d) = true.
Proof. unfold no_space. induction d; cbn; try reflexivity; exact IHd. Qed.

Lemma int_digits_step (c : ascii) (dv : Z) (s : string) (acc : Z) (b : bool) :
  digit_of c = Some dv ->
  int_digits (String c s) acc b = int_digits s (10 * acc + dv) true.
Proof. intros H. cbn [int_digits]. rewrite H. reflexivity. Qed.

Lemma int_digits_acc (d : Decimal.uint) :
  forall p : positive,
    int_digits (NilEmpty.string_of_uint d) (Z.pos p) true
    = Some (Z.pos (Pos.of_uint_acc d p)).
Proof.
  induction d; intros p; cbn [NilEmpty.string_of_uint Pos.of_uint_acc];
    [reflexivity| | | | | | | | | |];
    rewrite <- IHd;
    match goal with
    | |- int_digits (String ?c _) _ _ = _ =>
        let v := eval vm_compute in (digit_of c) in
        match v with
        | Some ?dv => rewrite (int_digits_step c dv) by reflexivity
        end
    end;
    f_equal; lia.
Qed.

Lemma int_digits_uint (d : Decimal.uint) :
  forall b : bool,
    d <> Decimal.Nil \/ b = true ->
    int_digits (NilEmpty.string_of_uint d) 0 b = Some (Z.of_N (Pos.of_uint d)).
Proof.
  induction d; intros b Hb; cbn [NilEmpty.string_of_uint Pos.of_uint];
    [destruct Hb as [Hb| ->]; [contradiction|reflexivity]
    |rewrite <- (IHd true) by (right; reflexivity); reflexivity
    | | | | | | | | |];
    cbn [Z.of_N]; rewrite <- int_digits_acc;
    match goal with
    | |- int_digits (String ?c _) _ _ = _ =>
        let v := eval vm_compute in (digit_of c) in
        match v with
        | Some ?dv => rewrite (int_digits_step c dv) by reflexivity
        end
    end;
    reflexivity.
Qed.

Lemma int_of_str_uint (d : Decimal.uint) :
  d <> Decimal.Nil ->
  int_of_str (NilEmpty.string_of_uint d) = Some (Z.of_N (Pos.of_uint d))
  /\ int_of_str (String "-" (NilEmpty.string_of_uint d))
     = Some (- Z.of_N (Pos.of_uint d)).
Proof.
  intros Hd. unfold int_of_str. split.
  - rewrite (strip_no_space _ (uint_no_space d)).
    rewrite <- (int_digits_uint d false (or_introl Hd)).
    destruct d; try contradiction; reflexivity.
  - rewrite strip_no_space.
    + cbn [fmap option_fmap option_map].
      rewrite (int_digits_uint d false (or_introl Hd)). reflexivity.
    + pose proof (uint_no_space d) as H. unfold no_space in *. cbn. exact H.
Qed.

Lemma int_of_str_str_of_int (n : Z) : int_of_str (str_of_int n) = Some n.
Proof.
  unfold str_of_int. rewrite <- (DecimalZ.of_to n) at 2.
  destruct n as [|p|p]; cbn [Z.to_int]; [reflexivity| |].
  - pose proof (Unsigned.to_uint_nonnil p) as Hn.
    unfold NilZero.string_of_int, NilZero.string_of_uint.
    destruct (Pos.to_uint p) eqn:E; try contradiction;
      rewrite <- E in *; exact (proj1 (int_of_str_uint _ Hn)).
  - pose proof (Unsigned.to_uint_nonnil p) as Hn.
    unfold NilZero.string_of_int, NilZero.string_of_uint.
    destruct (Pos.to_uint p) eqn:E; try contradiction;
      rewrite <- E in *; exact (proj2 (int_of_str_uint _ Hn)).
Qed.

Lemma py_int_str_of_int (n : Z) : py_int (VStr (str_of_int n)) = Ok n.
Proof. cbn. rewrite int_of_str_str_of_int. reflexivity. Qed.

(* ===================================================================== *)
(** ** Writing and erasing memory records (core/memory.py)                *)
(* ===================================================================== *)

Lemma store_upsert_in (p : point) (store : memory_store) :
  In p (store_upsert p store).
Proof.
  unfold store_upsert. destruct (has_id (pt_id p) store) eqn:E.
  - unfold has_id in E. apply existsb_exists in E as (q & Hq & Eq).
    apply in_map_iff. exists q. rewrite Eq. split; [reflexivity|exact Hq].
  - apply (Permutation_in _ (Permutation_sym (store_insert_perm p store))).
    left. reflexivity.
Qed.

Lemma store_upsert_others (p q : point) (store : memory_store) :
  In q (store_upsert p store) <->
  q = p \/ (In q store /\ pt_id q <> pt_id p).
Proof.
  unfold store_upsert. destruct (has_id (pt_id p) store) eqn:E.
  - rewrite in_map_iff. split.
    + intros (x & Hx & Hin). destruct (Z.eqb_spec (pt_id x) (pt_id p)).
      * left. symmetry. exact Hx.
      * right. subst x. split; assumption.
    + intros [->|[Hin Hne]].
      * unfold has_id in E. apply existsb_exists in E as (x & Hx & Ex).
        exists x. rewrite Ex. split; [reflexivity|exact Hx].
      * exists q. split; [|exact Hin].
        destruct (Z.eqb_spec (pt_id q) (pt_id p)); [contradiction|reflexivity].
  - assert (Hno : forall x, In x store -> pt_id x <> pt_id p).
    { intros x Hx Heq. assert (has_id (pt_id p) store = true); [|congruence].
      apply has_id_In. rewrite <- Heq. apply in_map, Hx. }
    split.
    + intros H. apply (Permutation_in _ (store_insert_perm p store)) in H.
      destruct H as [<-|H]; [left; reflexivity|right; split; [exact H|apply Hno, H]].
    + intros H. apply (Permutation_in _ (Permutation_sym (store_insert_perm p store))).
      destruct H as [->|[H _]]; [left; reflexivity|right; exact H].
Qed.

(** X15. [memory_upsert] returns the id it was given or, without one, the
    microsecond reading of the clock, and stores one point under that id.
    In its payload every key of the caller's payload keeps the caller's
    value, the standard keys included, and the six standard keys take
    their standard values only where the caller's payload has no such
    key. Unless the caller overrides [ttl_days], the cleanup reads back
    exactly the [ttl_days] that was written. The store afterwards holds
    the new point and the old points with another id, and nothing else;
    ids that were unique stay unique. *)
Theorem memory_upsert_effect :
  forall (ck : clock_reading) (store : memory_store) (user memory_text : string)
         (payload : dict) (ttl_days version : Z) (point_id : option pointid),
    let i := match point_id with Some j => j | None => clock_id ck end in
    exists p store',
      memory_upsert ck store user memory_text payload ttl_days version point_id
      = (i, store')
      /\ pt_id p = i
      /\ In p store'
      /\ (forall k,
            pt_payload p !! k
            = match payload !! k with
              | Some v => Some v
              | None => standard_payload ck user memory_text ttl_days version !! k
              end)
      /\ (payload !! "ttl_days" = None -> point_ttl p = ttl_days)
      /\ (forall q, In q store' <-> q = p \/ (In q store /\ pt_id q <> i))
      /\ (List.NoDup (map pt_id store) -> List.NoDup (map pt_id store')).
Proof.
  intros ck store user memory_text payload ttl_days version point_id i.
  set (p := {| pt_id := i;
               pt_payload := payload ∪ standard_payload ck user memory_text
                                         ttl_days version |}).
  exists p, (store_upsert p store).
  split; [reflexivity|]. split; [reflexivity|].
  split; [apply store_upsert_in|].
  assert (Hk : forall k,
             pt_payload p !! k
             = match payload !! k with
               | Some v => Some v
               | None => standard_payload ck user memory_text ttl_days version !! k
               end).
  { intros k. cbn [p pt_payload]. rewrite lookup_union.
    destruct (payload !! k) as [v|];
      [destruct (standard_payload _ _ _ _ _ !! k); reflexivity|].
    destruct (standard_payload _ _ _ _ _ !! k); reflexivity. }
  split; [exact Hk|]. split; [|split].
  - intros Hno. unfold point_ttl, dict_get_default. rewrite Hk, Hno.
    unfold standard_payload. rewrite lookup_insert_ne by discriminate.
    rewrite lookup_insert_ne by discriminate. rewrite lookup_insert_eq.
    rewrite py_int_str_of_int. reflexivity.
  - intros q. apply store_upsert_others.
  - apply upsert_nodup.
Qed.

Lemma memory_upsert_effect_witness :
  exists p store',
    memory_upsert example_clock small_store "u2" "Feedback: resolved"
      (<["type" := VStr "history"]> ∅) 365 1 None
    = (clock_id example_clock, store')
    /\ In p store'
    /\ point_ttl p = 365.
Proof.
  destruct (memory_upsert_effect example_clock small_store "u2" "Feedback: resolved"
              (<["type" := VStr "history"]> ∅) 365 1 None)
    as (p & store' & E & _ & Hin & _ & Httl & _).
  exists p, store'. split; [exact E|]. split; [exact Hin|].
  apply Httl. reflexivity.
Defined.

Lemma filter_replace_length (f : point -> bool) (p : point) (store : memory_store) :
  List.NoDup (map pt_id store) ->
  (length (List.filter f (map (fun q => if (pt_id q =? pt_id p)%Z then p else q) store))
   <= S (length (List.filter f store)))%nat.
Proof.
  induction store as [|q r IH]; intros Hnd; [cbn; lia|].
  cbn [map] in Hnd. apply List.NoDup_cons_iff in Hnd as [Hq Hr].
  cbn [map List.filter]. destruct (Z.eqb_spec (pt_id q) (pt_id p)) as [E|E].
  - rewrite replace_absent by (rewrite <- E; exact Hq).
    destruct (f p), (f q); cbn; lia.
  - specialize (IH Hr). destruct (f q); cbn; lia.
Qed.

Lemma filter_upsert_length (f : point -> bool) (p : point) (store : memory_store) :
  List.NoDup (map pt_id store) ->
  (length (List.filter f (store_upsert p store)) <= S (length (List.filter f store)))%nat.
Proof.
  intros Hnd. unfold store_upsert. destruct (has_id (pt_id p) store).
  - apply filter_replace_length, Hnd.
  - assert (Hp : Permutation (List.filter f (store_insert p store))
                             (List.filter f (p :: store))).
    { clear. induction store as [|q r IH]; [reflexivity|].
      cbn [store_insert]. destruct (pt_id p <? pt_id q)%Z; [reflexivity|].
      cbn [List.filter] in *. destruct (f q), (f p);
        try (rewrite IH; auto using perm_swap); auto. }
    rewrite (Permutation_length Hp). cbn. destruct (f p); cbn; lia.
Qed.

(** X16. [memory_get] returns at most [limit] points, all of them stored
    points of the user with [delete_flag] false, and all such points when
    [limit] suffices. A record written by [memory_upsert] for the user,
    with a payload that overrides neither [user_id] nor [delete_flag], is
    returned by the next [memory_get] for that user when the limit
    leaves room for it, with the text that was written. *)
Theorem memory_get_scope :
  forall rank, (forall l, Permutation (rank l) l) ->
  forall (store : memory_store) (user : string) (limit : Z),
    let mine := List.filter (memory_filter user) store in
    let out := memory_get rank store user limit in
    (length out <= Z.to_nat limit)%nat
    /\ (forall x, In x out ->
          In x store
          /\ match_str (pt_payload x) "user_id" user = true
          /\ pt_payload x !! "delete_flag" = Some (VBool false))
    /\ ((length mine <= Z.to_nat limit)%nat -> Permutation out mine)
    /\ (forall ck memory_text payload ttl_days version point_id,
          List.NoDup (map pt_id store) ->
          payload !! "user_id" = None ->
          payload !! "delete_flag" = None ->
          (length mine < Z.to_nat limit)%nat ->
          exists p,
            In p (memory_get rank
                    (snd (memory_upsert ck store user memory_text payload
                            ttl_days version point_id))
                    user limit)
            /\ pt_id p = fst (memory_upsert ck store user memory_text payload
                                ttl_days version point_id)
            /\ pt_payload p !! "memory_text"
               = match payload !! "memory_text" with
                 | Some v => Some v
                 | None => Some (VStr memory_text)
                 end).
Proof.
  intros rank Hrank store user limit mine out.
  assert (Hall : forall s, (length (List.filter (memory_filter user) s)
                            <= Z.to_nat limit)%nat ->
                 Permutation (memory_get rank s user limit)
                             (List.filter (memory_filter user) s)).
  { intros s Hl. unfold memory_get. rewrite firstn_all2; [apply Hrank|].
    rewrite (Permutation_length (Hrank _)). exact Hl. }
  split; [unfold out, memory_get; rewrite length_firstn; lia|].
  split; [|split; [apply Hall|]].
  - intros x Hx. unfold out, memory_get in Hx. apply in_firstn in Hx.
    apply (Permutation_in _ (Hrank _)) in Hx. apply filter_In in Hx as [Hin Hf].
    split; [exact Hin|]. unfold memory_filter in Hf.
    apply andb_true_iff in Hf as [Hu Hd]. split; [exact Hu|].
    unfold match_false in Hd. destruct (pt_payload x !! "delete_flag") as [[]|];
      try discriminate. destruct b; [discriminate|reflexivity].
  - intros ck memory_text payload ttl_days version point_id Hnd Hu Hd Hroom.
    set (i := match point_id with Some j => j | None => clock_id ck end).
    set (p := {| pt_id := i;
                 pt_payload := payload ∪ standard_payload ck user memory_text
                                           ttl_days version |}).
    change (memory_upsert ck store user memory_text payload ttl_days version point_id)
      with (i, store_upsert p store).
    cbn [fst snd]. exists p.
    assert (Hk : forall k, payload !! k = None ->
                 pt_payload p !! k
                 = standard_payload ck user memory_text ttl_days version !! k).
    { intros k Hn. cbn [p pt_payload]. rewrite lookup_union, Hn.
      destruct (standard_payload _ _ _ _ _ !! k); reflexivity. }
    assert (Hf : memory_filter user p = true).
    { unfold memory_filter, match_str, match_false. rewrite (Hk _ Hu), (Hk _ Hd).
      unfold standard_payload. rewrite lookup_insert_eq.
      rewrite lookup_insert_ne by discriminate. rewrite lookup_insert_eq.
      rewrite String.eqb_refl. reflexivity. }
    split; [|split; [reflexivity|]].
    + assert (Hlen : (length (List.filter (memory_filter user) (store_upsert p store))
                      <= Z.to_nat limit)%nat).
      { pose proof (filter_upsert_length (memory_filter user) p store Hnd) as Hle.
        fold mine in Hle. lia. }
      apply (Permutation_in _ (Permutation_sym (Hall _ Hlen))).
      apply filter_In. split; [apply store_upsert_in|exact Hf].
    + cbn [p pt_payload]. rewrite lookup_union.
      destruct (payload !! "memory_text"); [reflexivity|].
      unfold standard_payload. repeat rewrite lookup_insert_ne by discriminate.
      rewrite lookup_insert_eq. reflexivity.
Qed.

Lemma memory_get_scope_witness :
  exists p,
    In p (memory_get stored_order
            (snd (memory_upsert example_clock small_store "u1" "Feedback: resolved"
                    (<["type" := VStr "history"]> ∅) 365 1 None))
            "u1" 10)
    /\ pt_payload p !! "memory_text" = Some (VStr "Feedback: resolved").
Proof.
  destruct (proj2 (proj2 (proj2 (memory_get_scope stored_order stored_order_perm
                                   small_store "u1" 10)))
              example_clock "Feedback: resolved" (<["type" := VStr "history"]> ∅)
              365 1 None)
    as (p & Hin & _ & Hm).
  - repeat (apply List.NoDup_cons; [cbn; intuition discriminate|]). apply List.NoDup_nil.
  - reflexivity.
  - reflexivity.
  - vm_compute. lia.
  - exists p. split; [exact Hin|exact Hm].
Defined.

(** X17. After [memory_delete_user], [memory_get] finds nothing for the
    user under any limit and no record of the user is left, flagged
    records included; the store holds exactly the records that do not
    belong to the user; deleting again changes nothing; and the number
    of records removed is the number of records the user had. *)
Theorem memory_delete_user_erases :
  forall rank, (forall l, Permutation (rank l) l) ->
  forall (store : memory_store) (user : string),
    let store' := memory_delete_user store user in
    (forall limit, memory_get rank store' user limit = [])
    /\ user_records store' user = []
    /\ (forall q, In q store' <->
                  In q store /\ match_str (pt_payload q) "user_id" user = false)
    /\ memory_delete_user store' user = store'
    /\ (length store' + length (user_records store user) = length store)%nat.
Proof.
  intros rank Hrank store user store'.
  assert (Hin : forall q, In q store' <->
                In q store /\ match_str (pt_payload q) "user_id" user = false).
  { intros q. unfold store', memory_delete_user. rewrite filter_In.
    destruct (match_str (pt_payload q) "user_id" user); cbn; intuition congruence. }
  assert (Hur : user_records store' user = []).
  { unfold user_records. apply filter_all_false. intros x Hx. apply Hin, Hx. }
  split; [|split; [exact Hur|split; [exact Hin|split]]].
  - intros limit. unfold memory_get.
    assert (E : List.filter (memory_filter user) store' = []).
    { apply filter_all_false. intros x Hx. apply Hin in Hx as [_ Hx].
      unfold memory_filter. rewrite Hx. reflexivity. }
    rewrite E. pose proof (Permutation_sym (Hrank [])) as Hp.
    apply Permutation_nil in Hp.
    rewrite Hp. apply firstn_nil.
  - unfold memory_delete_user at 1.
    assert (E : forall l, (forall x, In x l -> match_str (pt_payload x) "user_id" user = false) ->
                List.filter (fun q => negb (match_str (pt_payload q) "user_id" user)) l = l).
    { induction l as [|x l IH]; intros H; [reflexivity|]. cbn.
      rewrite (H x (or_introl eq_refl)). cbn. f_equal. apply IH.
      intros y Hy. apply H. right. exact Hy. }
    apply E. intros x Hx. apply Hin, Hx.
  - unfold store', memory_delete_user, user_records.
    clear. induction store as [|q r IH]; [reflexivity|].
    cbn. destruct (match_str (pt_payload q) "user_id" user); cbn; lia.
Qed.

Lemma memory_delete_user_erases_witness :
  memory_get stored_order (memory_delete_user small_store "u1") "u1" 20 = []
  /\ memory_delete_user small_store "u2" = small_store.
Proof.
  split.
  - apply (proj1 (memory_delete_user_erases stored_order stored_order_perm
                    small_store "u1")).
  - reflexivity.
Defined.

(* ===================================================================== *)
(** ** The cleanup of expired records (core/memory.py)                    *)
(* ===================================================================== *)

Lemma decay_scan_ok_in_range fromisoformat (now : Z) (points : list point) :
  forall acc l,
    decay_scan fromisoformat now points acc = Ok l ->
    scan_in_range fromisoformat now points = true.
Proof.
  induction points as [|p r IH]; intros acc l H; [reflexivity|].
  cbn [decay_scan] in H. unfold scan_in_range. cbn [forallb]. fold (scan_in_range fromisoformat now r).
  destruct (point_last_updated fromisoformat p) as [ts|].
  - unfold timedelta_days in H. unfold date_in_range.
    destruct (Z.abs (point_ttl p) <=? 999999999)%Z; [|discriminate H].
    cbn [bind] in H. unfold datetime_sub in H.
    destruct ((0 <=? now - point_ttl p * us_per_day)%Z
              && (now - point_ttl p * us_per_day <? datetime_end)%Z)%bool eqn:E;
      [|discriminate H].
    cbn [bind] in H. cbn [andb]. rewrite E. cbn [andb].
    destruct (ts <? now - point_ttl p * us_per_day)%Z; exact (IH _ _ H).
  - exact (IH _ _ H).
Qed.

Lemma cleanup_result fromisoformat (clock_now : Z) (store : memory_store)
    (user_id : option string) (now_arg : option Z) (n : Z) (store' : memory_store) :
  let now := match now_arg with Some t => t | None => clock_now end in
  let doomed := List.filter (expired fromisoformat now) (scanned store user_id) in
  memory_decay_cleanup fromisoformat clock_now store user_id now_arg = Ok (n, store') ->
  scan_in_range fromisoformat now (scanned store user_id) = true
  /\ n = Z.of_nat (length doomed)
  /\ store' = store_delete (map pt_id doomed) store.
Proof.
  intros now doomed H. unfold memory_decay_cleanup in H. fold now in H.
  destruct (decay_scan fromisoformat now (scanned store user_id) []) as [ids|e] eqn:E;
    [|discriminate H].
  pose proof (decay_scan_ok_in_range _ _ _ _ _ E) as Hr.
  rewrite (decay_scan_result _ _ _ [] Hr) in E. cbn [app] in E.
  injection E as <-. fold doomed in H. cbn [bind] in H.
  injection H as <- <-. split; [exact Hr|]. split; [rewrite length_map; reflexivity|].
  destruct (map pt_id doomed); [rewrite store_delete_nil|]; reflexivity.
Qed.

Lemma store_delete_In (ids : list pointid) (store : memory_store) (q : point) :
  In q (store_delete ids store) <-> In q store /\ ~ In (pt_id q) ids.
Proof.
  unfold store_delete. rewrite filter_In.
  destruct (existsb (Z.eqb (pt_id q)) ids) eqn:E; cbn.
  - apply existsb_eqb_In in E. intuition discriminate.
  - assert (~ In (pt_id q) ids).
    { intros H. apply existsb_eqb_In in H. congruence. }
    intuition.
Qed.

Lemma filter_sublist {A : Type} (f : A -> bool) (l : list A) :
  sublist (List.filter f l) l.
Proof.
  induction l as [|x l IH]; [constructor|].
  cbn. destruct (f x); [apply sublist_skip|apply sublist_cons]; exact IH.
Qed.

Lemma scanned_sublist (store : memory_store) (user_id : option string) :
  sublist (scanned store user_id) store.
Proof.
  unfold scanned. etransitivity; [apply sublist_take|apply filter_sublist].
Qed.

Lemma sublist_In {A : Type} (k l : list A) (x : A) :
  sublist k l -> In x k -> In x l.
Proof.
  intros Hs. induction Hs as [|y k l Hs IH|y k l Hs IH]; intros Hx.
  - exact Hx.
  - destruct Hx as [->|Hx]; [left; reflexivity|right; exact (IH Hx)].
  - right. exact (IH Hx).
Qed.

Lemma store_delete_cons (ids : list pointid) (x : point) (l : memory_store) :
  store_delete ids (x :: l)
  = if existsb (Z.eqb (pt_id x)) ids then store_delete ids l
    else x :: store_delete ids l.
Proof.
  unfold store_delete. cbn [List.filter].
  destruct (existsb (Z.eqb (pt_id x)) ids); reflexivity.
Qed.

(** Deleting the ids of some of the points of a store with unique ids
    removes exactly these points. *)
Lemma store_delete_sublist_length (doomed store : memory_store) :
  sublist doomed store ->
  List.NoDup (map pt_id store) ->
  (length (store_delete (map pt_id doomed) store) + length doomed = length store)%nat.
Proof.
  intros Hs. induction Hs as [|x d l Hs IH|x d l Hs IH]; intros Hnd.
  - reflexivity.
  - cbn [map] in Hnd. apply List.NoDup_cons_iff in Hnd as [Hx Hl].
    assert (E : store_delete (map pt_id (x :: d)) l = store_delete (map pt_id d) l).
    { unfold store_delete. apply filter_ext_in. intros q Hq. cbn [map existsb].
      destruct (Z.eqb_spec (pt_id q) (pt_id x)) as [Eq|]; [|reflexivity].
      exfalso. apply Hx. rewrite <- Eq. apply in_map, Hq. }
    rewrite store_delete_cons. cbn [map existsb]. rewrite Z.eqb_refl. cbn [orb].
    change (pt_id x :: map pt_id d) with (map pt_id (x :: d)). rewrite E.
    specialize (IH Hl). cbn [length]. lia.
  - cbn [map] in Hnd. apply List.NoDup_cons_iff in Hnd as [Hx Hl].
    rewrite store_delete_cons.
    assert (E : existsb (Z.eqb (pt_id x)) (map pt_id d) = false).
    { destruct (existsb _ _) eqn:E; [|reflexivity]. exfalso. apply Hx.
      apply existsb_eqb_In in E. apply in_map_iff in E as (q & Eq & Hq).
      rewrite <- Eq. apply in_map. exact (sublist_In _ _ _ Hs Hq). }
    rewrite E. cbn [length].
    specialize (IH Hl). lia.
Qed.

Lemma nodup_ids_eq (store : memory_store) (x q : point) :
  List.NoDup (map pt_id store) -> In x store -> In q store ->
  pt_id x = pt_id q -> x = q.
Proof.
  induction store as [|y r IH]; intros Hnd Hx Hq Ex; [destruct Hq|].
  cbn [map] in Hnd. apply List.NoDup_cons_iff in Hnd as [Hy Hr].
  destruct Hx as [->|Hx], Hq as [->|Hq]; try reflexivity.
  - exfalso. apply Hy. rewrite Ex. apply in_map, Hq.
  - exfalso. apply Hy. rewrite <- Ex. apply in_map, Hx.
  - exact (IH Hr Hx Hq Ex).
Qed.

(** X18. A second cleanup finds nothing to delete: when the records in
    the scope of the cleanup are at most 1000, so that one page holds
    them all, a [memory_decay_cleanup] that returned leaves a store on
    which the same call, at the same time, returns 0 and changes
    nothing. *)
Theorem decay_cleanup_idempotent :
  forall fromisoformat (clock_now : Z) (store : memory_store)
         (user_id : option string) (now_arg : option Z)
         (n : Z) (store' : memory_store),
    (length (List.filter (cleanup_scope user_id) store) <= 1000)%nat ->
    memory_decay_cleanup fromisoformat clock_now store user_id now_arg
    = Ok (n, store') ->
    memory_decay_cleanup fromisoformat clock_now store' user_id now_arg
    = Ok (0, store').
Proof.
  intros fi clock_now store user_id now_arg n store' Hlen H.
  destruct (cleanup_result _ _ _ _ _ _ _ H) as (Hr & _ & ->).
  set (now := match now_arg with Some t => t | None => clock_now end) in *.
  set (doomed := List.filter (expired fi now) (scanned store user_id)) in *.
  set (store' := store_delete (map pt_id doomed) store).
  assert (Hsc : scanned store user_id = List.filter (cleanup_scope user_id) store).
  { unfold scanned. apply firstn_all2. exact Hlen. }
  assert (Hsub : forall q, In q (scanned store' user_id) ->
                 In q (scanned store user_id) /\ ~ In (pt_id q) (map pt_id doomed)).
  { intros q Hq. unfold scanned in Hq. apply in_firstn in Hq.
    apply filter_In in Hq as [Hq Hscope]. apply store_delete_In in Hq as [Hq Hid].
    split; [|exact Hid]. rewrite Hsc. apply filter_In. split; assumption. }
  assert (Hr' : scan_in_range fi now (scanned store' user_id) = true).
  { unfold scan_in_range in *. apply forallb_forall. intros q Hq.
    rewrite forallb_forall in Hr. apply Hr. apply Hsub, Hq. }
  assert (Hnone : List.filter (expired fi now) (scanned store' user_id) = []).
  { apply filter_all_false. intros q Hq. destruct (Hsub q Hq) as [Hin Hid].
    destruct (expired fi now q) eqn:E; [|reflexivity].
    exfalso. apply Hid. apply in_map. unfold doomed. apply filter_In.
    split; assumption. }
  unfold memory_decay_cleanup. fold now.
  rewrite (decay_scan_result _ _ _ [] Hr'), Hnone. reflexivity.
Qed.

Lemma decay_cleanup_idempotent_witness :
  exists n store',
    memory_decay_cleanup fromisoformat_basic 0 small_store (Some "u1")
      (Some july_20_2026) = Ok (n, store')
    /\ memory_decay_cleanup fromisoformat_basic 0 store' (Some "u1")
         (Some july_20_2026) = Ok (0, store').
Proof.
  destruct (memory_decay_cleanup fromisoformat_basic 0 small_store (Some "u1")
              (Some july_20_2026)) as [[n store']|e] eqn:E;
    [|vm_compute in E; discriminate E].
  exists n, store'. split; [reflexivity|].
  apply (decay_cleanup_idempotent fromisoformat_basic 0 small_store (Some "u1")
           (Some july_20_2026) n store'); [vm_compute; lia|exact E].
Defined.

(** X19. A [memory_decay_cleanup] that returns reports a count between 0
    and 1000, and the store afterwards is the store before with some
    points taken out, the others in their order. When the ids of the
    store are unique, the count is exactly the number of points taken
    out, and no point outside the scope of the cleanup, such as a record
    of another user when a user is given, is taken out. *)
Theorem decay_cleanup_accounting :
  forall fromisoformat (clock_now : Z) (store : memory_store)
         (user_id : option string) (now_arg : option Z)
         (n : Z) (store' : memory_store),
    memory_decay_cleanup fromisoformat clock_now store user_id now_arg
    = Ok (n, store') ->
    0 <= n <= 1000
    /\ sublist store' store
    /\ (List.NoDup (map pt_id store) ->
        Z.of_nat (length store') = Z.of_nat (length store) - n
        /\ forall q, In q store -> cleanup_scope user_id q = false -> In q store').
Proof.
  intros fi clock_now store user_id now_arg n store' H.
  destruct (cleanup_result _ _ _ _ _ _ _ H) as (_ & -> & ->).
  set (now := match now_arg with Some t => t | None => clock_now end) in *.
  set (doomed := List.filter (expired fi now) (scanned store user_id)) in *.
  assert (Hd : sublist doomed store).
  { unfold doomed. etransitivity; [apply filter_sublist|apply scanned_sublist]. }
  split; [|split].
  - assert ((length doomed <= length (scanned store user_id))%nat)
      by (apply sublist_length, filter_sublist).
    assert ((length (scanned store user_id) <= 1000)%nat)
      by (unfold scanned; rewrite length_firstn; lia).
    lia.
  - apply filter_sublist.
  - intros Hnd. split.
    + pose proof (store_delete_sublist_length doomed store Hd Hnd). lia.
    + intros q Hq Hscope. apply store_delete_In. split; [exact Hq|].
      intros Hid. apply in_map_iff in Hid as (x & Ex & Hx).
      assert (Hxs : In x store) by exact (sublist_In _ _ _ Hd Hx).
      assert (x = q) by exact (nodup_ids_eq store x q Hnd Hxs Hq Ex).
      subst x. unfold doomed in Hx. apply filter_In in Hx as [Hx _].
      unfold scanned in Hx. apply in_firstn in Hx. apply filter_In in Hx as [_ Hx].
      congruence.
Qed.

Lemma decay_cleanup_accounting_witness :
  exists n store',
    memory_decay_cleanup fromisoformat_basic 0 crowded_store None
      (Some july_20_2026) = Ok (n, store')
    /\ 0 <= n <= 1000.
Proof.
  destruct (memory_decay_cleanup fromisoformat_basic 0 crowded_store None
              (Some july_20_2026)) as [[n store']|e] eqn:E;
    [|vm_compute in E; discriminate E].
  exists n, store'. split; [reflexivity|].
  exact (proj1 (decay_cleanup_accounting fromisoformat_basic 0 crowded_store None
                  (Some july_20_2026) n store' E)).
Defined.

(* ===================================================================== *)
(** ** What the slot-filling step can and cannot be given (core/agent_v2.py) *)
(* ===================================================================== *)

Lemma prelude_missing_In rank store rq rt g (f : string) :
  assist_prelude rank store rq rt = Ok g ->
  In f (g_missing g) <->
  In f (g_required_fields g) /\ field_is_missing (provided_fields rq) f = true.
Proof.
  intros Hg. rewrite (assist_prelude_missing _ _ _ _ _ Hg), missing_fields_filter.
  apply filter_In.
Qed.

Lemma provided_location (rq : request) :
  provided_fields rq !! "location"
  = Some (VStr ("Ward " +:+ ward_id rq +:+ ", " +:+ city rq)).
Proof.
  unfold provided_fields.
  repeat (rewrite lookup_insert_ne by discriminate). apply lookup_insert_eq.
Qed.

Lemma provided_photo (rq : request) :
  provided_fields rq !! "photo"
  = Some (VStr (if issue_photo rq then "yes" else EmptyString)).
Proof.
  unfold provided_fields.
  repeat (rewrite lookup_insert_ne by discriminate). apply lookup_insert_eq.
Qed.

Lemma provided_days_missed (rq : request) :
  provided_fields rq !! "days_missed" = Some (VStr EmptyString).
Proof.
  unfold provided_fields.
  repeat (rewrite lookup_insert_ne by discriminate). apply lookup_insert_eq.
Qed.

Lemma provided_other (rq : request) (f : string) :
  ~ In f provided_keys -> provided_fields rq !! f = None.
Proof.
  intros Hf. unfold provided_fields.
  repeat (rewrite lookup_insert_ne
            by (intros <-; apply Hf; unfold provided_keys; cbn; tauto)).
  apply lookup_empty.
Qed.

(** X20. Of the values that [assist_new] hands to the slot-filling step,
    [location] is never missing, since it is composed from the ward and
    the city; [photo] is missing exactly when it is required and no issue
    photo is given; [days_missed] is always given as the empty string, and
    a required field that is not among the eight provided keys is not
    given at all, so each of these is missing whenever it is required.
    Hence a knowledge-base entry that requires [days_missed] makes every
    request without [auto_submit] end in an information request that
    lists [days_missed]. *)
Theorem slot_filling_provided :
  forall rank (store : memory_store) (rq : request) (rt : retrieved) g,
    assist_prelude rank store rq rt = Ok g ->
    ~ In "location" (g_missing g)
    /\ (In "days_missed" (g_missing g) <-> In "days_missed" (g_required_fields g))
    /\ (In "photo" (g_missing g) <->
        In "photo" (g_required_fields g) /\ issue_photo rq = false)
    /\ (forall f, ~ In f provided_keys -> endswith f "_optional" = false ->
                  (In f (g_missing g) <-> In f (g_required_fields g)))
    /\ (forall ck, In "days_missed" (g_required_fields g) ->
                   auto_submit rq = false ->
                   exists info,
                     assist_new rank ck store rq rt = Ok (NeedMoreInfo info, store)
                     /\ In "days_missed" (ir_missing_fields info)).
Proof.
  intros rank store rq rt g Hg.
  assert (Hd : In "days_missed" (g_missing g) <-> In "days_missed" (g_required_fields g)).
  { rewrite (prelude_missing_In _ _ _ _ _ _ Hg). unfold field_is_missing.
    rewrite provided_days_missed. cbn. tauto. }
  split; [|split; [exact Hd|split; [|split]]].
  - rewrite (prelude_missing_In _ _ _ _ _ _ Hg). unfold field_is_missing.
    rewrite provided_location. intros [_ H].
    apply andb_true_iff in H as [_ H]. unfold blank in H.
    change ("Ward " +:+ ward_id rq +:+ ", " +:+ city rq)
      with (String "W" ("ard " +:+ ward_id rq +:+ ", " +:+ city rq)) in H.
    cbn in H. discriminate.
  - rewrite (prelude_missing_In _ _ _ _ _ _ Hg). unfold field_is_missing.
    rewrite provided_photo. destruct (issue_photo rq); cbn; intuition discriminate.
  - intros f Hf Hopt. rewrite (prelude_missing_In _ _ _ _ _ _ Hg).
    unfold field_is_missing. rewrite Hopt, (provided_other rq f Hf). cbn. tauto.
  - intros ck Hreq Ha. apply Hd in Hreq.
    exists (ask_more rq rt g). split; [|exact Hreq].
    unfold assist_new. rewrite Hg. cbn [bind]. rewrite Ha.
    destruct (g_missing g); [destruct Hreq|reflexivity].
Qed.

Lemma slot_filling_provided_witness :
  exists info,
    assist_new stored_order example_clock [] (pothole_request true false)
      (pothole_retrieved [garbage_hit] [])
    = Ok (NeedMoreInfo info, [])
    /\ In "days_missed" (ir_missing_fields info).
Proof.
  destruct (assist_prelude stored_order [] (pothole_request true false)
              (pothole_retrieved [garbage_hit] [])) as [g|e] eqn:Hg;
    [|vm_compute in Hg; discriminate Hg].
  destruct (slot_filling_provided stored_order [] (pothole_request true false)
              (pothole_retrieved [garbage_hit] []) g Hg) as (_ & _ & _ & _ & H).
  apply (H example_clock); [|reflexivity].
  vm_compute in Hg. injection Hg as <-. cbn. tauto.
Defined.

(* ===================================================================== *)
(** ** Repeated reinforcement (core/memory.py)                            *)
(* ===================================================================== *)

Lemma filter_replace_same_length (f : point -> bool) (p q0 : point)
    (store : memory_store) :
  List.NoDup (map pt_id store) ->
  In q0 store -> pt_id q0 = pt_id p -> f q0 = f p ->
  length (List.filter f (store_upsert p store)) = length (List.filter f store).
Proof.
  intros Hnd Hq Hid Hf. unfold store_upsert.
  assert (Hh : has_id (pt_id p) store = true).
  { apply has_id_In. rewrite <- Hid. apply in_map, Hq. }
  rewrite Hh. clear Hh.
  induction store as [|x r IH]; [destruct Hq|].
  cbn [map] in Hnd. apply List.NoDup_cons_iff in Hnd as [Hx Hr].
  cbn [map List.filter]. destruct (Z.eqb_spec (pt_id x) (pt_id p)) as [E|E].
  - rewrite replace_absent by (rewrite <- E; exact Hx).
    destruct Hq as [->|Hq].
    + rewrite Hf. destruct (f p); reflexivity.
    + exfalso. apply Hx. rewrite E, <- Hid. apply in_map, Hq.
  - destruct Hq as [->|Hq]; [contradiction|].
    specialize (IH Hr Hq). destruct (f x); cbn [length]; lia.
Qed.

Lemma find_in_singleton (f g : point -> bool) (l : list point) (p x : point) :
  List.filter (fun q => f q && g q) l = [p] ->
  (forall y, In y l -> f y = true) ->
  List.find g l = Some x -> x = p.
Proof.
  intros Hs Hf Hx. apply find_some in Hx as [Hin Hg].
  assert (In x (List.filter (fun q => f q && g q) l)).
  { apply filter_In. split; [exact Hin|]. rewrite (Hf x Hin), Hg. reflexivity. }
  rewrite Hs in H. destruct H as [<-|[]]. reflexivity.
Qed.

(** A reinforcement in a reinforced state increments the weight. *)
Lemma reinforce_step rank (user : string) (store : memory_store) (w : Z)
    (last call : clock_reading * string) :
  (forall l, Permutation (rank l) l) ->
  reinforced_state user store w last ->
  exists store',
    reinforce_preference rank (fst call) store user (snd call) 180 = Ok store'
    /\ reinforced_state user store' (w + 1) call.
Proof.
  intros Hrank (Hnd & Hlen & p & Hp & Hw & Hc & Hl).
  assert (Hpin : In p (List.filter (visible_preference user) store))
    by (rewrite Hp; left; reflexivity).
  apply filter_In in Hpin as [Hpin Hpv]. unfold visible_preference in Hpv.
  apply andb_true_iff in Hpv as [Hpf Hpp].
  assert (Hget : memory_get rank store user 20
                 = rank (List.filter (memory_filter user) store)).
  { unfold memory_get. apply firstn_all2.
    rewrite (Permutation_length (Hrank _)). exact Hlen. }
  assert (Hfind : List.find is_preference (memory_get rank store user 20) = Some p).
  { destruct (find_some_exists is_preference (memory_get rank store user 20))
      as [x Hx].
    { exists p. split; [|exact Hpp]. rewrite Hget.
      apply (Permutation_in _ (Permutation_sym (Hrank _))).
      apply filter_In. split; assumption. }
    rewrite Hx. f_equal.
    apply (find_in_singleton (memory_filter user) is_preference
             (memory_get rank store user 20) p x); [|
      intros y Hy; exact (proj2 (memory_get_subset _ _ _ _ _ Hrank Hy))|exact Hx].
    rewrite Hget.
    assert (Hperm : Permutation
                      (List.filter (fun q => memory_filter user q && is_preference q)
                         (rank (List.filter (memory_filter user) store)))
                      (List.filter (fun q => memory_filter user q && is_preference q)
                         (List.filter (memory_filter user) store))).
    { clear -Hrank.
      generalize (Hrank (List.filter (memory_filter user) store)).
      generalize (rank (List.filter (memory_filter user) store)).
      generalize (List.filter (memory_filter user) store).
      intros l k Hk. induction Hk; cbn.
      - constructor.
      - destruct (_ && _); [constructor|]; exact IHHk.
      - destruct (memory_filter user y && is_preference y),
                 (memory_filter user x && is_preference x);
          try reflexivity. apply perm_swap.
      - etransitivity; eassumption. }
    assert (E : List.filter (fun q => memory_filter user q && is_preference q)
                  (List.filter (memory_filter user) store) = [p]).
    { rewrite <- Hp. unfold visible_preference. clear.
      induction store as [|x r IH]; [reflexivity|]. cbn [List.filter].
      destruct (memory_filter user x) eqn:Ef; cbn [List.filter andb].
      - rewrite Ef. cbn [andb]. destruct (is_preference x); rewrite IH; reflexivity.
      - exact IH. }
    rewrite E in Hperm. apply Permutation_sym, Permutation_length_1_inv in Hperm.
    exact Hperm. }
  assert (Hint : py_int (dict_get_default (pt_payload p) "pref_weight" (VStr "1"))
                 = Ok w).
  { unfold dict_get_default. rewrite Hw. apply py_int_str_of_int. }
  set (p' := reinforced_preference (fst call) p (snd call) (w + 1)).
  exists (store_upsert p' store).
  split; [exact (reinforce_update rank (fst call) store user (snd call) 180 p w
                   Hfind Hint)|].
  assert (Hu : match_str (pt_payload p) "user_id" user = true).
  { unfold memory_filter in Hpf. apply andb_true_iff in Hpf as [H _]. exact H. }
  destruct (reinforced_is_visible (fst call) p user (snd call) (w + 1) Hpf Hu Hpp)
    as (Hf' & _ & Hp'). fold p' in Hf', Hp'.
  destruct (reinforced_lookups (fst call) p (snd call) (w + 1)) as (L1 & L2 & L3 & _).
  fold p' in L1, L2, L3.
  split; [apply upsert_nodup, Hnd|]. split.
  - rewrite (filter_replace_same_length (memory_filter user) p' p store Hnd Hpin);
      [exact Hlen|reflexivity|rewrite Hpf, Hf'; reflexivity].
  - exists p'. split; [|split; [exact L1|split; [exact L2|exact L3]]].
    apply (filter_upsert_same (visible_preference user) p' p store Hnd);
      [unfold visible_preference; rewrite Hf', Hp'; reflexivity|exact Hp|reflexivity].
Qed.

Lemma last_cons {A : Type} (l : list A) (a d : A) :
  List.last (a :: l) d = List.last l a.
Proof.
  revert a d. induction l as [|x r IH]; intros a d; [reflexivity|].
  change (List.last (a :: x :: r) d) with (List.last (x :: r) d).
  rewrite (IH x d), (IH x a). reflexivity.
Qed.

Lemma reinforce_all_state rank (user : string)
    (calls : list (clock_reading * string)) :
  (forall l, Permutation (rank l) l) ->
  forall (store : memory_store) (w : Z) (last : clock_reading * string),
    reinforced_state user store w last ->
    exists store',
      reinforce_all rank store user calls = Ok store'
      /\ reinforced_state user store' (w + Z.of_nat (length calls))
           (List.last calls last).
Proof.
  intros Hrank. induction calls as [|call rest IH]; intros store w last Hs.
  - exists store. split; [reflexivity|]. cbn. rewrite Z.add_0_r. exact Hs.
  - destruct (reinforce_step rank user store w last call Hrank Hs) as (s1 & E1 & H1).
    destruct (IH s1 (w + 1) call H1) as (s2 & E2 & H2).
    exists s2. split.
    + cbn [reinforce_all]. destruct call as [ck ch]. cbn [fst snd] in E1.
      rewrite E1. exact E2.
    + replace (w + Z.of_nat (length (call :: rest)))
        with (w + 1 + Z.of_nat (length rest)) by (cbn [length]; lia).
      rewrite last_cons. exact H2.
Qed.

(** X21. Repeated reinforcement counts the confirmations: for a user with
    fewer than 20 visible records, none of them a preference record, in a
    store with unique ids, every non-empty sequence of
    [reinforce_preference] calls returns and leaves the user exactly one
    visible preference record; its weight is the number of calls, and its
    channel and [last_updated] are those of the last call. *)
Theorem reinforce_counts_confirmations :
  forall rank, (forall l, Permutation (rank l) l) ->
  forall (store : memory_store) (user : string)
         (first : clock_reading * string) (rest : list (clock_reading * string)),
    List.NoDup (map pt_id store) ->
    (length (List.filter (memory_filter user) store) < 20)%nat ->
    (forall q, In q store -> memory_filter user q = true ->
               is_preference q = false) ->
    exists store' p,
      reinforce_all rank store user (first :: rest) = Ok store'
      /\ List.filter (visible_preference user) store' = [p]
      /\ pt_payload p !! "pref_weight"
         = Some (VStr (str_of_int (1 + Z.of_nat (length rest))))
      /\ pt_payload p !! "pref_channel"
         = Some (VStr (snd (List.last rest first)))
      /\ pt_payload p !! "last_updated"
         = Some (VStr (clock_iso (fst (List.last rest first)))).
Proof.
  intros rank Hrank store user [ck ch] rest Hnd Hlen Hnone.
  set (p1 := created_preference ck user ch 180).
  assert (E1 : reinforce_preference rank ck store user ch 180
               = Ok (store_upsert p1 store)).
  { apply reinforce_create. apply find_none_all. intros x Hx.
    apply (memory_get_subset _ _ _ _ _ Hrank) in Hx as [Hin Hf].
    exact (Hnone x Hin Hf). }
  destruct (created_is_visible ck user ch 180) as (V1 & _ & P1).
  destruct (created_lookups ck user ch 180) as (_ & _ & _ & C1 & W1 & L1).
  fold p1 in V1, P1, C1, W1, L1.
  assert (H1 : reinforced_state user (store_upsert p1 store) 1 (ck, ch)).
  { split; [apply upsert_nodup, Hnd|]. split.
    - pose proof (filter_upsert_length (memory_filter user) p1 store Hnd). lia.
    - exists p1. split; [|split; [exact W1|split; [exact C1|exact L1]]].
      apply filter_upsert_new; [exact Hnd| |].
      + unfold visible_preference. rewrite V1, P1. reflexivity.
      + intros q Hq. unfold visible_preference.
        destruct (memory_filter user q) eqn:Ef; [|reflexivity].
        rewrite (Hnone q Hq Ef). reflexivity. }
  destruct (reinforce_all_state rank user rest Hrank _ 1 (ck, ch) H1)
    as (s & Es & _ & _ & p & Hp & Hw & Hc & Hl).
  exists s, p. split; [cbn [reinforce_all]; rewrite E1; exact Es|].
  split; [exact Hp|]. split; [exact Hw|]. split; [exact Hc|exact Hl].
Qed.

Lemma reinforce_counts_confirmations_witness :
  exists store' p,
    reinforce_all stored_order small_store "u1"
      [(later_clock 1, "helpline"); (later_clock 2, "helpline");
       (later_clock 3, "email"); (later_clock 4, "app")] = Ok store'
    /\ List.filter (visible_preference "u1") store' = [p]
    /\ pt_payload p !! "pref_weight" = Some (VStr "4")
    /\ pt_payload p !! "pref_channel" = Some (VStr "app").
Proof.
  destruct (reinforce_counts_confirmations stored_order stored_order_perm
              small_store "u1" (later_clock 1, "helpline")
              [(later_clock 2, "helpline"); (later_clock 3, "email");
               (later_clock 4, "app")])
    as (s & p & E & Hp & Hw & Hc & _).
  - repeat (apply List.NoDup_cons; [cbn; intuition discriminate|]). apply List.NoDup_nil.
  - vm_compute. lia.
  - intros q Hq _.
    repeat (destruct Hq as [<-|Hq]; [reflexivity|]). destruct Hq.
  - exists s, p. split; [exact E|]. split; [exact Hp|]. split; [exact Hw|exact Hc].
Defined.

(* ===================================================================== *)
(** ** The feedback loop of the agent (core/agent_v2.py)                  *)
(* ===================================================================== *)

Lemma assist_prelude_channels rank store rq rt g :
  assist_prelude rank store rq rt = Ok g ->
  g_best g <> EmptyString /\ g_backup g <> EmptyString.
Proof.
  unfold assist_prelude. intros H.
  destruct (recommend_channel _ _ _ _) as [[[best backup] details]|e];
    simpl in H; [|discriminate].
  destruct (iter_strs _) as [req|e]; simpl in H; [|discriminate].
  injection H as <-. cbn [g_best g_backup]. split.
  - destruct best as [c|]; [|discriminate].
    destruct (String.eqb_spec c EmptyString); [discriminate|assumption].
  - destruct backup as [c|]; [|discriminate].
    destruct (String.eqb_spec c EmptyString); [discriminate|assumption].
Qed.

Lemma assist_prelude_mem_pref rank store rq rt g :
  assist_prelude rank store rq rt = Ok g ->
  g_mem_pref g
  = match List.find is_preference (memory_get rank store (user_id rq) 20) with
    | Some h =>
        match preferred_channel rq with
        | Some p => if String.eqb p EmptyString
                    then text_field (pt_payload h) "pref_channel"
                    else Some p
        | None => text_field (pt_payload h) "pref_channel"
        end
    | None => preferred_channel rq
    end.
Proof.
  unfold assist_prelude. intros H.
  destruct (recommend_channel _ _ _ _) as [[[best backup] details]|e];
    simpl in H; [|discriminate].
  destruct (iter_strs _) as [req|e]; simpl in H; [|discriminate].
  injection H as <-. reflexivity.
Qed.

(** X22. [assist_new] writes to the memory only when it decides: an
    information request leaves the store as it was, and a final decision
    leaves the store that [reinforce_preference] gives for the best
    channel of the decision, which, like the backup channel, is never the
    empty string. For a user without records in a store with unique ids,
    the next request of that user that names no preferred channel is
    answered with that best channel as the remembered preference. *)
Theorem assist_feedback_loop :
  forall rank, (forall l, Permutation (rank l) l) ->
  forall ck (store : memory_store) (rq : request) (rt : retrieved) res store',
    assist_new rank ck store rq rt = Ok (res, store') ->
    (need_more_info res = true -> store' = store)
    /\ (forall d, res = FinalDecision d ->
          dec_best_channel d <> EmptyString
          /\ dec_backup_channel d <> EmptyString
          /\ reinforce_preference rank ck store (user_id rq) (dec_best_channel d) 180
             = Ok store'
          /\ (List.NoDup (map pt_id store) ->
              (forall q, In q store ->
                         match_str (pt_payload q) "user_id" (user_id rq) = false) ->
              forall (rq' : request) (rt' : retrieved) g',
                user_id rq' = user_id rq ->
                preferred_channel rq' = None
                \/ preferred_channel rq' = Some EmptyString ->
                assist_prelude rank store' rq' rt' = Ok g' ->
                g_mem_pref g' = Some (dec_best_channel d))).
Proof.
  intros rank Hrank ck store rq rt res store' H.
  destruct (assist_new_cases _ _ _ _ _ _ _ H)
    as (g & Hg & [(_ & _ & -> & ->)|(_ & d & -> & Hf)]).
  - split; [reflexivity|]. intros d [=].
  - split; [discriminate|]. intros d' [= <-].
    destruct (finalize_fields _ _ _ _ _ _ _ _ Hf) as (_ & _ & Hb & Hk & _ & Hr).
    destruct (assist_prelude_channels _ _ _ _ _ Hg) as [Hbn Hkn].
    rewrite Hb, Hk. split; [exact Hbn|]. split; [exact Hkn|]. split; [exact Hr|].
    intros Hnd Hnone rq' rt' g' Hu Hp Hg'.
    set (user := user_id rq) in *. set (best := g_best g) in *.
    set (p1 := created_preference ck user best 180).
    assert (Hnone' : forall q, In q store -> memory_filter user q = false).
    { intros q Hq. unfold memory_filter. rewrite (Hnone q Hq). reflexivity. }
    assert (E1 : reinforce_preference rank ck store user best 180
                 = Ok (store_upsert p1 store)).
    { apply reinforce_create. apply find_none_all. intros x Hx.
      apply (memory_get_subset _ _ _ _ _ Hrank) in Hx as [Hin Hfx].
      rewrite (Hnone' x Hin) in Hfx. discriminate. }
    rewrite E1 in Hr. injection Hr as <-.
    destruct (created_is_visible ck user best 180) as (V1 & _ & P1).
    destruct (created_lookups ck user best 180) as (_ & _ & _ & C1 & _).
    fold p1 in V1, P1, C1.
    assert (F1 : List.filter (memory_filter user) (store_upsert p1 store) = [p1])
      by (apply filter_upsert_new; assumption).
    rewrite (assist_prelude_mem_pref _ _ _ _ _ Hg'), Hu.
    fold user. rewrite (memory_get_single _ _ _ _ Hrank F1).
    cbn [List.find]. rewrite P1.
    assert (T : text_field (pt_payload p1) "pref_channel" = Some best).
    { unfold text_field, dict_get. rewrite C1.
      destruct (String.eqb_spec best EmptyString); [contradiction|reflexivity]. }
    destruct Hp as [->| ->]; [exact T|]. cbn. exact T.
Qed.

Lemma assist_feedback_loop_witness :
  exists res store',
    assist_new stored_order example_clock [] (pothole_request true false)
      (pothole_retrieved [pothole_hit (Some 0.9%Q) None] [])
    = Ok (res, store')
    /\ (need_more_info res = true -> store' = [])
    /\ forall d, res = FinalDecision d -> dec_best_channel d <> EmptyString.
Proof.
  destruct (assist_new stored_order example_clock [] (pothole_request true false)
              (pothole_retrieved [pothole_hit (Some 0.9%Q) None] []))
    as [[res store']|e] eqn:E; [|vm_compute in E; discriminate E].
  exists res, store'. split; [reflexivity|].
  destruct (assist_feedback_loop stored_order stored_order_perm example_clock []
              (pothole_request true false)
              (pothole_retrieved [pothole_hit (Some 0.9%Q) None] [])
              res store' E) as [N F].
  split; [exact N|]. intros d Hd. exact (proj1 (F d Hd)).
Defined.
